(** * iothub-explorer: shared utilities, logout and device simulation

    A shallow embedding of
      - tools/iothub-explorer/common.js
      - the logout command of iothub-explorer
      - tools/iothub-explorer/iothub-explorer-simulate-device.js
    The commands are Node.js scripts: synchronous code is embedded in a
    state-and-outcome monad over an explicit [world] (file system, console,
    clock, network trace); [process.exit] and uncaught exceptions are the
    two abnormal outcomes.  The callback-driven part of the simulation is a
    transition function over the callbacks the event loop delivers. *)

From Stdlib Require Import ZArith String Ascii List Bool Lia.
From stdpp Require Import base option gmap strings list pretty.

Set Warnings "-register-all".

Local Open Scope Z_scope.
Local Open Scope string_scope.

(* ===================================================================== *)
(** ** JavaScript values the scripts manipulate *)
(* ===================================================================== *)

Module JS.

(** The class of an error object.  [SyntaxError] and [TypeError] are the
    built-in classes, [ArgumentError] is the class of azure-iot-common the
    scripts test with [instanceof], [PlainError] is [Error] itself.
    [OtherError ctor name] is any other class that derives from [Error]
    directly, such as the service errors of azure-iot-common
    ([DeviceNotFoundError], ...): [ctor] is the name of its constructor
    and [name] the [name] property its instances carry. *)
Inductive err_class :=
| SyntaxError
| TypeError
| ArgumentError
| PlainError
| OtherError (ctor name : string).

Record error := mkError {
  eclass : err_class;
  ecode : option string;      (* [err.code], set by the fs module *)
  emessage : string
}.

(** [err.name] *)
Definition class_name (c : err_class) : string :=
  match c with
  | SyntaxError => "SyntaxError"
  | TypeError => "TypeError"
  | ArgumentError => "ArgumentError"
  | PlainError => "Error"
  | OtherError _ name => name
  end.

(** [err.constructor.name] *)
Definition constructor_name (e : error) : string :=
  match eclass e with
  | OtherError ctor _ => ctor
  | c => class_name c
  end.

(** [Error.prototype.toString]: the name alone without a message, the
    message alone without a name, and [name: message] otherwise. *)
Definition toString (e : error) : string :=
  let name := class_name (eclass e) in
  if String.eqb name EmptyString then emessage e
  else if String.eqb (emessage e) EmptyString then name
  else name +:+ ": " +:+ emessage e.

Definition err_class_eqb (a b : err_class) : bool :=
  match a, b with
  | SyntaxError, SyntaxError | TypeError, TypeError
  | ArgumentError, ArgumentError | PlainError, PlainError => true
  | OtherError c n, OtherError c' n' => String.eqb c c' && String.eqb n n'
  | _, _ => false
  end.

(** [e instanceof C], for a class [C] other than [Error]. *)
Definition instanceof (e : error) (c : err_class) : bool :=
  err_class_eqb (eclass e) c.

(** Truthiness of a value that is a string, [undefined] or [null]. *)
Definition truthy (v : option string) : bool :=
  match v with
  | Some s => negb (String.eqb s EmptyString)
  | None => false
  end.

(** String conversion of such a value in a concatenation. *)
Definition str (v : option string) : string :=
  match v with
  | Some s => s
  | None => "undefined"
  end.

(** Truthiness of a number that may be [undefined] or [NaN] ([None]). *)
Definition truthy_num (v : option Z) : bool :=
  match v with
  | Some n => negb (n =? 0)%Z
  | None => false
  end.

Definition MAX_SAFE_INTEGER : Z := 2 ^ 53 - 1.

(** The result of a library call that either returns or throws. *)
Inductive result (A : Type) := Ok (a : A) | Raise (e : error).
Arguments Ok {A} a.
Arguments Raise {A} e.

End JS.
Export JS.

(* ===================================================================== *)
(** ** JSON.parse *)
(* ===================================================================== *)

(** The built-in [JSON.parse], over byte strings: the grammar of ECMA-404.
    Numbers keep their lexeme; a [\uXXXX] escape is stored as the UTF-8
    bytes of its code unit. *)
Module JSON.

Inductive value :=
| JNull
| JBool (b : bool)
| JNumber (lexeme : string)
| JString (s : string)
| JArray (elems : list value)
| JObject (members : list (string * value)).

Definition dquote : ascii := "034"%char.
Definition backslash : ascii := "092"%char.

Definition code (c : ascii) : N := N_of_ascii c.

Definition is_ws (c : ascii) : bool :=
  let n := code c in
  ((n =? 32) || (n =? 9) || (n =? 10) || (n =? 13))%N.

Definition is_digit (c : ascii) : bool :=
  let n := code c in ((48 <=? n) && (n <=? 57))%N.

Definition hex_val (c : ascii) : option N :=
  let n := code c in
  if ((48 <=? n) && (n <=? 57))%N then Some (n - 48)%N
  else if ((65 <=? n) && (n <=? 70))%N then Some (n - 55)%N
  else if ((97 <=? n) && (n <=? 102))%N then Some (n - 87)%N
  else None.

Fixpoint skip_ws (s : string) : string :=
  match s with
  | String c r => if is_ws c then skip_ws r else s
  | EmptyString => s
  end.

(** [strip p s] removes the prefix [p] from [s]. *)
Fixpoint strip (p s : string) : option string :=
  match p, s with
  | EmptyString, _ => Some s
  | String a p', String b s' => if Ascii.eqb a b then strip p' s' else None
  | String _ _, EmptyString => None
  end.

(** Longest run of digits, with the rest. *)
Fixpoint digits (s : string) : string * string :=
  match s with
  | String c r =>
      if is_digit c then let '(d, r') := digits r in (String c d, r')
      else (EmptyString, s)
  | EmptyString => (EmptyString, s)
  end.

Definition nonempty (s : string) : bool := negb (String.eqb s EmptyString).

(** int part: [0] or a run of digits that does not start with [0]. *)
Definition int_part (s : string) : option (string * string) :=
  match s with
  | String c r =>
      if (code c =? 48)%N then Some ("0", r)
      else if is_digit c then Some (digits s)
      else None
  | EmptyString => None
  end.

Definition frac_part (s : string) : option (string * string) :=
  match s with
  | String c r =>
      if (code c =? 46)%N then
        let '(d, r') := digits r in
        if nonempty d then Some (String c d, r') else None
      else Some (EmptyString, s)
  | EmptyString => Some (EmptyString, s)
  end.

Definition exp_part (s : string) : option (string * string) :=
  match s with
  | String c r =>
      if ((code c =? 101) || (code c =? 69))%N then
        let '(sign, r1) :=
          match r with
          | String g r' =>
              if ((code g =? 43) || (code g =? 45))%N
              then (String g EmptyString, r') else (EmptyString, r)
          | EmptyString => (EmptyString, r)
          end in
        let '(d, r2) := digits r1 in
        if nonempty d then Some (String c (sign +:+ d), r2) else None
      else Some (EmptyString, s)
  | EmptyString => Some (EmptyString, s)
  end.

Definition parse_number (s : string) : option (string * string) :=
  let '(sign, s1) :=
    match s with
    | String c r => if (code c =? 45)%N then ("-", r) else (EmptyString, s)
    | EmptyString => (EmptyString, s)
    end in
  match int_part s1 with
  | Some (i, s2) =>
      match frac_part s2 with
      | Some (f, s3) =>
          match exp_part s3 with
          | Some (e, s4) => Some (sign +:+ i +:+ f +:+ e, s4)
          | None => None
          end
      | None => None
      end
  | None => None
  end.

Definition byte (n : N) : ascii := ascii_of_N n.

(** UTF-8 bytes of one UTF-16 code unit. *)
Definition utf8 (u : N) : string :=
  (if u <? 128 then String (byte u) EmptyString
   else if u <? 2048 then
     String (byte (192 + u / 64)) (String (byte (128 + u mod 64)) EmptyString)
   else
     String (byte (224 + u / 4096))
       (String (byte (128 + (u / 64) mod 64))
          (String (byte (128 + u mod 64)) EmptyString)))%N.

Definition hex4 (s : string) : option (N * string) :=
  match s with
  | String a (String b (String c (String d r))) =>
      match hex_val a, hex_val b, hex_val c, hex_val d with
      | Some x, Some y, Some z, Some w =>
          Some (((x * 16 + y) * 16 + z) * 16 + w, r)%N
      | _, _, _, _ => None
      end
  | _ => None
  end.

Definition escape (c : ascii) : option ascii :=
  let n := code c in
  (if n =? 34 then Some dquote
   else if n =? 92 then Some backslash
   else if n =? 47 then Some "/"%char
   else if n =? 98 then Some (byte 8)
   else if n =? 102 then Some (byte 12)
   else if n =? 110 then Some (byte 10)
   else if n =? 114 then Some (byte 13)
   else if n =? 116 then Some (byte 9)
   else None)%N.

(** Body of a string literal, after the opening quote. *)
Fixpoint parse_chars (fuel : nat) (s : string) : option (string * string) :=
  match fuel with
  | O => None
  | S fuel' =>
      match s with
      | EmptyString => None
      | String c r =>
          if (code c =? 34)%N then Some (EmptyString, r)
          else if (code c =? 92)%N then
            match r with
            | String e r' =>
                if (code e =? 117)%N then
                  match hex4 r' with
                  | Some (u, r2) =>
                      match parse_chars fuel' r2 with
                      | Some (t, r3) => Some (utf8 u +:+ t, r3)
                      | None => None
                      end
                  | None => None
                  end
                else
                  match escape e with
                  | Some x =>
                      match parse_chars fuel' r' with
                      | Some (t, r3) => Some (String x t, r3)
                      | None => None
                      end
                  | None => None
                  end
            | EmptyString => None
            end
          else if (code c <? 32)%N then None
          else
            match parse_chars fuel' r with
            | Some (t, r3) => Some (String c t, r3)
            | None => None
            end
      end
  end.

Definition parse_string (s : string) : option (string * string) :=
  match s with
  | String c r =>
      if (code c =? 34)%N then parse_chars (S (String.length r)) r else None
  | EmptyString => None
  end.

(** Elements after the first one of an array: [, value]* followed by "]". *)
Fixpoint parse_elements (pv : string -> option (value * string))
    (fuel : nat) (s : string) : option (list value * string) :=
  match fuel with
  | O => None
  | S fuel' =>
      match skip_ws s with
      | String c r =>
          if (code c =? 93)%N then Some (nil, r)
          else if (code c =? 44)%N then
            match pv r with
            | Some (v, r1) =>
                match parse_elements pv fuel' r1 with
                | Some (vs, r2) => Some (v :: vs, r2)
                | None => None
                end
            | None => None
            end
          else None
      | EmptyString => None
      end
  end.

Definition parse_member (pv : string -> option (value * string))
    (s : string) : option ((string * value) * string) :=
  match parse_string (skip_ws s) with
  | Some (k, r) =>
      match skip_ws r with
      | String c r1 =>
          if (code c =? 58)%N then
            match pv r1 with
            | Some (v, r2) => Some ((k, v), r2)
            | None => None
            end
          else None
      | EmptyString => None
      end
  | None => None
  end.

(** Members after the first one of an object. *)
Fixpoint parse_members (pv : string -> option (value * string))
    (fuel : nat) (s : string) : option (list (string * value) * string) :=
  match fuel with
  | O => None
  | S fuel' =>
      match skip_ws s with
      | String c r =>
          if (code c =? 125)%N then Some (nil, r)
          else if (code c =? 44)%N then
            match parse_member pv r with
            | Some (m, r1) =>
                match parse_members pv fuel' r1 with
                | Some (ms, r2) => Some (m :: ms, r2)
                | None => None
                end
            | None => None
            end
          else None
      | EmptyString => None
      end
  end.

(** One value, leading white space skipped.  Every recursive call is on a
    strictly shorter input, so [S (length s)] units of fuel are enough. *)
Fixpoint parse_value (fuel : nat) (s : string) : option (value * string) :=
  match fuel with
  | O => None
  | S fuel' =>
      let s0 := skip_ws s in
      match s0 with
      | EmptyString => None
      | String c r =>
          let n := code c in
          if (n =? 110)%N then
            match strip "null" s0 with Some r' => Some (JNull, r') | None => None end
          else if (n =? 116)%N then
            match strip "true" s0 with Some r' => Some (JBool true, r') | None => None end
          else if (n =? 102)%N then
            match strip "false" s0 with Some r' => Some (JBool false, r') | None => None end
          else if (n =? 34)%N then
            match parse_string s0 with
            | Some (t, r') => Some (JString t, r')
            | None => None
            end
          else if (n =? 91)%N then
            match skip_ws r with
            | String c1 r1 =>
                if (code c1 =? 93)%N then Some (JArray nil, r1)
                else
                  match parse_value fuel' r with
                  | Some (v, r2) =>
                      match parse_elements (parse_value fuel') fuel' r2 with
                      | Some (vs, r3) => Some (JArray (v :: vs), r3)
                      | None => None
                      end
                  | None => None
                  end
            | EmptyString => None
            end
          else if (n =? 123)%N then
            match skip_ws r with
            | String c1 r1 =>
                if (code c1 =? 125)%N then Some (JObject nil, r1)
                else
                  match parse_member (parse_value fuel') r with
                  | Some (m, r2) =>
                      match parse_members (parse_value fuel') fuel' r2 with
                      | Some (ms, r3) => Some (JObject (m :: ms), r3)
                      | None => None
                      end
                  | None => None
                  end
            | EmptyString => None
            end
          else
            match parse_number s0 with
            | Some (l, r') => Some (JNumber l, r')
            | None => None
            end
      end
  end.

Definition syntax_error : JS.error :=
  mkError SyntaxError None "Unexpected token in JSON".

(** [JSON.parse(text)]: a value, or a thrown [SyntaxError]. *)
Definition parse (text : string) : result value :=
  match parse_value (S (String.length text)) text with
  | Some (v, r) =>
      match skip_ws r with
      | EmptyString => Ok v
      | String _ _ => Raise syntax_error
      end
  | None => Raise syntax_error
  end.

End JSON.

(* ===================================================================== *)
(** ** The process and its environment *)
(* ===================================================================== *)

(** A path of the file system: a readable file, or one whose access fails
    with an error of the operating system (EACCES, EISDIR, ...).  A path
    that is not in the map does not exist (ENOENT). *)
Inductive fnode :=
| File (content : string)
| Faulty (e : JS.error).

(** Body of a message: raw text, or a parsed JSON payload. *)
Inductive body :=
| Text (s : string)
| Json (v : JSON.value).

(** [Message] of azure-iot-common, with the fields the tools set. *)
Record Message := mkMessage {
  data : body;
  messageId : option string;
  ack : option string
}.

(** What [createMessageFromArgument] hands to [client.sendEvent]: the
    parsed structure itself, or a new envelope. *)
Inductive outgoing :=
| Parsed (v : JSON.value)
| Envelope (m : Message).

(** Calls that reach the service. *)
Inductive net_event :=
| RegistryGet (deviceId : string)
| ClientOpen (connectionString protocol : string)
| SendEvent (m : outgoing)
| Settle (method : string)
| UploadToBlob (blobName : string) (size : Z)
| ClientClose.

Record world := mkWorld {
  platform : string;                 (* process.platform *)
  HOME : option string;              (* process.env.HOME *)
  LOCALAPPDATA : option string;      (* process.env.LOCALAPPDATA *)
  fs : gmap string fnode;
  now : Z;                           (* Date.now(), milliseconds *)
  entropy : nat;                     (* state of the uuid generator *)
  console : list string;             (* lines written, oldest first *)
  net : list net_event               (* service calls, oldest first *)
}.

Definition set_fs (f : gmap string fnode) (w : world) : world :=
  mkWorld (platform w) (HOME w) (LOCALAPPDATA w) f (now w) (entropy w)
    (console w) (net w).

Definition set_entropy (n : nat) (w : world) : world :=
  mkWorld (platform w) (HOME w) (LOCALAPPDATA w) (fs w) (now w) n
    (console w) (net w).

Definition add_console (line : string) (w : world) : world :=
  mkWorld (platform w) (HOME w) (LOCALAPPDATA w) (fs w) (now w) (entropy w)
    (console w ++ [line]) (net w).

Definition add_net (e : net_event) (w : world) : world :=
  mkWorld (platform w) (HOME w) (LOCALAPPDATA w) (fs w) (now w) (entropy w)
    (console w) (net w ++ [e]).

(** How a piece of synchronous code ends: it returns, the process exits
    ([process.exit]), or an exception is thrown. *)
Inductive outcome (A : Type) :=
| Ret (a : A)
| Exit (code : Z)
| Throw (e : JS.error).
Arguments Ret {A} a.
Arguments Exit {A} code.
Arguments Throw {A} e.

Definition M (A : Type) : Type := world -> outcome A * world.

Definition ret {A} (a : A) : M A := fun w => (Ret a, w).

Definition bind {A B} (c : M A) (k : A -> M B) : M B :=
  fun w =>
    match c w with
    | (Ret a, w') => k a w'
    | (Exit n, w') => (Exit n, w')
    | (Throw e, w') => (Throw e, w')
    end.

Notation "'do' x <- c ; k" := (bind c (fun x => k))
  (at level 10, x name, c at level 100, k at level 200).

Definition throw {A} (e : JS.error) : M A := fun w => (Throw e, w).

(** [process.exit(code)] *)
Definition process_exit {A} (code : Z) : M A := fun w => (Exit code, w).

(** [try { c } catch (e) { h e }]: only a thrown exception is caught. *)
Definition try_catch {A} (c : M A) (h : JS.error -> M A) : M A :=
  fun w =>
    match c w with
    | (Throw e, w') => h e w'
    | r => r
    end.

(** A library call that may throw. *)
Definition lift {A} (r : result A) : M A :=
  match r with
  | Ok a => ret a
  | Raise e => throw e
  end.

(** [if (b) c;] *)
Definition when (b : bool) (c : M unit) : M unit :=
  if b then c else ret tt.

Definition console_log (line : string) : M unit :=
  fun w => (Ret tt, add_console line w).

Definition call_service (e : net_event) : M unit :=
  fun w => (Ret tt, add_net e w).

(** [Date.now()] *)
Definition Date_now : M Z := fun w => (Ret (now w), w).

Definition ENOENT (path : string) : JS.error :=
  mkError PlainError (Some "ENOENT")
    ("ENOENT: no such file or directory, " +:+ path).

(** [fs.readFileSync(path, 'utf8')] *)
Definition readFileSync (path : string) : M string :=
  fun w =>
    match fs w !! path with
    | Some (File c) => (Ret c, w)
    | Some (Faulty e) => (Throw e, w)
    | None => (Throw (ENOENT path), w)
    end.

(** [fs.unlinkSync(path)] *)
Definition unlinkSync (path : string) : M unit :=
  fun w =>
    match fs w !! path with
    | Some (File _) => (Ret tt, set_fs (delete path (fs w)) w)
    | Some (Faulty e) => (Throw e, w)
    | None => (Throw (ENOENT path), w)
    end.

(** [err.code === c] *)
Definition code_is (e : JS.error) (c : string) : bool :=
  match ecode e with
  | Some c' => String.eqb c' c
  | None => false
  end.

(** Fields of a parsed service connection string that [getSas] reads. *)
Record cn_fields := mkCn {
  HostName : string;
  SharedAccessKeyName : string;
  SharedAccessKey : string
}.

(** The packages the tools require and that are not part of this
    repository's sources: colors-tmpl, prettyjson, uuid, azure-iothub and
    azure-iot-device. *)
Class Packages := {
  colorsTmpl : string -> string;
  prettyjson_render : string -> string;
  (* uuid.v4(), as a function of the generator's state *)
  uuid_v4 : nat -> string;
  (* azure-iothub: ConnectionString.parse *)
  ConnectionString_parse : string -> result cn_fields;
  (* azure-iothub: SharedAccessSignature.create(h, n, k, expiry).toString() *)
  SharedAccessSignature_create : string -> string -> string -> Z -> string;
  (* azure-iothub: SharedAccessSignature.parse(sas).sr *)
  SharedAccessSignature_parse_sr : string -> result string;
  (* azure-iothub: Registry.fromSharedAccessSignature *)
  Registry_fromSharedAccessSignature : string -> result unit;
  (* azure-iot-device: ConnectionString.parse(cs).DeviceId *)
  DeviceConnectionString_parse_DeviceId : string -> result string;
  (* azure-iot-device: Client.fromConnectionString *)
  DeviceClient_fromConnectionString : string -> string -> result unit
}.

(* ===================================================================== *)
(** ** common.js *)
(* ===================================================================== *)

(** A device record of the registry, with the fields the tools read. *)
Record SymmetricKey_t := mkSymmetricKey {
  primaryKey : option string;
  secondaryKey : option string
}.

Record x509Thumbprint_t := mkThumbprint {
  primaryThumbprint : option string;
  secondaryThumbprint : option string
}.

Record authentication_t := mkAuthentication {
  SymmetricKey : SymmetricKey_t;
  x509Thumbprint : x509Thumbprint_t
}.

Record deviceInfo_t := mkDeviceInfo {
  deviceId : string;
  authentication : authentication_t
}.

(** The argument of [serviceError]: an error object or a string. *)
Inductive err_arg :=
| ErrObject (e : JS.error)
| ErrString (s : string).

Definition err_toString (err : err_arg) : string :=
  match err with
  | ErrObject e => JS.toString e
  | ErrString s => s
  end.

(** [err.message] *)
Definition err_message (e : JS.error) : string := emessage e.

Record loc_t := mkLoc { dir : string; file : string }.

Definition newline : string := String "010"%char EmptyString.

Definition undefined_member (name : string) : JS.error :=
  mkError TypeError None
    ("Cannot read property '" +:+ name +:+ "' of undefined").

(** Member access on a variable that may hold [undefined]. *)
Definition member {A} (name : string) (x : option A) : M A :=
  match x with
  | Some a => ret a
  | None => throw (undefined_member name)
  end.

(** [o[name]] on a parsed object: the last member of that name. *)
Fixpoint json_member (name : string) (ms : list (string * JSON.value))
    : option JSON.value :=
  match ms with
  | [] => None
  | (k, v) :: ms' =>
      match json_member name ms' with
      | Some v' => Some v'
      | None => if String.eqb k name then Some v else None
      end
  end.

(** A number is falsy when its mantissa is zero. *)
Fixpoint mantissa_zero (lexeme : string) : bool :=
  match lexeme with
  | EmptyString => true
  | String c r =>
      if ((JSON.code c =? 101) || (JSON.code c =? 69))%N then true
      else if JSON.is_digit c && negb (JSON.code c =? 48)%N then false
      else mantissa_zero r
  end.

Definition json_truthy (v : JSON.value) : bool :=
  match v with
  | JSON.JNull => false
  | JSON.JBool b => b
  | JSON.JNumber l => negb (mantissa_zero l)
  | JSON.JString s => negb (String.eqb s EmptyString)
  | JSON.JArray _ | JSON.JObject _ => true
  end.

(** Truthiness of [message.messageId], where [message] is a local
    variable that holds [undefined] until it is assigned. *)
Definition messageId_truthy (message : option outgoing) : M bool :=
  match message with
  | None => throw (undefined_member "messageId")
  | Some (Envelope m) => ret (truthy (messageId m))
  | Some (Parsed JSON.JNull) =>
      throw (mkError TypeError None "Cannot read property 'messageId' of null")
  | Some (Parsed (JSON.JObject ms)) =>
      ret (match json_member "messageId" ms with
           | Some v => json_truthy v
           | None => false
           end)
  | Some (Parsed _) => ret false
  end.

Module Common.
Section WithPackages.

Context `{P : Packages}.

Definition createDeviceConnectionString (deviceInfo : deviceInfo_t)
    (hubHostName : string) : option string :=
  let cs := "HostName=" +:+ hubHostName +:+ ";DeviceId=" +:+ deviceId deviceInfo in
  let key := SymmetricKey (authentication deviceInfo) in
  let thumb := x509Thumbprint (authentication deviceInfo) in
  if truthy (primaryKey key) then
    Some (cs +:+ ";SharedAccessKey=" +:+ JS.str (primaryKey key))
  else if truthy (secondaryKey key) then
    Some (cs +:+ ";SharedAccessKey=" +:+ JS.str (secondaryKey key))
  else if truthy (primaryThumbprint thumb) || truthy (secondaryThumbprint thumb) then
    Some (cs +:+ "x509=true")
  else
    None.

(** [uuid.v4()] *)
Definition uuid : M string :=
  fun w => (Ret (uuid_v4 (entropy w)), set_entropy (S (entropy w)) w).

(** The inner function [createMessage] of [createMessageFromArgument]. *)
Definition createMessage (ack : option string) (b : body) : M Message :=
  do id <- uuid;
  ret (mkMessage b (Some id) (if truthy ack then ack else None)).

Definition createMessageFromArgument (messageArg : string)
    (ack : option string) : M outgoing :=
  let message : option outgoing := None in
  try_catch
    (do tmpMessage <- lift (JSON.parse messageArg);
     do hasId <- messageId_truthy message;
     if hasId then ret (Parsed tmpMessage)
     else do msg <- createMessage ack (Json tmpMessage); ret (Envelope msg))
    (fun e =>
       if instanceof e SyntaxError then
         do msg <- createMessage ack (Text messageArg); ret (Envelope msg)
       else throw e).

(** The line [printError] writes. *)
Definition error_line (prefix message : string) : string :=
  colorsTmpl (newline +:+ "{bold}{red}" +:+ prefix +:+ "{/red}{/bold} " +:+ message).

Definition printError (message : string) (prefix : option string) : M unit :=
  let prefix := if negb (truthy prefix) then "Error:" else JS.str prefix in
  do _ <- console_log (error_line prefix message);
  process_exit 1.

Definition inputError (message : string) : M unit :=
  printError message (Some "Input Error:").

Definition serviceError (err : err_arg) : M unit :=
  let message := err_toString err in
  let message :=
    if String.prefix "Error:" message
    then String.substring 6 (String.length message - 6) message
    else message in
  printError message None.

(** The line [printSuccess] writes. *)
Definition success_line (message : string) : string :=
  colorsTmpl ("{green}" +:+ message +:+ "{/green}").

Definition printSuccess (message : string) : M unit :=
  console_log (success_line message).

Definition configLoc : M (option loc_t) :=
  fun w =>
    if String.eqb (platform w) "darwin" then
      (Ret (Some (mkLoc (JS.str (HOME w) +:+ "/Library/Application Support/iothub-explorer")
                        "config")), w)
    else if String.eqb (platform w) "linux" then
      (Ret (Some (mkLoc (JS.str (HOME w)) ".iothub-explorer")), w)
    else if String.eqb (platform w) "win32" then
      (Ret (Some (mkLoc (JS.str (LOCALAPPDATA w) +:+ "/iothub-explorer") "config")), w)
    else
      (do _ <- inputError "'login' not supported on this platform"; ret None) w.

(** The path of the session file, [loc.dir + '/' + loc.file], on the
    platforms [configLoc] knows. *)
Definition session_file (w : world) : option string :=
  match fst (configLoc w) with
  | Ret (Some loc) => Some (dir loc +:+ "/" +:+ file loc)
  | _ => None
  end.

Definition loadSasFromUserFile : M (option string) :=
  do loc <- configLoc;
  try_catch
    (do l <- member "dir" loc;
     do sas <- readFileSync (dir l +:+ "/" +:+ file l);
     ret (Some sas))
    (fun err =>
       if negb (code_is err "ENOENT") then throw err else ret None).

Definition login_first : string :=
  "You must either use the login command or the --login argument for iothub-explorer to authenticate with your IoT Hub instance".

Definition getSas (connectionString : option string) : M (option string) :=
  do sas <-
    (if truthy connectionString then
       do cn <-
         try_catch
           (do c <- lift (ConnectionString_parse (JS.str connectionString));
            ret (Some c))
           (fun e =>
              if instanceof e ArgumentError then
                do _ <- inputError ("Could not parse connection string: "
                                    +:+ JS.str connectionString);
                ret None
              else throw e);
       do t <- Date_now;
       let expiry := t / 1000 + 3600 in
       do c <- member "HostName" cn;
       ret (Some (SharedAccessSignature_create
                    (HostName c) (SharedAccessKeyName c) (SharedAccessKey c) expiry))
     else loadSasFromUserFile);
  do _ <-
    (if negb (truthy sas) then
       inputError login_first
     else ret tt);
  ret sas.

Definition getHostFromSas (sas : string) : M string :=
  lift (SharedAccessSignature_parse_sr sas).

End WithPackages.
End Common.

(* ===================================================================== *)
(** ** The logout command *)
(* ===================================================================== *)

Module Logout.
Section WithPackages.

Context `{P : Packages}.

(** The body of the script, after the command line is parsed. *)
Definition logout : M unit :=
  do loc <- Common.configLoc;
  try_catch
    (do l <- member "dir" loc;
     do _ <- unlinkSync (dir l +:+ "/" +:+ file l);
     Common.printSuccess "Session successfully terminated.")
    (fun err =>
       if code_is err "ENOENT" then
         Common.printError "No session information found." None
       else throw err).

End WithPackages.
End Logout.

(* ===================================================================== *)
(** ** iothub-explorer-simulate-device.js *)
(* ===================================================================== *)

Module Simulate.

(** [program.send]: [undefined], [true] (the flag without a message) or
    the message text. *)
Inductive send_opt :=
| SendUnset
| SendFlag
| SendText (message : string).

Definition send_truthy (s : send_opt) : bool :=
  match s with
  | SendUnset => false
  | SendFlag => true
  | SendText m => truthy (Some m)
  end.

(** The options object once commander has parsed the command line; the
    numeric options went through [parseInt] ([None] is [undefined] or
    [NaN]), [protocol] through [verifyProtocol] and [settle] through
    [verifySettle]. *)
Record program_t := mkProgram {
  connectionString : option string;
  login : option string;
  protocol : option string;
  send : send_opt;
  sendInterval : option Z;
  sendCount : option Z;
  receive : bool;
  receiveCount : option Z;
  settle : option string;
  uploadFile : option string;
  args : list string
}.

Inductive Protocol_t := AmqpWs | Http | Mqtt | Amqp.

Definition Protocol_name (p : Protocol_t) : string :=
  match p with
  | AmqpWs => "amqp-ws"
  | Http => "http"
  | Mqtt => "mqtt"
  | Amqp => "amqp"
  end.

(** The variables of the script that are set once, by the top level. *)
Record script := mkScript {
  program : program_t;
  sas : option string;
  settleMethod : string;
  Protocol : Protocol_t;
  sendInterval_ms : Z;
  sendCount_max : Z;
  receiveCount_max : Z;
  uploadFilePath : option string
}.

(** The variables the callbacks update, and what the event loop holds:
    the timers and the listener that are armed and the callbacks of
    service calls that are still to come. *)
Record state := mkState {
  deviceConnectionString : option string;
  sendRunning : bool;
  receiveRunning : bool;
  uploadRunning : bool;
  sendCounter : Z;
  receiveCounter : Z;
  registry_pending : bool;
  open_pending : bool;
  sendItv : bool;
  sends_pending : nat;
  listening : bool;
  settles_pending : nat;
  stat_pending : bool;
  upload_pending : bool;
  taskItv : bool;
  closes_pending : nat
}.

(** Nothing is armed and nothing is outstanding. *)
Definition idle (dcs : option string) : state :=
  mkState dcs false false false 0 0 false false false 0 false 0 false false false 0.

(** [registry.get] has been called. *)
Definition awaiting_registry : state :=
  mkState None false false false 0 0 true false false 0 false 0 false false false 0.

(** [client.open] has been called. *)
Definition connecting (dcs : option string)
    (sendRunning receiveRunning uploadRunning : bool) : state :=
  mkState dcs sendRunning receiveRunning uploadRunning 0 0
    false true false 0 false 0 false false false 0.

(** What the event loop delivers to the script. *)
Inductive callback :=
| RegistryGot (err : option JS.error) (deviceInfo : option deviceInfo_t)
| Opened (err : option JS.error)
| SendTick
| Sent (err : option JS.error)
| MessageEvent (text : string)                 (* msg.data.toString() *)
| Settled (err : option JS.error)
| Stat (err : option JS.error) (size : option Z) (* fileStats.size *)
| Uploaded (err : option JS.error)
| TaskTick
| Closed (err : option JS.error).

(** Assignments to one variable or handle. *)
Definition set_sendRunning (v : bool) (st : state) : state :=
  mkState (deviceConnectionString st) v (receiveRunning st)
    (uploadRunning st) (sendCounter st) (receiveCounter st)
    (registry_pending st) (open_pending st) (sendItv st) (sends_pending st)
    (listening st) (settles_pending st) (stat_pending st) (upload_pending st)
    (taskItv st) (closes_pending st).

Definition set_receiveRunning (v : bool) (st : state) : state :=
  mkState (deviceConnectionString st) (sendRunning st) v (uploadRunning st)
    (sendCounter st) (receiveCounter st) (registry_pending st)
    (open_pending st) (sendItv st) (sends_pending st) (listening st)
    (settles_pending st) (stat_pending st) (upload_pending st) (taskItv st)
    (closes_pending st).

Definition set_uploadRunning (v : bool) (st : state) : state :=
  mkState (deviceConnectionString st) (sendRunning st) (receiveRunning st) v
    (sendCounter st) (receiveCounter st) (registry_pending st)
    (open_pending st) (sendItv st) (sends_pending st) (listening st)
    (settles_pending st) (stat_pending st) (upload_pending st) (taskItv st)
    (closes_pending st).

Definition set_sendCounter (v : Z) (st : state) : state :=
  mkState (deviceConnectionString st) (sendRunning st) (receiveRunning st)
    (uploadRunning st) v (receiveCounter st) (registry_pending st)
    (open_pending st) (sendItv st) (sends_pending st) (listening st)
    (settles_pending st) (stat_pending st) (upload_pending st) (taskItv st)
    (closes_pending st).

Definition set_receiveCounter (v : Z) (st : state) : state :=
  mkState (deviceConnectionString st) (sendRunning st) (receiveRunning st)
    (uploadRunning st) (sendCounter st) v (registry_pending st)
    (open_pending st) (sendItv st) (sends_pending st) (listening st)
    (settles_pending st) (stat_pending st) (upload_pending st) (taskItv st)
    (closes_pending st).

Definition set_registry_pending (v : bool) (st : state) : state :=
  mkState (deviceConnectionString st) (sendRunning st) (receiveRunning st)
    (uploadRunning st) (sendCounter st) (receiveCounter st) v
    (open_pending st) (sendItv st) (sends_pending st) (listening st)
    (settles_pending st) (stat_pending st) (upload_pending st) (taskItv st)
    (closes_pending st).

Definition set_open_pending (v : bool) (st : state) : state :=
  mkState (deviceConnectionString st) (sendRunning st) (receiveRunning st)
    (uploadRunning st) (sendCounter st) (receiveCounter st)
    (registry_pending st) v (sendItv st) (sends_pending st) (listening st)
    (settles_pending st) (stat_pending st) (upload_pending st) (taskItv st)
    (closes_pending st).

Definition set_sendItv (v : bool) (st : state) : state :=
  mkState (deviceConnectionString st) (sendRunning st) (receiveRunning st)
    (uploadRunning st) (sendCounter st) (receiveCounter st)
    (registry_pending st) (open_pending st) v (sends_pending st)
    (listening st) (settles_pending st) (stat_pending st) (upload_pending st)
    (taskItv st) (closes_pending st).

Definition set_sends_pending (v : nat) (st : state) : state :=
  mkState (deviceConnectionString st) (sendRunning st) (receiveRunning st)
    (uploadRunning st) (sendCounter st) (receiveCounter st)
    (registry_pending st) (open_pending st) (sendItv st) v (listening st)
    (settles_pending st) (stat_pending st) (upload_pending st) (taskItv st)
    (closes_pending st).

Definition set_listening (v : bool) (st : state) : state :=
  mkState (deviceConnectionString st) (sendRunning st) (receiveRunning st)
    (uploadRunning st) (sendCounter st) (receiveCounter st)
    (registry_pending st) (open_pending st) (sendItv st) (sends_pending st) v
    (settles_pending st) (stat_pending st) (upload_pending st) (taskItv st)
    (closes_pending st).

Definition set_settles_pending (v : nat) (st : state) : state :=
  mkState (deviceConnectionString st) (sendRunning st) (receiveRunning st)
    (uploadRunning st) (sendCounter st) (receiveCounter st)
    (registry_pending st) (open_pending st) (sendItv st) (sends_pending st)
    (listening st) v (stat_pending st) (upload_pending st) (taskItv st)
    (closes_pending st).

Definition set_stat_pending (v : bool) (st : state) : state :=
  mkState (deviceConnectionString st) (sendRunning st) (receiveRunning st)
    (uploadRunning st) (sendCounter st) (receiveCounter st)
    (registry_pending st) (open_pending st) (sendItv st) (sends_pending st)
    (listening st) (settles_pending st) v (upload_pending st) (taskItv st)
    (closes_pending st).

Definition set_upload_pending (v : bool) (st : state) : state :=
  mkState (deviceConnectionString st) (sendRunning st) (receiveRunning st)
    (uploadRunning st) (sendCounter st) (receiveCounter st)
    (registry_pending st) (open_pending st) (sendItv st) (sends_pending st)
    (listening st) (settles_pending st) (stat_pending st) v (taskItv st)
    (closes_pending st).

Definition set_taskItv (v : bool) (st : state) : state :=
  mkState (deviceConnectionString st) (sendRunning st) (receiveRunning st)
    (uploadRunning st) (sendCounter st) (receiveCounter st)
    (registry_pending st) (open_pending st) (sendItv st) (sends_pending st)
    (listening st) (settles_pending st) (stat_pending st) (upload_pending st)
    v (closes_pending st).

Definition set_closes_pending (v : nat) (st : state) : state :=
  mkState (deviceConnectionString st) (sendRunning st) (receiveRunning st)
    (uploadRunning st) (sendCounter st) (receiveCounter st)
    (registry_pending st) (open_pending st) (sendItv st) (sends_pending st)
    (listening st) (settles_pending st) (stat_pending st) (upload_pending st)
    (taskItv st) v.

Definition is_some {A} (o : option A) : bool :=
  match o with Some _ => true | None => false end.

Definition lower (c : ascii) : ascii :=
  let n := JSON.code c in
  if ((65 <=? n) && (n <=? 90))%N then ascii_of_N (n + 32) else c.

Fixpoint toLowerCase (s : string) : string :=
  match s with
  | EmptyString => EmptyString
  | String c r => String (lower c) (toLowerCase r)
  end.

(** [path.basename], for a path that does not end in a separator. *)
Fixpoint basename_from (acc s : string) : string :=
  match s with
  | EmptyString => acc
  | String c r =>
      if (JSON.code c =? 47)%N then basename_from r r
      else basename_from acc r
  end.

Definition basename (path : string) : string := basename_from path path.

(** Number of messages handed to [client.sendEvent]. *)
Fixpoint sent (calls : list net_event) : Z :=
  match calls with
  | [] => 0
  | SendEvent _ :: calls' => 1 + sent calls'
  | _ :: calls' => sent calls'
  end.

(** A sequence of callbacks in which the send timer never fires while the
    previous send is unacknowledged; [pending] tells whether one is. *)
Fixpoint one_at_a_time (pending : bool) (cbs : list callback) : bool :=
  match cbs with
  | [] => true
  | SendTick :: cbs' => negb pending && one_at_a_time true cbs'
  | Sent _ :: cbs' => one_at_a_time false cbs'
  | _ :: cbs' => one_at_a_time pending cbs'
  end.

(** Every send of the sequence succeeds. *)
Fixpoint sends_succeed (cbs : list callback) : bool :=
  match cbs with
  | [] => true
  | Sent (Some _) :: _ => false
  | _ :: cbs' => sends_succeed cbs'
  end.

(** The message to send is the default one or text that is not JSON. *)
Definition plain_text (s : send_opt) : bool :=
  match s with
  | SendUnset => false
  | SendFlag => true
  | SendText text =>
      truthy (Some text)
      && match JSON.parse text with Ok _ => false | Raise _ => true end
  end.

(** Whether a send is unacknowledged after [cb], in such a sequence. *)
Definition next_pending (pending : bool) (cb : callback) : bool :=
  match cb with
  | SendTick => true
  | Sent _ => false
  | _ => pending
  end.

(** What holds of the send activity between two callbacks, once the
    connection is open: [n] is the configured count, [base] the number of
    messages sent before the connection was opened. *)
Record send_inv (n base : Z) (pending : bool) (st : state) (w : world) : Prop := {
  inv_registry : registry_pending st = false;
  inv_open : open_pending st = false;
  inv_pending : (sends_pending st <= 1)%nat;
  inv_flag : sends_pending st = 1%nat -> pending = true /\ sendItv st = true;
  inv_counter : 0 <= sendCounter st <= n;
  inv_timer : sendItv st = true <-> sendCounter st < n;
  inv_running : sendRunning st = sendItv st;
  inv_sent : sent (net w) = base + sendCounter st + Z.of_nat (sends_pending st)
}.

(** What a run guarantees about the send activity: at most [n] messages
    have been sent and, once the connection is open, the invariant holds. *)
Definition send_post (n base : Z) (o : outcome state) (w' : world) : Prop :=
  sent (net w') <= base + n
  /\ forall st, o = Ret st ->
       registry_pending st = false -> open_pending st = false ->
       exists pending, send_inv n base pending st w'.

(** [k] ticks of the send timer, each followed by its acknowledgement. *)
Fixpoint ticks (k : nat) : list callback :=
  match k with
  | O => []
  | S k' => SendTick :: Sent None :: ticks k'
  end.

Section WithPackages.

Context `{P : Packages}.

Import Common.

Definition settle_message : string :=
  "--settle can take only take one of the following values: 'complete', 'reject' or 'abandon'".

Definition verifySettle (arg : string) : M (option string) :=
  if negb (String.eqb arg "complete") && negb (String.eqb arg "reject")
     && negb (String.eqb arg "abandon")
  then do _ <- inputError settle_message; ret None
  else ret (Some arg).

Definition verifyProtocol (arg : string) : M (option string) :=
  let lowerCaseArg := toLowerCase arg in
  if negb (String.eqb lowerCaseArg "amqp") && negb (String.eqb lowerCaseArg "amqp-ws")
     && negb (String.eqb lowerCaseArg "http") && negb (String.eqb lowerCaseArg "mqtt")
  then do _ <- inputError settle_message; ret None
  else ret (Some lowerCaseArg).

(** [simulateDevice]; its second test, on [Protocol], cannot fail: the
    switch of the top level assigns it in every case. *)
Definition simulateDevice (sc : script) (dcs : option string) : M state :=
  do _ <- when (negb (truthy dcs))
            (throw (mkError PlainError None "Couldn't figure out device connection string"));
  let sendRunning := send_truthy (send (program sc)) in
  let receiveRunning := receive (program sc) in
  let uploadRunning := truthy (uploadFile (program sc)) in
  do client <- lift (DeviceClient_fromConnectionString (JS.str dcs)
                       (Protocol_name (Protocol sc)));
  do _ <- call_service (ClientOpen (JS.str dcs) (Protocol_name (Protocol sc)));
  ret (connecting dcs sendRunning receiveRunning uploadRunning).

Definition both_or_neither : string :=
  "You must specify either the device connection string (--connection-string), the IoT Hub connection string (--login), or use the 'login' command first.".

Definition no_device : string :=
  "You must specify either a device connection string (--connection-string) or the IoT Hub connection string and a device id as first argument".

(** The top level of the script, from [getSas(program.login)] on. *)
Definition main (program : program_t) : M (script * state) :=
  do sas <- getSas (login program);
  do _ <- when ((negb (truthy (connectionString program)) && negb (truthy sas))
                || (truthy (connectionString program) && truthy sas))
            (inputError both_or_neither);
  do _ <- when (negb (truthy (connectionString program)) && negb (truthy (args program !! 0%nat)))
            (inputError no_device);
  do _ <- when (negb (send_truthy (send program)) && negb (receive program)
                && negb (truthy (uploadFile program)))
            (inputError "Nothing to do: please use --send, --receive or --uploadFile");
  let settleMethod := if truthy (settle program) then JS.str (settle program) else "complete" in
  let protocolArg := if truthy (protocol program) then JS.str (protocol program) else "amqp" in
  do Protocol <-
    (if String.eqb protocolArg "amqp-ws" then ret AmqpWs
     else if String.eqb protocolArg "http" then ret Http
     else if String.eqb protocolArg "mqtt" then
       do _ <- when (negb (String.eqb settleMethod "complete"))
                 (inputError ("Cannot " +:+ settleMethod
                              +:+ " messages with MQTT: messages are automatically completed."));
       ret Mqtt
     else ret Amqp);
  let sendInterval := if truthy_num (sendInterval program)
                      then default 0 (sendInterval program) else 1000 in
  let sendCount := if truthy_num (sendCount program)
                   then default 0 (sendCount program) else MAX_SAFE_INTEGER in
  let receiveCount := if truthy_num (receiveCount program)
                      then default 0 (receiveCount program) else MAX_SAFE_INTEGER in
  let uploadFilePath := uploadFile program in
  let sc := mkScript program sas settleMethod Protocol sendInterval sendCount
              receiveCount uploadFilePath in
  let deviceId := args program !! 0%nat in
  if negb (truthy deviceId) then
    let deviceConnectionString := connectionString program in
    if negb (truthy deviceConnectionString) then
      do _ <- inputError no_device; ret (sc, idle deviceConnectionString)
    else
      do deviceId <- lift (DeviceConnectionString_parse_DeviceId
                             (JS.str deviceConnectionString));
      do st <- simulateDevice sc deviceConnectionString;
      ret (sc, st)
  else
    do s <- member "toString" sas;
    do registry <- lift (Registry_fromSharedAccessSignature s);
    do _ <- call_service (RegistryGet (JS.str deviceId));
    ret (sc, awaiting_registry).

(** *** The callbacks *)

(** Callback of [registry.get]. *)
Definition onRegistryGot (sc : script) (st : state)
    (err : option JS.error) (deviceInfo : option deviceInfo_t) : M state :=
  do dcs <-
    match err with
    | Some e =>
        do _ <- serviceError (ErrObject e); ret (deviceConnectionString st)
    | None =>
        do s <- member "toString" (sas sc);
        do host <- getHostFromSas s;
        do info <- member "deviceId" deviceInfo;
        ret (createDeviceConnectionString info host)
    end;
  simulateDevice sc dcs.

(** Callback of [client.open]: arms the timers and the listener. *)
Definition onOpened (sc : script) (st : state) (err : option JS.error) : M state :=
  do _ <-
    match err with
    | Some e =>
        serviceError (ErrString ("Could not connect as device: " +:+ err_message e))
    | None => ret tt
    end;
  let st := set_open_pending false st in
  let st :=
    if send_truthy (send (program sc))
    then set_sendItv true (set_sendCounter 0 st) else st in
  let st :=
    if receive (program sc)
    then set_listening true (set_receiveCounter 0 st) else st in
  let st :=
    if truthy (uploadFilePath sc) then set_stat_pending true st else st in
  ret (set_taskItv true st).

(** The function given to [setInterval] for sending. *)
Definition onSendTick (sc : script) (st : state) : M state :=
  do message <-
    match send (program sc) with
    | SendFlag =>
        createMessageFromArgument
          ("Simulated message: #" +:+ pretty (sendCounter st)) None
    | SendText text => createMessageFromArgument text None
    | SendUnset => createMessageFromArgument (JS.str None) None
    end;
  do _ <- call_service (SendEvent message);
  ret (set_sends_pending (S (sends_pending st)) st).

(** Callback of [client.sendEvent]. *)
Definition onSent (sc : script) (st : state) (err : option JS.error) : M state :=
  let st := set_sends_pending (Nat.pred (sends_pending st)) st in
  match err with
  | Some e => do _ <- serviceError (ErrObject e); ret st
  | None =>
      do _ <- printSuccess ("Message #" +:+ pretty (sendCounter st)
                            +:+ " sent successfully");
      let st := set_sendCounter (sendCounter st + 1) st in
      if Z.eqb (sendCounter st) (sendCount_max sc)
      then ret (set_sendItv false (set_sendRunning false st))
      else ret st
  end.

(** The listener [onMessage]. *)
Definition onMessage (sc : script) (st : state) (text : string) : M state :=
  do _ <- printSuccess "-----------------";
  do _ <- printSuccess "Message received:";
  do _ <- console_log (prettyjson_render text);
  do _ <- printSuccess "-----------------";
  let st := set_receiveCounter (receiveCounter st + 1) st in
  let st :=
    if Z.eqb (receiveCounter st) (receiveCount_max sc)
    then set_listening false (set_receiveRunning false st) else st in
  do _ <- call_service (Settle (settleMethod sc));
  ret (set_settles_pending (S (settles_pending st)) st).

(** Callback of [client[settleMethod]]. *)
Definition onSettled (sc : script) (st : state) (err : option JS.error) : M state :=
  let st := set_settles_pending (Nat.pred (settles_pending st)) st in
  match err with
  | Some e =>
      do _ <- serviceError (ErrString ("Could not " +:+ settleMethod sc
                                       +:+ " message: " +:+ err_message e));
      ret st
  | None =>
      do _ <- printSuccess (settleMethod sc +:+ " message: Success");
      ret st
  end.

(** Callback of [fs.stat]. *)
Definition onStat (sc : script) (st : state)
    (err : option JS.error) (size : option Z) : M state :=
  do _ <- when (is_some err)
            (inputError ("Cannot find: " +:+ JS.str (uploadFile (program sc))));
  do sz <- member "size" size;
  do _ <- call_service (UploadToBlob (basename (JS.str (uploadFilePath sc))) sz);
  ret (set_upload_pending true (set_stat_pending false st)).

(** Callback of [client.uploadToBlob]. *)
Definition onUploaded (sc : script) (st : state) (err : option JS.error) : M state :=
  do _ <-
    match err with
    | Some e =>
        printError ("Cannot upload file: " +:+ constructor_name e +:+ ": "
                    +:+ err_message e) None
    | None => printSuccess "Upload successful"
    end;
  ret (set_uploadRunning false (set_upload_pending false st)).

(** The function given to [setInterval] for the completion check. *)
Definition onTaskTick (sc : script) (st : state) : M state :=
  if negb (sendRunning st) && negb (receiveRunning st) && negb (uploadRunning st)
  then
    do _ <- printSuccess "Device simulation finished.";
    do _ <- call_service ClientClose;
    ret (set_closes_pending (S (closes_pending st)) st)
  else ret st.

(** Callback of [client.close]. *)
Definition onClosed (sc : script) (st : state) (err : option JS.error) : M state :=
  let st := set_closes_pending (Nat.pred (closes_pending st)) st in
  match err with
  | Some e => do _ <- serviceError (ErrObject e); ret st
  | None =>
      let st := set_taskItv false st in
      do _ <- @process_exit unit 0; ret st
  end.

Definition handle (sc : script) (st : state) (cb : callback) : M state :=
  match cb with
  | RegistryGot err deviceInfo => onRegistryGot sc st err deviceInfo
  | Opened err => onOpened sc st err
  | SendTick => onSendTick sc st
  | Sent err => onSent sc st err
  | MessageEvent text => onMessage sc st text
  | Settled err => onSettled sc st err
  | Stat err size => onStat sc st err size
  | Uploaded err => onUploaded sc st err
  | TaskTick => onTaskTick sc st
  | Closed err => onClosed sc st err
  end.

(** The event loop delivers a callback only when its timer or listener
    is armed, or its service call is outstanding. *)
Definition enabled (st : state) (cb : callback) : bool :=
  match cb with
  | RegistryGot _ _ => registry_pending st
  | Opened _ => open_pending st
  | SendTick => sendItv st
  | Sent _ => negb (Nat.eqb (sends_pending st) 0)
  | MessageEvent _ => listening st
  | Settled _ => negb (Nat.eqb (settles_pending st) 0)
  | Stat _ _ => stat_pending st
  | Uploaded _ => upload_pending st
  | TaskTick => taskItv st
  | Closed _ => negb (Nat.eqb (closes_pending st) 0)
  end.

Definition deliver (sc : script) (st : state) (cb : callback) : M state :=
  if enabled st cb then handle sc st cb else ret st.

(** The callbacks run one after the other; the first one that exits the
    process or throws ends the run. *)
Fixpoint run (sc : script) (st : state) (cbs : list callback) : M state :=
  match cbs with
  | [] => ret st
  | cb :: cbs' => do st' <- deliver sc st cb; run sc st' cbs'
  end.

(** The whole command: the top level, then the callbacks. *)
Definition exec (program : program_t) (cbs : list callback) : M state :=
  do r <- main program;
  run (fst r) (snd r) cbs.

End WithPackages.
End Simulate.

(* ===================================================================== *)
(** ** A concrete environment for examples *)
(* ===================================================================== *)

Module Demo.

Definition hub_cs : string :=
  "HostName=hub.example.net;SharedAccessKeyName=owner;SharedAccessKey=c2VjcmV0".

(** Stand-ins for the required packages: no colours, sequential uuids,
    and a connection-string parser that knows one hub. *)
Definition packages : Packages := {|
  colorsTmpl := fun s => s;
  prettyjson_render := fun s => s;
  uuid_v4 := fun n => "uuid-" +:+ pretty n;
  ConnectionString_parse := fun s =>
    if String.eqb s hub_cs
    then Ok (mkCn "hub.example.net" "owner" "c2VjcmV0")
    else Raise (mkError ArgumentError None "Malformed connection string");
  SharedAccessSignature_create := fun h n k expiry =>
    "SharedAccessSignature sr=" +:+ h +:+ "&sig=" +:+ k +:+ "&se="
      +:+ pretty expiry +:+ "&skn=" +:+ n;
  SharedAccessSignature_parse_sr := fun s =>
    if String.prefix "SharedAccessSignature sr=" s
    then Ok "hub.example.net"
    else Raise (mkError PlainError None "Malformed signature");
  Registry_fromSharedAccessSignature := fun _ => Ok tt;
  DeviceConnectionString_parse_DeviceId := fun _ => Ok "dev1";
  DeviceClient_fromConnectionString := fun _ _ => Ok tt
|}.

(** A Linux machine without a cached session. *)
Definition fresh : world :=
  mkWorld "linux" (Some "/home/user") None ∅ 1700000000999 0 [] [].

Definition session_path : string := "/home/user/.iothub-explorer".

(** The same machine after a login. *)
Definition logged_in : world :=
  set_fs (<[session_path := File "SharedAccessSignature sr=hub.example.net&sig=s&se=1&skn=owner"]> ∅) fresh.

(** The same machine, with a session file that cannot be accessed. *)
Definition locked : world :=
  set_fs (<[session_path := Faulty (mkError PlainError (Some "EACCES") "EACCES: permission denied")]> ∅) fresh.

Definition q : string := String JSON.dquote EmptyString.

(** The text [{"messageId":"x","body":"y"}]. *)
Definition prebuilt : string :=
  "{" +:+ q +:+ "messageId" +:+ q +:+ ":" +:+ q +:+ "x" +:+ q +:+ ","
      +:+ q +:+ "body" +:+ q +:+ ":" +:+ q +:+ "y" +:+ q +:+ "}".

Definition key_device : deviceInfo_t :=
  mkDeviceInfo "dev1"
    (mkAuthentication (mkSymmetricKey (Some "a2V5") None) (mkThumbprint None None)).

Definition x509_device : deviceInfo_t :=
  mkDeviceInfo "dev1"
    (mkAuthentication (mkSymmetricKey None None) (mkThumbprint None (Some "AB12"))).

Definition bare_device : deviceInfo_t :=
  mkDeviceInfo "dev1"
    (mkAuthentication (mkSymmetricKey None None) (mkThumbprint None None)).

Import Simulate.

Definition device_cs : string :=
  "HostName=hub.example.net;DeviceId=dev1;SharedAccessKey=a2V5".

(** simulate-device --login <hub_cs> --send --send-count n dev1 *)
Definition send_n (n : Z) : program_t :=
  mkProgram None (Some hub_cs) None SendFlag None (Some n) false None None None
    ["dev1"].

(** simulate-device --connection-string <device_cs> --send *)
Definition with_connection_string : program_t :=
  mkProgram (Some device_cs) None None SendFlag None None false None None None [].

(** simulate-device --login <hub_cs> --protocol mqtt --settle reject
    --receive dev1 *)
Definition mqtt_reject : program_t :=
  mkProgram None (Some hub_cs) (Some "mqtt") SendUnset None None true None
    (Some "reject") None ["dev1"].

(** simulate-device --login <hub_cs> --upload-file /tmp/data.bin dev1 *)
Definition upload : program_t :=
  mkProgram None (Some hub_cs) None SendUnset None None false None None
    (Some "/tmp/data.bin") ["dev1"].

Definition boom : JS.error := mkError PlainError None "boom".

(** The registry answers with a device that has a key. *)
Definition found : callback := RegistryGot None (Some key_device).

End Demo.

(* ===================================================================== *)
(** ** The callbacks as a transition system *)
(* ===================================================================== *)

Module Activity.

Import Simulate.

(** Number of settle calls, of uploads and of closes among service calls. *)
Fixpoint settled (calls : list net_event) : Z :=
  match calls with
  | [] => 0
  | Settle _ :: calls' => 1 + settled calls'
  | _ :: calls' => settled calls'
  end.

Fixpoint uploaded (calls : list net_event) : Z :=
  match calls with
  | [] => 0
  | UploadToBlob _ _ :: calls' => 1 + uploaded calls'
  | _ :: calls' => uploaded calls'
  end.

Fixpoint closed (calls : list net_event) : Z :=
  match calls with
  | [] => 0
  | ClientClose :: calls' => 1 + closed calls'
  | _ :: calls' => closed calls'
  end.

(** The settle policies named by the settle calls. *)
Fixpoint policies (calls : list net_event) : list string :=
  match calls with
  | [] => []
  | Settle method :: calls' => method :: policies calls'
  | _ :: calls' => policies calls'
  end.

(** The state in which the callback of [client.open] leaves the script
    when the connection is open. *)
Definition armed (sc : script) (st : state) : state :=
  let st := set_open_pending false st in
  let st :=
    if send_truthy (send (program sc))
    then set_sendItv true (set_sendCounter 0 st) else st in
  let st :=
    if receive (program sc)
    then set_listening true (set_receiveCounter 0 st) else st in
  let st :=
    if truthy (uploadFilePath sc) then set_stat_pending true st else st in
  set_taskItv true st.

(** The state after an acknowledged send. *)
Definition acknowledged (sc : script) (st : state) : state :=
  let st := set_sends_pending (Nat.pred (sends_pending st)) st in
  let st := set_sendCounter (sendCounter st + 1) st in
  if Z.eqb (sendCounter st) (sendCount_max sc)
  then set_sendItv false (set_sendRunning false st)
  else st.

(** The state after a received message. *)
Definition received (sc : script) (st : state) : state :=
  let st := set_receiveCounter (receiveCounter st + 1) st in
  let st :=
    if Z.eqb (receiveCounter st) (receiveCount_max sc)
    then set_listening false (set_receiveRunning false st) else st in
  set_settles_pending (S (settles_pending st)) st.

(** No activity is running. *)
Definition finished (st : state) : bool :=
  negb (sendRunning st) && negb (receiveRunning st) && negb (uploadRunning st).

(** The state [simulateDevice] returns for this script. *)
Definition connecting_for (sc : script) (dcs : option string) : state :=
  connecting dcs (send_truthy (send (program sc))) (receive (program sc))
    (truthy (uploadFile (program sc))).

(** Where a run is: before the connection is open (waiting for the
    registry or for [client.open]), or after. *)
Definition before_open (sc : script) (st : state) : Prop :=
  st = awaiting_registry \/ exists dcs, st = connecting_for sc dcs.

Definition is_open (st : state) : Prop :=
  registry_pending st = false /\ open_pending st = false.

(** The script variables the top level sets from the options, [s] being
    the session token. *)
Record configured (program : program_t) (s : string) (sc : script) : Prop := {
  cfg_program : Simulate.program sc = program;
  cfg_sas : sas sc = Some s;
  cfg_settle :
    settleMethod sc
    = if truthy (settle program) then JS.str (settle program) else "complete";
  cfg_protocol :
    Protocol_name (Protocol sc)
    = (let arg := if truthy (protocol program)
                  then JS.str (protocol program) else "amqp" in
       if String.eqb arg "amqp-ws" || String.eqb arg "http" || String.eqb arg "mqtt"
       then arg else "amqp");
  cfg_sendInterval :
    sendInterval_ms sc
    = if truthy_num (sendInterval program)
      then default 0 (sendInterval program) else 1000;
  cfg_sendCount :
    sendCount_max sc
    = if truthy_num (sendCount program)
      then default 0 (sendCount program) else MAX_SAFE_INTEGER;
  cfg_receiveCount :
    receiveCount_max sc
    = if truthy_num (receiveCount program)
      then default 0 (receiveCount program) else MAX_SAFE_INTEGER;
  cfg_upload : uploadFilePath sc = uploadFile program
}.

(** What holds of the receive activity once the connection is open: [n]
    is the configured count, [base] the number of settle calls made
    before the run. *)
Record receive_inv (n base : Z) (st : state) (w : world) : Prop := {
  rinv_open : is_open st;
  rinv_counter : 0 <= receiveCounter st <= n;
  rinv_listening : listening st = true <-> receiveCounter st < n;
  rinv_running : receiveRunning st = listening st;
  rinv_settled : settled (net w) = base + receiveCounter st
}.

Definition receive_life (n base : Z) (sc : script) (st : state) (w : world) : Prop :=
  (before_open sc st /\ settled (net w) = base) \/ receive_inv n base st w.

(** What holds of the upload: nothing is uploaded before [fs.stat] has
    answered, and one file at most after. *)
Record upload_inv (base : Z) (st : state) (w : world) : Prop := {
  uinv_stat : stat_pending st = true -> uploaded (net w) = base;
  uinv_once : base <= uploaded (net w) <= base + 1;
  uinv_pending : upload_pending st = true -> uploaded (net w) = base + 1;
  uinv_open : is_open st
}.

Definition upload_life (base : Z) (sc : script) (st : state) (w : world) : Prop :=
  (before_open sc st /\ uploaded (net w) = base) \/ upload_inv base st w.

(** What holds of the closing: a close is outstanding only when nothing
    runs any more and [client.close] has been called. *)
Record close_inv (base : Z) (st : state) (w : world) : Prop := {
  cinv_finished : closes_pending st <> 0%nat -> finished st = true;
  cinv_called : closes_pending st <> 0%nat -> base < closed (net w);
  cinv_mono : base <= closed (net w)
}.

Definition close_life (base : Z) (sc : script) (st : state) (w : world) : Prop :=
  (before_open sc st /\ closed (net w) = base)
  \/ (is_open st /\ close_inv base st w).

Section WithPackages.

Context `{P : Packages}.

Import Common.

(** The lines a received message writes. *)
Definition message_lines (text : string) (w : world) : world :=
  add_console (success_line "-----------------")
    (add_console (prettyjson_render text)
       (add_console (success_line "Message received:")
          (add_console (success_line "-----------------") w))).

(** What one delivered callback does: the outcome and the world after
    it, for the state and the world before it. *)
Inductive effect (sc : script) (st : state) (w : world)
  : callback -> outcome state -> world -> Prop :=
| eff_dropped cb :
    enabled st cb = false -> effect sc st w cb (Ret st) w
| eff_error cb msg :
    enabled st cb = true ->
    effect sc st w cb (Exit 1) (add_console (error_line "Error:" msg) w)
| eff_input_error err size msg :
    stat_pending st = true ->
    effect sc st w (Stat err size) (Exit 1)
      (add_console (error_line "Input Error:" msg) w)
| eff_throw cb e :
    enabled st cb = true -> effect sc st w cb (Throw e) w
| eff_registry info dcs :
    registry_pending st = true ->
    truthy dcs = true ->
    effect sc st w (RegistryGot None info) (Ret (connecting_for sc dcs))
      (add_net (ClientOpen (JS.str dcs) (Protocol_name (Protocol sc))) w)
| eff_opened :
    open_pending st = true ->
    effect sc st w (Opened None) (Ret (armed sc st)) w
| eff_tick m :
    sendItv st = true ->
    effect sc st w SendTick
      (Ret (set_sends_pending (S (sends_pending st)) st))
      (add_net (SendEvent (Envelope m)) (set_entropy (S (entropy w)) w))
| eff_sent :
    sends_pending st <> 0%nat ->
    effect sc st w (Sent None) (Ret (acknowledged sc st))
      (add_console
         (success_line ("Message #" +:+ pretty (sendCounter st)
                        +:+ " sent successfully")) w)
| eff_message text :
    listening st = true ->
    effect sc st w (MessageEvent text) (Ret (received sc st))
      (add_net (Settle (settleMethod sc)) (message_lines text w))
| eff_settled :
    settles_pending st <> 0%nat ->
    effect sc st w (Settled None)
      (Ret (set_settles_pending (Nat.pred (settles_pending st)) st))
      (add_console (success_line (settleMethod sc +:+ " message: Success")) w)
| eff_stat size :
    stat_pending st = true ->
    effect sc st w (Stat None (Some size))
      (Ret (set_upload_pending true (set_stat_pending false st)))
      (add_net (UploadToBlob (basename (JS.str (uploadFilePath sc))) size) w)
| eff_uploaded :
    upload_pending st = true ->
    effect sc st w (Uploaded None)
      (Ret (set_uploadRunning false (set_upload_pending false st)))
      (add_console (success_line "Upload successful") w)
| eff_close :
    taskItv st = true ->
    finished st = true ->
    effect sc st w TaskTick
      (Ret (set_closes_pending (S (closes_pending st)) st))
      (add_net ClientClose
         (add_console (success_line "Device simulation finished.") w))
| eff_wait :
    taskItv st = true ->
    finished st = false ->
    effect sc st w TaskTick (Ret st) w
| eff_closed :
    closes_pending st <> 0%nat ->
    effect sc st w (Closed None) (Exit 0) w.

End WithPackages.
End Activity.

(* ===================================================================== *)
(** ** More of the concrete environment *)
(* ===================================================================== *)

Module DemoMore.

Import Simulate.

(** The token [getSas] makes from [Demo.hub_cs] on [Demo.fresh]. *)
Definition token : string :=
  "SharedAccessSignature sr=hub.example.net&sig=c2VjcmV0&se=1700003600&skn=owner".

(** A machine whose platform has no session location. *)
Definition bsd : world :=
  mkWorld "freebsd" (Some "/home/user") None ∅ 1700000000999 0 [] [].

(** simulate-device --login <hub_cs> --receive --receive-count n dev1 *)
Definition receive_n (n : Z) : program_t :=
  mkProgram None (Some Demo.hub_cs) None SendUnset None None true (Some n) None
    None ["dev1"].

(** simulate-device --login <hub_cs> --send (no device id) *)
Definition no_device_id : program_t :=
  mkProgram None (Some Demo.hub_cs) None SendFlag None None false None None None [].

(** simulate-device --login <hub_cs> --protocol MQTT --receive dev1, once
    [verifyProtocol] has lowered the protocol name *)
Definition mqtt_receive : program_t :=
  mkProgram None (Some Demo.hub_cs) (Some "mqtt") SendUnset None None true None
    None None ["dev1"].

(** The script variables for [p], as the top level sets them on
    [Demo.fresh]. *)
Definition script_of (p : program_t) (protocol : Protocol_t) (sendCount : Z)
    (receiveCount : Z) : script :=
  mkScript p (Some token) "complete" protocol 1000 sendCount receiveCount
    (uploadFile p).

(** The error of the registry for a device it does not know. *)
Definition not_found : JS.error :=
  mkError (OtherError "DeviceNotFoundError" "DeviceNotFoundError") None "Not found".

(** simulate-device --login <hub_cs> --send --send-count n --receive dev1 *)
Definition send_and_receive (n : Z) : program_t :=
  mkProgram None (Some Demo.hub_cs) None SendFlag None (Some n) true None None
    None ["dev1"].

(** The connection is open, the only send is acknowledged and the
    listener is still there. *)
Definition sent_and_listening : state :=
  set_sendCounter 1
    (set_listening true
       (set_receiveRunning true (set_taskItv true (idle (Some Demo.device_cs))))).

(** The connection is open, the completion check is armed and nothing
    runs. *)
Definition drained : state := set_taskItv true (idle (Some Demo.device_cs)).

(** The connection is open and the send timer is armed. *)
Definition sending : state :=
  set_sendRunning true (set_sendItv true (set_taskItv true (idle (Some Demo.device_cs)))).

End DemoMore.

(* ===================================================================== *)
(** ** Properties of common.js *)
(* ===================================================================== *)

Lemma string_app_assoc (a b c : string) : (a +:+ b) +:+ c = a +:+ (b +:+ c).
Proof.
  induction a as [|x a IH]; [reflexivity |].
  change (String x ((a +:+ b) +:+ c) = String x (a +:+ (b +:+ c))).
  f_equal. exact IH.
Qed.

(** Unfolds the sequencing of the monad. *)
Ltac step_m :=
  repeat (progress
            (unfold bind, ret, throw, try_catch, lift, when, member,
               process_exit, console_log, call_service, Date_now;
             cbn beta iota)).

Section CommonFacts.

Context `{P : Packages}.

Import Common.

Lemma printError_exits (message : string) (prefix : option string) (w : world) :
  printError message prefix w =
    (Exit 1,
     add_console
       (error_line (if truthy prefix then JS.str prefix else "Error:") message) w).
Proof. unfold printError; step_m. destruct (truthy prefix); reflexivity. Qed.

Lemma inputError_exits (message : string) (w : world) :
  inputError message w =
    (Exit 1, add_console (error_line "Input Error:" message) w).
Proof. unfold inputError. rewrite printError_exits. reflexivity. Qed.

Lemma serviceError_exits (err : err_arg) (w : world) :
  exists msg, serviceError err w = (Exit 1, add_console (error_line "Error:" msg) w).
Proof. unfold serviceError. rewrite printError_exits. simpl truthy. eauto. Qed.

(** C7.  A record whose two keys and two thumbprints are all absent
    (undefined, null or empty) has no connection string; as soon as one of
    the four is present the result is a string that starts with the host
    name and the device id. *)
Theorem createDeviceConnectionString_null_iff_no_credentials
    (deviceInfo : deviceInfo_t) (hubHostName : string) :
  let key := SymmetricKey (authentication deviceInfo) in
  let thumb := x509Thumbprint (authentication deviceInfo) in
  (truthy (primaryKey key) = false ->
   truthy (secondaryKey key) = false ->
   truthy (primaryThumbprint thumb) = false ->
   truthy (secondaryThumbprint thumb) = false ->
   createDeviceConnectionString deviceInfo hubHostName = None)
  /\
  (truthy (primaryKey key) = true \/ truthy (secondaryKey key) = true \/
   truthy (primaryThumbprint thumb) = true \/
   truthy (secondaryThumbprint thumb) = true ->
   exists rest,
     createDeviceConnectionString deviceInfo hubHostName
     = Some ("HostName=" +:+ hubHostName +:+ ";DeviceId="
             +:+ deviceId deviceInfo +:+ rest)).
Proof.
  intros key thumb. unfold createDeviceConnectionString. fold key thumb. split.
  - intros -> -> -> ->. reflexivity.
  - intros H.
    destruct (truthy (primaryKey key)).
    { eexists. rewrite !string_app_assoc. reflexivity. }
    destruct (truthy (secondaryKey key)).
    { eexists. rewrite !string_app_assoc. reflexivity. }
    destruct (truthy (primaryThumbprint thumb)).
    { eexists. rewrite !string_app_assoc. reflexivity. }
    destruct (truthy (secondaryThumbprint thumb)).
    { eexists. rewrite !string_app_assoc. reflexivity. }
    destruct H as [H|[H|[H|H]]]; discriminate.
Qed.

(** C10.  With both keys absent and a thumbprint present, the marker
    [x509=true] follows the device id directly, without a semicolon; the
    key variants put [;SharedAccessKey=] after the device id. *)
Theorem createDeviceConnectionString_x509_has_no_separator
    (deviceInfo : deviceInfo_t) (hubHostName : string) :
  let key := SymmetricKey (authentication deviceInfo) in
  let thumb := x509Thumbprint (authentication deviceInfo) in
  (truthy (primaryKey key) = false ->
   truthy (secondaryKey key) = false ->
   truthy (primaryThumbprint thumb) = true \/
   truthy (secondaryThumbprint thumb) = true ->
   createDeviceConnectionString deviceInfo hubHostName
   = Some ("HostName=" +:+ hubHostName +:+ ";DeviceId="
           +:+ deviceId deviceInfo +:+ "x509=true"))
  /\
  (forall k, primaryKey key = Some k -> k <> EmptyString ->
   createDeviceConnectionString deviceInfo hubHostName
   = Some ("HostName=" +:+ hubHostName +:+ ";DeviceId="
           +:+ deviceId deviceInfo +:+ ";SharedAccessKey=" +:+ k))
  /\
  (forall k, truthy (primaryKey key) = false ->
   secondaryKey key = Some k -> k <> EmptyString ->
   createDeviceConnectionString deviceInfo hubHostName
   = Some ("HostName=" +:+ hubHostName +:+ ";DeviceId="
           +:+ deviceId deviceInfo +:+ ";SharedAccessKey=" +:+ k)).
Proof.
  intros key thumb. unfold createDeviceConnectionString. fold key thumb.
  assert (T : forall k, k <> EmptyString -> truthy (Some k) = true).
  { intros k Hk. simpl. destruct (String.eqb_spec k EmptyString); [contradiction | reflexivity]. }
  repeat split.
  - intros -> -> H.
    replace (truthy (primaryThumbprint thumb) || truthy (secondaryThumbprint thumb))
      with true.
    + rewrite !string_app_assoc. reflexivity.
    + destruct H as [-> | ->]; [reflexivity | now rewrite orb_true_r].
  - intros k -> Hk. rewrite (T k Hk). rewrite !string_app_assoc. reflexivity.
  - intros k -> -> Hk. rewrite (T k Hk). rewrite !string_app_assoc. reflexivity.
Qed.


(** *** createMessageFromArgument *)

Lemma JSON_parse_raises_SyntaxError (text : string) (e : JS.error) :
  JSON.parse text = Raise e -> instanceof e SyntaxError = true.
Proof.
  unfold JSON.parse.
  destruct (JSON.parse_value _ text) as [[v r]|]; [destruct (JSON.skip_ws r)|];
    intros H; inversion H; reflexivity.
Qed.

(** Text that is not JSON becomes the body of a new envelope, with a
    fresh identifier and the ack mode when one is given. *)
Lemma createMessageFromArgument_plain_text
    (messageArg : string) (ack : option string) (w : world) (e : JS.error) :
  JSON.parse messageArg = Raise e ->
  createMessageFromArgument messageArg ack w
  = (Ret (Envelope (mkMessage (Text messageArg) (Some (uuid_v4 (entropy w)))
                      (if truthy ack then ack else None))),
     set_entropy (S (entropy w)) w).
Proof.
  intros H. pose proof (JSON_parse_raises_SyntaxError _ _ H) as HS.
  unfold createMessageFromArgument, createMessage, uuid; step_m.
  rewrite H. step_m. rewrite HS. reflexivity.
Qed.

(** C1.  Whenever the argument parses as JSON, with or without a
    [messageId] member, [message.messageId] is read while [message] is
    still undefined: the TypeError is not a SyntaxError and leaves the
    function. *)
Theorem createMessageFromArgument_throws_on_JSON
    (messageArg : string) (ack : option string) (w : world) (v : JSON.value) :
  JSON.parse messageArg = Ok v ->
  createMessageFromArgument messageArg ack w
  = (Throw (undefined_member "messageId"), w).
Proof.
  intros H. unfold createMessageFromArgument, messageId_truthy; step_m.
  rewrite H. reflexivity.
Qed.

(** *** getSas *)

Lemma configLoc_cases (w : world) :
  (exists loc, configLoc w = (Ret (Some loc), w)
               /\ session_file w = Some (dir loc +:+ "/" +:+ file loc))
  \/ (session_file w = None
      /\ configLoc w
         = (Exit 1,
            add_console
              (error_line "Input Error:" "'login' not supported on this platform") w)).
Proof.
  unfold session_file, configLoc.
  destruct (String.eqb (platform w) "darwin"); [left; eexists; split; reflexivity|].
  destruct (String.eqb (platform w) "linux"); [left; eexists; split; reflexivity|].
  destruct (String.eqb (platform w) "win32"); [left; eexists; split; reflexivity|].
  right. unfold bind. rewrite inputError_exits. split; reflexivity.
Qed.

Lemma session_file_configLoc (w : world) (path : string) :
  session_file w = Some path ->
  exists loc, configLoc w = (Ret (Some loc), w)
              /\ path = dir loc +:+ "/" +:+ file loc.
Proof.
  intros H. destruct (configLoc_cases w) as [(loc & Hc & Hs) | (Hs & _)].
  - exists loc. split; [exact Hc | congruence].
  - congruence.
Qed.

(** A missing session file is swallowed by the read. *)
Lemma loadSasFromUserFile_missing (w : world) (path : string) :
  session_file w = Some path -> fs w !! path = None ->
  loadSasFromUserFile w = (Ret None, w).
Proof.
  intros Hs Hf. destruct (session_file_configLoc _ _ Hs) as (loc & Hc & ->).
  unfold loadSasFromUserFile, readFileSync; step_m.
  rewrite Hc; step_m. rewrite Hf. reflexivity.
Qed.

Lemma loadSasFromUserFile_present (w : world) (path content : string) :
  session_file w = Some path -> fs w !! path = Some (File content) ->
  loadSasFromUserFile w = (Ret (Some content), w).
Proof.
  intros Hs Hf. destruct (session_file_configLoc _ _ Hs) as (loc & Hc & ->).
  unfold loadSasFromUserFile, readFileSync; step_m.
  rewrite Hc; step_m. rewrite Hf. reflexivity.
Qed.

(** Any other failure of the read propagates. *)
Lemma loadSasFromUserFile_faulty (w : world) (path : string) (e : JS.error) :
  session_file w = Some path -> fs w !! path = Some (Faulty e) ->
  code_is e "ENOENT" = false ->
  loadSasFromUserFile w = (Throw e, w).
Proof.
  intros Hs Hf He. destruct (session_file_configLoc _ _ Hs) as (loc & Hc & ->).
  unfold loadSasFromUserFile, readFileSync; step_m.
  rewrite Hc; step_m. rewrite Hf; step_m. rewrite He. reflexivity.
Qed.

(** C8.  Without a connection string and without a cached session file,
    the read swallows the missing file and [getSas] reports the input
    error that asks for a login; the process exits, nothing is returned. *)
Theorem getSas_without_session_is_input_error
    (connectionString : option string) (w : world) (path : string) :
  truthy connectionString = false ->
  session_file w = Some path ->
  fs w !! path = None ->
  loadSasFromUserFile w = (Ret None, w)
  /\ getSas connectionString w
     = (Exit 1, add_console (error_line "Input Error:" login_first) w).
Proof.
  intros Hcs Hs Hf.
  pose proof (loadSasFromUserFile_missing _ _ Hs Hf) as HL.
  split; [exact HL|].
  unfold getSas. rewrite Hcs. unfold bind. rewrite HL. step_m.
  cbn [truthy negb]. rewrite inputError_exits. reflexivity.
Qed.

(** On a platform without a session location the outcome is an input
    error as well. *)
Lemma getSas_unsupported_platform (connectionString : option string) (w : world) :
  truthy connectionString = false ->
  session_file w = None ->
  exists line, getSas connectionString w = (Exit 1, add_console line w).
Proof.
  intros Hcs Hs. destruct (configLoc_cases w) as [(loc & _ & Hs') | (_ & Hc)].
  - congruence.
  - unfold getSas, loadSasFromUserFile. rewrite Hcs. unfold bind. rewrite Hc.
    eauto.
Qed.

(** C9.  With a connection string that parses, the token is created with
    the expiry [floor(now / 1000) + 3600]; it is returned unless it is the
    empty string. *)
Theorem getSas_expiry_is_one_hour
    (connectionString : string) (cn : cn_fields) (w : world) :
  connectionString <> EmptyString ->
  ConnectionString_parse connectionString = Ok cn ->
  let expiry := now w / 1000 + 3600 in
  let token := SharedAccessSignature_create (HostName cn)
                 (SharedAccessKeyName cn) (SharedAccessKey cn) expiry in
  getSas (Some connectionString) w
  = if truthy (Some token) then (Ret (Some token), w)
    else (Exit 1, add_console (error_line "Input Error:" login_first) w).
Proof.
  intros Hne Hp expiry token.
  assert (T : truthy (Some connectionString) = true).
  { simpl. destruct (String.eqb_spec connectionString EmptyString);
      [contradiction | reflexivity]. }
  unfold getSas. rewrite T. step_m. cbn [JS.str]. rewrite Hp. step_m.
  fold expiry. fold token.
  destruct (truthy (Some token)) eqn:E; step_m; cbn [negb].
  - reflexivity.
  - rewrite inputError_exits. reflexivity.
Qed.

(** [getSas] never returns a falsy token. *)
Lemma getSas_returns_truthy (connectionString sas : option string) (w w' : world) :
  getSas connectionString w = (Ret sas, w') -> truthy sas = true.
Proof.
  unfold getSas. unfold bind at 1.
  destruct (_ w) as [[s | n | e] w1]; try discriminate.
  unfold bind, when, ret. destruct (truthy s) eqn:E; cbn [negb]; cbn beta iota.
  - intros H. inversion H. subst. exact E.
  - rewrite inputError_exits. discriminate.
Qed.

Lemma loadSasFromUserFile_outcome (w : world) :
  (exists sas, loadSasFromUserFile w = (Ret sas, w))
  \/ (exists msg,
        loadSasFromUserFile w = (Exit 1, add_console (error_line "Input Error:" msg) w))
  \/ (exists e, loadSasFromUserFile w = (Throw e, w)).
Proof.
  destruct (configLoc_cases w) as [(loc & Hc & Hs) | (Hs & Hc)].
  - destruct (fs w !! (dir loc +:+ "/" +:+ file loc)) as [[c | e] |] eqn:Hf.
    + left. eexists. eapply loadSasFromUserFile_present; eauto.
    + destruct (code_is e "ENOENT") eqn:He.
      * left. exists None.
        unfold loadSasFromUserFile, readFileSync; step_m.
        rewrite Hc; step_m. rewrite Hf; step_m. rewrite He. reflexivity.
      * right; right. eexists. eapply loadSasFromUserFile_faulty; eauto.
    + left. eexists. eapply loadSasFromUserFile_missing; eauto.
  - right; left. eexists. unfold loadSasFromUserFile, bind. rewrite Hc. reflexivity.
Qed.

(** [getSas] returns a truthy token and leaves the world as it is, or
    reports an input error, or lets an exception through. *)
Lemma getSas_outcome (connectionString : option string) (w : world) :
  (exists sas, getSas connectionString w = (Ret (Some sas), w)
               /\ truthy (Some sas) = true)
  \/ (exists msg,
        getSas connectionString w
        = (Exit 1, add_console (error_line "Input Error:" msg) w))
  \/ (exists e, getSas connectionString w = (Throw e, w)).
Proof.
  unfold getSas. destruct (truthy connectionString) eqn:T.
  - step_m. destruct (ConnectionString_parse (JS.str connectionString)) as [cn | e];
      step_m.
    + match goal with
      | |- context [truthy (Some ?t)] => destruct (truthy (Some t)) eqn:E
      end; cbn [negb]; cbn beta iota.
      * left. eexists. split; [reflexivity | exact E].
      * right; left. rewrite inputError_exits. eauto.
    + destruct (instanceof e ArgumentError); step_m.
      * right; left. rewrite inputError_exits. eauto.
      * right; right. eauto.
  - unfold bind.
    destruct (loadSasFromUserFile_outcome w) as [(s & H) | [(msg & H) | (e & H)]];
      rewrite H.
    + step_m. destruct s as [s|].
      * destruct (truthy (Some s)) eqn:E; cbn [negb]; cbn beta iota.
        -- left. eexists. split; [reflexivity | exact E].
        -- right; left. rewrite inputError_exits. eauto.
      * cbn [truthy negb]; cbn beta iota.
        right; left. rewrite inputError_exits. eauto.
    + right; left. eauto.
    + right; right. eauto.
Qed.

End CommonFacts.

(* ===================================================================== *)
(** ** Properties of the logout command *)
(* ===================================================================== *)

Section LogoutFacts.

Context `{P : Packages}.

Import Common.

(** C4 (amended).  Without a session file the command prints "No session
    information found." through [printError]: the line carries the
    [Error:] prefix and the process exits with code 1; nothing is thrown.
    An existing file is deleted and the success line is printed.  Any
    other failure of the deletion propagates. *)
Theorem logout_outcomes (w : world) (path : string) :
  session_file w = Some path ->
  (fs w !! path = None ->
   Logout.logout w
   = (Exit 1,
      add_console (error_line "Error:" "No session information found.") w))
  /\
  (forall content, fs w !! path = Some (File content) ->
   Logout.logout w
   = (Ret tt,
      add_console (success_line "Session successfully terminated.")
        (set_fs (delete path (fs w)) w)))
  /\
  (forall e, fs w !! path = Some (Faulty e) -> code_is e "ENOENT" = false ->
   Logout.logout w = (Throw e, w)).
Proof.
  intros Hs. destruct (session_file_configLoc _ _ Hs) as (loc & Hc & ->).
  unfold Logout.logout, unlinkSync, printSuccess; step_m. rewrite Hc.
  repeat split.
  - intros ->. step_m. cbn [code_is ENOENT ecode String.eqb Ascii.eqb Bool.eqb].
    rewrite printError_exits. reflexivity.
  - intros content ->. reflexivity.
  - intros e -> ->. reflexivity.
Qed.

End LogoutFacts.

(* ===================================================================== *)
(** ** Properties of the device simulation *)
(* ===================================================================== *)

Section SimulateFacts.

Context `{P : Packages}.

Import Common Simulate.

Lemma truthy_Some (s : string) : s <> EmptyString -> truthy (Some s) = true.
Proof.
  intros H. simpl. destruct (String.eqb_spec s EmptyString); [contradiction | reflexivity].
Qed.

(** Case analysis on the guard of the next pending [inputError]. *)
Ltac next_guard :=
  match goal with
  | |- context [if ?b then inputError _ else _] =>
      let E := fresh "G" in
      destruct b eqn:E; step_m;
      [rewrite inputError_exits; step_m | ]
  end.

(** C3.  A run that is given a device connection string never gets past
    the top level: [getSas] returns only with a token, and a token
    together with a connection string is rejected.  The process exits
    with an input error (or [getSas] throws); no callback ever runs and
    no service is called. *)
Theorem device_connection_string_is_always_rejected
    (program : program_t) (cbs : list callback) (w : world) :
  truthy (connectionString program) = true ->
  (exists msg,
     exec program cbs w = (Exit 1, add_console (error_line "Input Error:" msg) w))
  \/ (exists e, exec program cbs w = (Throw e, w)
                /\ getSas (login program) w = (Throw e, w)).
Proof.
  intros Hcs. unfold exec, main. step_m.
  destruct (getSas_outcome (login program) w) as [(s & H & T) | [(msg & H) | (e & H)]];
    rewrite H; step_m.
  - rewrite Hcs, T. cbn [negb andb orb]. cbn beta iota.
    rewrite inputError_exits. step_m. left. eauto.
  - left. eauto.
  - right. eauto.
Qed.

(** C6.  With MQTT and a settle policy other than complete, the top level
    ends before [simulateDevice] is reached: no callback runs, no service
    is called, no connection is opened.  Unless the retrieval of the
    session token throws, the process exits with an input error. *)
Theorem mqtt_settle_is_validated_before_connecting
    (program : program_t) (cbs : list callback) (w : world) :
  protocol program = Some "mqtt" ->
  settle program = Some "reject" \/ settle program = Some "abandon" ->
  let r := exec program cbs w in
  net (snd r) = net w
  /\ (forall st, fst r <> Ret st)
  /\ ((forall e w', getSas (login program) w <> (Throw e, w')) ->
      exists msg,
        r = (Exit 1, add_console (error_line "Input Error:" msg) w)).
Proof.
  intros Hp Hs.
  assert (H : (exists msg, exec program cbs w
                 = (Exit 1, add_console (error_line "Input Error:" msg) w))
              \/ (exists e, exec program cbs w = (Throw e, w)
                            /\ getSas (login program) w = (Throw e, w))).
  { unfold exec, main. step_m.
    destruct (getSas_outcome (login program) w) as [(s & H & T) | [(msg & H) | (e & H)]];
      rewrite H; step_m; [ | left; eauto | right; eauto].
    left.
    next_guard; [eauto|].
    next_guard; [eauto|].
    next_guard; [eauto|].
    rewrite Hp.
    destruct Hs as [-> | ->]; cbn [truthy JS.str String.eqb Ascii.eqb Bool.eqb negb];
      cbn beta iota; rewrite inputError_exits; step_m; eauto. }
  intros r. subst r.
  destruct H as [(msg & ->) | (e & -> & Hg)]; cbn [fst snd].
  - repeat split; [discriminate | eauto].
  - repeat split; [discriminate |].
    intros Hn. exfalso. exact (Hn _ _ Hg).
Qed.

(** C2 (amended).  Every failure that a service reports, the failure of an
    upload included, is printed with the [Error:] prefix and ends the
    process with exit code 1.  Only a successful upload marks the upload
    as finished and lets the run go on. *)
Theorem service_failures_halt_upload_included
    (sc : script) (st : state) (e : JS.error) (w : world) :
  (forall info, exists msg,
     handle sc st (RegistryGot (Some e) info) w
     = (Exit 1, add_console (error_line "Error:" msg) w))
  /\ (exists msg,
        handle sc st (Opened (Some e)) w
        = (Exit 1, add_console (error_line "Error:" msg) w))
  /\ (exists msg,
        handle sc st (Sent (Some e)) w
        = (Exit 1, add_console (error_line "Error:" msg) w))
  /\ (exists msg,
        handle sc st (Settled (Some e)) w
        = (Exit 1, add_console (error_line "Error:" msg) w))
  /\ (exists msg,
        handle sc st (Closed (Some e)) w
        = (Exit 1, add_console (error_line "Error:" msg) w))
  /\ handle sc st (Uploaded (Some e)) w
     = (Exit 1,
        add_console
          (error_line "Error:"
             ("Cannot upload file: " +:+ constructor_name e +:+ ": "
              +:+ err_message e)) w)
  /\ handle sc st (Uploaded None) w
     = (Ret (set_uploadRunning false (set_upload_pending false st)),
        add_console (success_line "Upload successful") w).
Proof.
  unfold handle, onRegistryGot, onOpened, onSent, onSettled, onClosed, onUploaded.
  repeat split.
  - intros _. step_m.
    destruct (serviceError_exits (ErrObject e) w) as [msg ->]. eauto.
  - step_m.
    match goal with
    | |- context [serviceError ?a w] =>
        destruct (serviceError_exits a w) as [msg ->]
    end. eauto.
  - step_m. destruct (serviceError_exits (ErrObject e) w) as [msg ->]. eauto.
  - step_m.
    match goal with
    | |- context [serviceError ?a w] =>
        destruct (serviceError_exits a w) as [msg ->]
    end. eauto.
  - step_m. destruct (serviceError_exits (ErrObject e) w) as [msg ->]. eauto.
Qed.

(** *** The send activity *)

Lemma sent_app (calls : list net_event) (e : net_event) :
  sent (calls ++ [e])%list
  = sent calls + match e with SendEvent _ => 1 | _ => 0 end.
Proof.
  induction calls as [|c calls IH]; simpl.
  - destruct e; reflexivity.
  - destruct c; rewrite IH; lia.
Qed.

Lemma default_message_is_not_JSON (counter : string) :
  JSON.parse ("Simulated message: #" +:+ counter) = Raise JSON.syntax_error.
Proof. reflexivity. Qed.

Lemma plain_text_truthy (s : send_opt) :
  plain_text s = true -> send_truthy s = true.
Proof.
  destruct s; simpl; try congruence.
  intros H. apply andb_true_iff in H. tauto.
Qed.

(** The send tick hands one message to the client. *)
Lemma onSendTick_sends (sc : script) (st : state) (w : world) :
  plain_text (send (program sc)) = true ->
  exists m w',
    onSendTick sc st w
    = (Ret (set_sends_pending (S (sends_pending st)) st), w')
    /\ net w' = (net w ++ [SendEvent m])%list.
Proof.
  intros Hp. unfold onSendTick. destruct (send (program sc)) as [| | text].
  - discriminate.
  - unfold bind at 1.
    rewrite (createMessageFromArgument_plain_text _ None w JSON.syntax_error)
      by apply default_message_is_not_JSON.
    step_m. eexists _, _. split; reflexivity.
  - simpl in Hp. apply andb_true_iff in Hp. destruct Hp as [_ Hp].
    destruct (JSON.parse text) as [v|e] eqn:E; [discriminate|].
    unfold bind at 1.
    rewrite (createMessageFromArgument_plain_text _ None w e E).
    step_m. eexists _, _. split; reflexivity.
Qed.

Lemma classic_cb (cb : callback) :
  cb = SendTick \/ (exists err, cb = Sent err)
  \/ (cb <> SendTick /\ forall err, cb <> Sent err).
Proof.
  destruct cb; eauto; right; right; split; intros; discriminate.
Qed.

(** The other callbacks send nothing and leave the send activity alone. *)
Lemma other_callbacks_frame (sc : script) (st : state) (cb : callback) (w : world) :
  registry_pending st = false ->
  open_pending st = false ->
  cb <> SendTick ->
  (forall err, cb <> Sent err) ->
  forall o w', deliver sc st cb w = (o, w') ->
    sent (net w') = sent (net w)
    /\ forall st', o = Ret st' ->
         registry_pending st' = false /\ open_pending st' = false
         /\ sendRunning st' = sendRunning st /\ sendItv st' = sendItv st
         /\ sendCounter st' = sendCounter st
         /\ sends_pending st' = sends_pending st.
Proof.
  intros Hr Ho Ht Hs o w'.
  assert (Done : forall (a : outcome state) (v : world),
             sent (net v) = sent (net w) ->
             (forall st', a = Ret st' ->
                registry_pending st' = false /\ open_pending st' = false
                /\ sendRunning st' = sendRunning st /\ sendItv st' = sendItv st
                /\ sendCounter st' = sendCounter st
                /\ sends_pending st' = sends_pending st) ->
             (a, v) = (o, w') ->
             sent (net w') = sent (net w)
             /\ forall st', o = Ret st' ->
                  registry_pending st' = false /\ open_pending st' = false
                  /\ sendRunning st' = sendRunning st /\ sendItv st' = sendItv st
                  /\ sendCounter st' = sendCounter st
                  /\ sends_pending st' = sends_pending st).
  { intros a v H1 H2 E. inversion E; subst. split; assumption. }
  assert (Same : forall st', Ret st = Ret st' ->
             registry_pending st' = false /\ open_pending st' = false
             /\ sendRunning st' = sendRunning st /\ sendItv st' = sendItv st
             /\ sendCounter st' = sendCounter st
             /\ sends_pending st' = sends_pending st).
  { intros st' E. inversion E; subst. tauto. }
  unfold deliver, enabled.
  destruct cb as [err info | err | | err | text | err | err size | err | | err].
  - rewrite Hr. apply Done; auto.
  - rewrite Ho. apply Done; auto.
  - contradiction.
  - exfalso. exact (Hs err eq_refl).
  - destruct (listening st); [| apply Done; auto].
    unfold handle, onMessage, printSuccess. step_m.
    apply Done.
    + simpl. rewrite sent_app. lia.
    + intros st' E. inversion E; subst.
      destruct (Z.eqb _ _); simpl; tauto.
  - destruct (negb _); [| apply Done; auto].
    unfold handle, onSettled, printSuccess. destruct err as [e|]; step_m.
    + match goal with
      | |- context [serviceError ?a w] =>
          destruct (serviceError_exits a w) as [msg ->]
      end.
      apply Done; [reflexivity | discriminate].
    + apply Done; [reflexivity |].
      intros st' E. inversion E; subst. simpl; tauto.
  - destruct (stat_pending st); [| apply Done; auto].
    unfold handle, onStat. destruct err as [e|]; step_m; cbn [is_some]; cbn beta iota.
    + rewrite inputError_exits. apply Done; [reflexivity | discriminate].
    + destruct size as [sz|]; step_m.
      * apply Done.
        -- simpl. rewrite sent_app. lia.
        -- intros st' E. inversion E; subst. simpl; tauto.
      * apply Done; [reflexivity | discriminate].
  - destruct (upload_pending st); [| apply Done; auto].
    unfold handle, onUploaded, printSuccess. destruct err as [e|]; step_m.
    + rewrite printError_exits. apply Done; [reflexivity | discriminate].
    + apply Done; [reflexivity |].
      intros st' E. inversion E; subst. simpl; tauto.
  - destruct (taskItv st); [| apply Done; auto].
    unfold handle, onTaskTick, printSuccess.
    destruct (negb (sendRunning st) && negb (receiveRunning st)
              && negb (uploadRunning st)); step_m.
    + apply Done.
      * simpl. rewrite sent_app. lia.
      * intros st' E. inversion E; subst. simpl; tauto.
    + apply Done; auto.
  - destruct (negb _); [| apply Done; auto].
    unfold handle, onClosed. destruct err as [e|]; step_m.
    + destruct (serviceError_exits (ErrObject e) w) as [msg ->].
      apply Done; [reflexivity | discriminate].
    + apply Done; [reflexivity | discriminate].
Qed.

(** Preservation: one callback keeps the invariant, or ends the run
    without sending. *)
Lemma deliver_preserves (n base : Z) (pending : bool)
    (sc : script) (st : state) (cb : callback) (w : world) :
  sendCount_max sc = n ->
  plain_text (send (program sc)) = true ->
  send_inv n base pending st w ->
  (cb = SendTick -> pending = false) ->
  (forall e, cb <> Sent (Some e)) ->
  forall o w', deliver sc st cb w = (o, w') ->
    match o with
    | Ret st' => send_inv n base (next_pending pending cb) st' w'
    | _ => sent (net w') = sent (net w)
    end.
Proof.
  intros Hn Hp I Htick Hok o w' D.
  destruct (classic_cb cb) as [-> | [[err ->] | [Ht Hs]]].
  - (* the send timer fires *)
    specialize (Htick eq_refl). subst pending.
    assert (Z0 : sends_pending st = 0%nat).
    { pose proof (inv_pending _ _ _ _ _ I). pose proof (inv_flag _ _ _ _ _ I).
      destruct (sends_pending st) as [|[|k]]; [reflexivity | | lia].
      destruct H0 as [? _]; [reflexivity | discriminate]. }
    unfold deliver, enabled in D. destruct (sendItv st) eqn:Itv.
    + cbn [handle] in D.
      destruct (onSendTick_sends sc st w Hp) as (m & v & E & Hnet).
      rewrite E in D. inversion D; subst. destruct I. cbn [next_pending].
      constructor; simpl; try assumption; try tauto.
      * rewrite Z0. lia.
      * rewrite Hnet, sent_app, inv_sent0, Z0. lia.
    + inversion D; subst. destruct I. cbn [next_pending].
      constructor; try assumption. rewrite Z0. discriminate.
  - (* a send is acknowledged *)
    destruct err as [e|]; [exfalso; exact (Hok e eq_refl)|].
    unfold deliver, enabled in D.
    destruct (sends_pending st) as [|k] eqn:Pk; cbn [Nat.eqb negb] in D.
    + inversion D; subst. destruct I. cbn [next_pending].
      constructor; try assumption; try lia.
    + assert (k = 0%nat) by (pose proof (inv_pending _ _ _ _ _ I); lia). subst k.
      destruct (inv_flag _ _ _ _ _ I Pk) as [_ Itv].
      pose proof (proj1 (inv_timer _ _ _ _ _ I) Itv) as Lt.
      cbn [handle] in D. unfold onSent, printSuccess in D.
      revert D. step_m. cbn [sendCounter set_sendCounter set_sends_pending].
      rewrite Pk. cbn [Nat.pred]. rewrite Hn.
      destruct (Z.eqb_spec (sendCounter st + 1) n) as [Eq | Ne];
        cbn beta iota; intros D; inversion D; subst; destruct I; cbn [next_pending];
        constructor; simpl; try assumption; try discriminate; try lia;
        try (split; [intros _; lia | intros _; exact Itv]);
        rewrite Pk in inv_sent0; lia.
  - (* any other callback *)
    destruct (other_callbacks_frame sc st cb w (inv_registry _ _ _ _ _ I)
                (inv_open _ _ _ _ _ I) Ht Hs o w' D) as [Hsent Hst].
    destruct o as [st' | code | e]; try exact Hsent.
    destruct (Hst st' eq_refl) as (R1 & R2 & R3 & R4 & R5 & R6).
    replace (next_pending pending cb) with pending
      by (destruct cb; try reflexivity; [contradiction | exfalso; exact (Hs _ eq_refl)]).
    destruct I.
    constructor; rewrite ?R1, ?R2, ?R3, ?R4, ?R5, ?R6, ?Hsent;
      solve [assumption | reflexivity].
Qed.

(** Use: under the invariant no more than [n] messages have been sent,
    and exactly [n] once the timer is stopped. *)
Lemma send_inv_bound (n base : Z) (pending : bool) (st : state) (w : world) :
  send_inv n base pending st w ->
  sent (net w) <= base + n
  /\ (sendItv st = false -> sent (net w) = base + n /\ sendCounter st = n).
Proof.
  intros [_ _ Hp Hf Hc Ht _ Hs].
  destruct (sends_pending st) as [|[|k]]; [ | | lia].
  - split; [lia|]. intros Itv.
    assert (~ sendCounter st < n) by (rewrite <- Ht; congruence). lia.
  - destruct (Hf eq_refl) as [_ Itv]. pose proof (proj1 Ht Itv).
    split; [lia | congruence].
Qed.

(** The invariant along a whole sequence of callbacks. *)
Lemma run_preserves (n base : Z) (sc : script) (cbs : list callback) :
  sendCount_max sc = n ->
  plain_text (send (program sc)) = true ->
  forall (pending : bool) (st : state) (w : world),
    send_inv n base pending st w ->
    one_at_a_time pending cbs = true ->
    sends_succeed cbs = true ->
    forall o w', run sc st cbs w = (o, w') ->
      sent (net w') <= base + n
      /\ forall st', o = Ret st' -> exists pending', send_inv n base pending' st' w'.
Proof.
  intros Hn Hp. induction cbs as [|cb cbs IH]; intros pending st w I H1 H2 o w' R.
  - inversion R; subst. split; [apply (send_inv_bound _ _ _ _ _ I) | ].
    intros st' E. inversion E; subst. eauto.
  - cbn [run] in R. unfold bind in R.
    destruct (deliver sc st cb w) as [o1 w1] eqn:D.
    assert (Tick : cb = SendTick -> pending = false).
    { intros ->. simpl in H1. destruct pending; [discriminate | reflexivity]. }
    assert (Ok : forall e, cb <> Sent (Some e)).
    { intros e ->. discriminate. }
    pose proof (deliver_preserves n base pending sc st cb w Hn Hp I Tick Ok o1 w1 D) as S.
    destruct o1 as [st1 | code | e].
    + apply (IH (next_pending pending cb) st1 w1 S); [ | | exact R].
      * destruct cb; simpl in H1 |- *; try exact H1.
        apply andb_true_iff in H1. tauto.
      * destruct cb as [| | | [e|] | | | | | |]; simpl in H2 |- *;
          solve [exact H2 | discriminate].
    + inversion R; subst. split; [ | discriminate].
      rewrite S. apply (send_inv_bound _ _ _ _ _ I).
    + inversion R; subst. split; [ | discriminate].
      rewrite S. apply (send_inv_bound _ _ _ _ _ I).
Qed.

(** *** From the command line to the armed timer *)

(** The top level sends nothing; when it returns, the registry lookup
    is outstanding and the script variables are set from the options. *)
Lemma main_outcome (program : program_t) (w : world) (o : outcome (script * state))
    (w' : world) :
  main program w = (o, w') ->
  sent (net w') = sent (net w)
  /\ forall sc st, o = Ret (sc, st) ->
       Simulate.program sc = program
       /\ sendCount_max sc
          = (if truthy_num (sendCount program)
             then default 0 (sendCount program) else MAX_SAFE_INTEGER)
       /\ st = awaiting_registry.
Proof.
  assert (Stop : forall (a : outcome (script * state)) (v : world),
             net v = net w -> (forall r, a <> Ret r) -> (a, v) = (o, w') ->
             sent (net w') = sent (net w)
             /\ forall sc st, o = Ret (sc, st) ->
                  Simulate.program sc = program
                  /\ sendCount_max sc
                     = (if truthy_num (sendCount program)
                        then default 0 (sendCount program) else MAX_SAFE_INTEGER)
                  /\ st = awaiting_registry).
  { intros a v Hv Ha E. inversion E; subst. split; [now rewrite Hv|].
    intros sc st E'. exfalso. exact (Ha _ E'). }
  unfold main. step_m.
  destruct (getSas_outcome (login program) w) as [(s & H & T) | [(msg & H) | (e & H)]];
    rewrite H; step_m;
    [ | apply Stop; [reflexivity | discriminate] .. ].
  rewrite T.
  destruct (truthy (connectionString program)) eqn:Hcs; cbn [negb andb orb];
    cbn beta iota.
  { rewrite inputError_exits. step_m. apply Stop; [reflexivity | discriminate]. }
  next_guard; [apply Stop; [reflexivity | discriminate] |].
  next_guard; [apply Stop; [reflexivity | discriminate] |].
  repeat match goal with
         | |- context [String.eqb ?a ?b] =>
             destruct (String.eqb a b); cbn [negb]; cbn beta iota
         end;
    try (rewrite inputError_exits; step_m; apply Stop; [reflexivity | discriminate]);
    (destruct (Registry_fromSharedAccessSignature s);
     [ | apply Stop; [reflexivity | discriminate]]);
    (intros E; inversion E; subst; split;
     [ simpl; rewrite sent_app; lia
     | intros sc st E'; inversion E'; subst; simpl; auto ]).
Qed.

(** While the registry lookup is outstanding only its callback is
    delivered; it sends nothing and, when it returns, [client.open] has
    been called. *)
Lemma deliver_awaiting_registry (sc : script) (cb : callback) (w : world)
    (o : outcome state) (w' : world) :
  deliver sc awaiting_registry cb w = (o, w') ->
  sent (net w') = sent (net w)
  /\ forall st, o = Ret st ->
       st = awaiting_registry
       \/ exists dcs,
            st = connecting dcs (send_truthy (send (program sc)))
                   (receive (program sc)) (truthy (uploadFile (program sc))).
Proof.
  unfold deliver, enabled.
  destruct cb as [err info | err | | err | text | err | err size | err | | err];
    cbn [awaiting_registry registry_pending open_pending sendItv sends_pending
         listening settles_pending stat_pending upload_pending taskItv
         closes_pending Nat.eqb negb];
    try (intros E; inversion E; subst; split; [reflexivity | intros st E'; inversion E'; auto]).
  unfold handle, onRegistryGot, simulateDevice, getHostFromSas. step_m.
  destruct err as [e|].
  - destruct (serviceError_exits (ErrObject e) w) as [msg ->].
    intros E; inversion E; subst. split; [reflexivity | discriminate].
  - destruct (sas sc) as [s|]; step_m;
      [ | intros E; inversion E; subst; split; [reflexivity | discriminate]].
    destruct (SharedAccessSignature_parse_sr s) as [host|e]; step_m;
      [ | intros E; inversion E; subst; split; [reflexivity | discriminate]].
    destruct info as [info|]; step_m;
      [ | intros E; inversion E; subst; split; [reflexivity | discriminate]].
    destruct (truthy (createDeviceConnectionString info host)); cbn [negb]; step_m;
      [ | intros E; inversion E; subst; split; [reflexivity | discriminate]].
    destruct (DeviceClient_fromConnectionString _ _); step_m;
      intros E; inversion E; subst; split;
      try reflexivity; try discriminate.
    + simpl. rewrite sent_app. lia.
    + intros st E'. inversion E'; subst. right. eauto.
Qed.

(** While [client.open] is outstanding only its callback is delivered;
    when it returns, the send timer is armed. *)
Lemma deliver_connecting (n base : Z) (pending : bool) (sc : script)
    (dcs : option string) (cb : callback) (w : world)
    (o : outcome state) (w' : world) :
  1 <= n ->
  plain_text (send (program sc)) = true ->
  sent (net w) = base ->
  let st0 := connecting dcs (send_truthy (send (program sc)))
               (receive (program sc)) (truthy (uploadFile (program sc))) in
  deliver sc st0 cb w = (o, w') ->
  sent (net w') = base
  /\ forall st, o = Ret st -> st = st0 \/ send_inv n base pending st w'.
Proof.
  intros Hn Hp Hb st0. pose proof (plain_text_truthy _ Hp) as Ht.
  unfold deliver, enabled.
  destruct cb as [err info | err | | err | text | err | err size | err | | err];
    cbn [st0 connecting registry_pending open_pending sendItv sends_pending
         listening settles_pending stat_pending upload_pending taskItv
         closes_pending Nat.eqb negb];
    try (intros E; inversion E; subst; split; [reflexivity | intros st E'; inversion E'; auto]).
  unfold handle, onOpened. destruct err as [e|]; step_m.
  - match goal with
    | |- context [serviceError ?a w] =>
        destruct (serviceError_exits a w) as [msg ->]
    end.
    intros E; inversion E; subst. split; [reflexivity | discriminate].
  - rewrite Ht. intros E; inversion E; subst. split; [reflexivity|].
    intros st E'. inversion E'; subst. right.
    destruct (receive (program sc)), (truthy (uploadFilePath sc));
      constructor; simpl; try reflexivity; try lia; try discriminate;
      try exact Ht; try (split; [intros _; lia | reflexivity]).
Qed.

Lemma run_connecting (n base : Z) (sc : script) (dcs : option string)
    (cbs : list callback) :
  sendCount_max sc = n ->
  1 <= n ->
  plain_text (send (program sc)) = true ->
  forall (pending : bool) (w : world),
    sent (net w) = base ->
    one_at_a_time pending cbs = true ->
    sends_succeed cbs = true ->
    forall o w',
      run sc (connecting dcs (send_truthy (send (program sc)))
                (receive (program sc)) (truthy (uploadFile (program sc))))
        cbs w = (o, w') ->
      send_post n base o w'.
Proof.
  intros Hn Hn1 Hp.
  induction cbs as [|cb cbs IH]; intros pending w Hb H1 H2 o w' R.
  - inversion R; subst. split; [lia|]. intros st E. inversion E; subst.
    discriminate.
  - cbn [run] in R. unfold bind in R.
    destruct (deliver sc _ cb w) as [o1 w1] eqn:D.
    destruct (deliver_connecting n base (next_pending pending cb) sc dcs cb w o1 w1
                Hn1 Hp Hb D) as [Hs Hst].
    assert (T1 : one_at_a_time (next_pending pending cb) cbs = true).
    { destruct cb; simpl in H1 |- *; try exact H1.
      apply andb_true_iff in H1. tauto. }
    assert (T2 : sends_succeed cbs = true).
    { destruct cb as [| | | [e|] | | | | | |]; simpl in H2 |- *;
        solve [exact H2 | discriminate]. }
    destruct o1 as [st1 | code | e].
    + destruct (Hst st1 eq_refl) as [-> | I].
      * exact (IH _ w1 Hs T1 T2 o w' R).
      * destruct (run_preserves n base sc cbs Hn Hp _ st1 w1 I T1 T2 o w' R)
          as [B K].
        split; [exact B|]. intros st E _ _. exact (K st E).
    + inversion R; subst. split; [lia | discriminate].
    + inversion R; subst. split; [lia | discriminate].
Qed.

Lemma run_awaiting_registry (n base : Z) (sc : script) (cbs : list callback) :
  sendCount_max sc = n ->
  1 <= n ->
  plain_text (send (program sc)) = true ->
  forall (pending : bool) (w : world),
    sent (net w) = base ->
    one_at_a_time pending cbs = true ->
    sends_succeed cbs = true ->
    forall o w',
      run sc awaiting_registry cbs w = (o, w') -> send_post n base o w'.
Proof.
  intros Hn Hn1 Hp.
  induction cbs as [|cb cbs IH]; intros pending w Hb H1 H2 o w' R.
  - inversion R; subst. split; [lia|]. intros st E. inversion E; subst.
    discriminate.
  - cbn [run] in R. unfold bind in R.
    destruct (deliver sc _ cb w) as [o1 w1] eqn:D.
    destruct (deliver_awaiting_registry sc cb w o1 w1 D) as [Hs Hst].
    assert (T1 : one_at_a_time (next_pending pending cb) cbs = true).
    { destruct cb; simpl in H1 |- *; try exact H1.
      apply andb_true_iff in H1. tauto. }
    assert (T2 : sends_succeed cbs = true).
    { destruct cb as [| | | [e|] | | | | | |]; simpl in H2 |- *;
        solve [exact H2 | discriminate]. }
    assert (Hb1 : sent (net w1) = base) by congruence.
    destruct o1 as [st1 | code | e].
    + destruct (Hst st1 eq_refl) as [-> | [dcs ->]].
      * exact (IH _ w1 Hb1 T1 T2 o w' R).
      * exact (run_connecting n base sc dcs cbs Hn Hn1 Hp _ w1 Hb1 T1 T2 o w' R).
    + inversion R; subst. split; [lia | discriminate].
    + inversion R; subst. split; [lia | discriminate].
Qed.

(** The send activity along a run from the command line: the bound, and
    the invariant once the connection is open. *)
Lemma exec_send_post
    (program : program_t) (cbs : list callback) (w : world) (n : Z) :
  sendCount program = Some n ->
  1 <= n ->
  plain_text (send program) = true ->
  one_at_a_time false cbs = true ->
  sends_succeed cbs = true ->
  send_post n (sent (net w)) (fst (exec program cbs w)) (snd (exec program cbs w)).
Proof.
  intros Hc Hn Hp H1 H2. unfold exec, bind.
  destruct (main program w) as [o1 w1] eqn:Mn.
  destruct (main_outcome program w o1 w1 Mn) as [Hs Hst].
  destruct o1 as [[sc st] | code | e]; cbn [fst snd].
  - destruct (Hst sc st eq_refl) as (Hprog & Hmax & ->).
    assert (Hmax' : sendCount_max sc = n).
    { rewrite Hmax, Hc. simpl. destruct (Z.eqb_spec n 0); [lia | reflexivity]. }
    destruct (run sc awaiting_registry cbs w1) as [o w'] eqn:R. cbn [fst snd].
    apply (run_awaiting_registry n (sent (net w)) sc cbs Hmax' Hn
             ltac:(rewrite Hprog; exact Hp) false w1 Hs H1 H2 o w' R).
  - split; [lia | discriminate].
  - split; [lia | discriminate].
Qed.

(** Progress: when every tick is followed by its acknowledgement, the
    timer stops after the [n]-th one; receiving and uploading are left
    as they were. *)
Lemma run_ticks (n base : Z) (sc : script) :
  sendCount_max sc = n ->
  plain_text (send (program sc)) = true ->
  forall (k : nat) (pending : bool) (st : state) (w : world),
    send_inv n base pending st w ->
    sends_pending st = 0%nat ->
    sendCounter st + Z.of_nat k = n ->
    exists st' w',
      run sc st (ticks k) w = (Ret st', w')
      /\ sendItv st' = false /\ sendRunning st' = false
      /\ sent (net w') = base + n
      /\ receiveRunning st' = receiveRunning st
      /\ uploadRunning st' = uploadRunning st
      /\ sendCounter st' = n.
Proof.
  intros Hn Hp. induction k as [|k IH]; intros pending st w I Z0 Hk.
  - exists st, w. cbn [ticks run]. unfold ret.
    assert (Itv : sendItv st = false).
    { destruct (sendItv st) eqn:Itv; [|reflexivity].
      pose proof (proj1 (inv_timer _ _ _ _ _ I) Itv). lia. }
    destruct (send_inv_bound _ _ _ _ _ I) as [_ Stop].
    rewrite (inv_running _ _ _ _ _ I). repeat split; try assumption; try lia.
    apply Stop. exact Itv.
  - assert (Lt : sendCounter st < n) by lia.
    pose proof (proj2 (inv_timer _ _ _ _ _ I) Lt) as Itv.
    destruct (onSendTick_sends sc st w Hp) as (m & w1 & E1 & Hnet).
    assert (D1 : deliver sc st SendTick w
                 = (Ret (set_sends_pending (S (sends_pending st)) st), w1)).
    { unfold deliver, enabled. rewrite Itv. exact E1. }
    assert (I1 : send_inv n base true (set_sends_pending (S (sends_pending st)) st) w1).
    { destruct I. constructor; simpl; try assumption; try tauto.
      - rewrite Z0. lia.
      - rewrite Hnet, sent_app, inv_sent0, Z0. lia. }
    set (st1 := set_sends_pending (S (sends_pending st)) st) in *.
    destruct (deliver sc st1 (Sent None) w1) as [o2 w2] eqn:D2.
    pose proof (deliver_preserves n base true sc st1 (Sent None) w1 Hn Hp I1
                  ltac:(discriminate) ltac:(discriminate) o2 w2 D2) as I2.
    assert (Shape : exists st2, o2 = Ret st2 /\ sends_pending st2 = 0%nat
                    /\ sendCounter st2 = sendCounter st + 1
                    /\ receiveRunning st2 = receiveRunning st
                    /\ uploadRunning st2 = uploadRunning st).
    { revert D2. unfold deliver, enabled, st1. cbn [sends_pending set_sends_pending].
      cbn [Nat.eqb negb handle]. unfold onSent, printSuccess. step_m.
      cbn [sendCounter set_sendCounter set_sends_pending Nat.pred].
      destruct (Z.eqb _ _); cbn beta iota; intros D2; inversion D2; subst;
        eexists; split; try reflexivity; simpl; auto. }
    destruct Shape as (st2 & -> & P2 & C2 & R2 & U2).
    destruct (IH _ st2 w2 I2 P2 ltac:(lia))
      as (st' & w' & R & F1 & F2 & F3 & F4 & F5 & F6).
    exists st', w'. cbn [ticks run]. unfold bind. rewrite D1, D2.
    repeat split; try assumption; congruence.
Qed.

End SimulateFacts.

(* ===================================================================== *)
(** ** Concrete runs *)
(* ===================================================================== *)

Section Examples.

Import Common Simulate.

(** The text [{"messageId":"x","body":"y"}] parses, so the call throws. *)
Lemma prebuilt_message_throws :
  createMessageFromArgument (P := Demo.packages) Demo.prebuilt None Demo.fresh
  = (Throw (undefined_member "messageId"), Demo.fresh).
Proof.
  exact (createMessageFromArgument_throws_on_JSON (P := Demo.packages)
           Demo.prebuilt None Demo.fresh
           (JSON.JObject [("messageId", JSON.JString "x"); ("body", JSON.JString "y")])
           eq_refl).
Defined.

(** The text [hello] is wrapped. *)
Example hello_is_wrapped :
  fst (createMessageFromArgument (P := Demo.packages) "hello" (Some "full") Demo.fresh)
  = Ret (Envelope (mkMessage (Text "hello") (Some "uuid-0") (Some "full"))).
Proof. reflexivity. Qed.

(** A failed upload ends the run with exit code 1: the completion check
    that follows is never delivered. *)
Lemma failed_upload_exits :
  let r := exec (P := Demo.packages) Demo.upload
             [Demo.found; Opened None; Stat None (Some 10);
              Uploaded (Some Demo.boom); TaskTick] Demo.fresh in
  fst r = Exit 1
  /\ console (snd r)
     = [error_line (P := Demo.packages) "Error:" "Cannot upload file: Error: boom"]
  /\ forall st, fst r <> Ret st.
Proof. vm_compute. repeat split. discriminate. Qed.

(** With a device connection string and no session, the command stops
    at the top level. *)
Lemma connection_string_alone_is_rejected :
  (exists msg,
     exec (P := Demo.packages) Demo.with_connection_string [] Demo.fresh
     = (Exit 1,
        add_console (error_line (P := Demo.packages) "Input Error:" msg) Demo.fresh))
  \/ (exists e,
        exec (P := Demo.packages) Demo.with_connection_string [] Demo.fresh
        = (Throw e, Demo.fresh)
        /\ getSas (P := Demo.packages) (login Demo.with_connection_string) Demo.fresh
           = (Throw e, Demo.fresh)).
Proof.
  exact (device_connection_string_is_always_rejected (P := Demo.packages)
           Demo.with_connection_string [] Demo.fresh eq_refl).
Defined.

(** The same with a cached session. *)
Example connection_string_with_session_is_rejected :
  exec (P := Demo.packages) Demo.with_connection_string [] Demo.logged_in
  = (Exit 1,
     add_console (error_line (P := Demo.packages) "Input Error:" both_or_neither)
       Demo.logged_in).
Proof. reflexivity. Qed.

(** A hub connection string and a device id get as far as the registry
    lookup. *)
Example token_and_device_id_reach_the_registry :
  let r := exec (P := Demo.packages) (Demo.send_n 3) [] Demo.fresh in
  fst r = Ret awaiting_registry /\ net (snd r) = [RegistryGet "dev1"].
Proof. vm_compute. split; reflexivity. Qed.

(** Without a session file, logout ends with the error exit. *)
Lemma logout_without_session_exits_with_error :
  let r := Logout.logout (P := Demo.packages) Demo.fresh in
  fs Demo.fresh !! Demo.session_path = None
  /\ fst r = Exit 1
  /\ console (snd r)
     = [error_line (P := Demo.packages) "Error:" "No session information found."]
  /\ fst r <> Ret tt.
Proof. vm_compute. repeat split. discriminate. Qed.

(** Logout on the three machines. *)
Lemma logout_on_three_machines :
  Logout.logout (P := Demo.packages) Demo.fresh
  = (Exit 1,
     add_console (error_line (P := Demo.packages) "Error:" "No session information found.")
       Demo.fresh)
  /\ (exists content,
        Logout.logout (P := Demo.packages) Demo.logged_in
        = (Ret tt,
           add_console (success_line (P := Demo.packages) "Session successfully terminated.")
             (set_fs (delete Demo.session_path (fs Demo.logged_in)) Demo.logged_in))
        /\ fs Demo.logged_in !! Demo.session_path = Some (File content))
  /\ (exists e,
        Logout.logout (P := Demo.packages) Demo.locked = (Throw e, Demo.locked)
        /\ ecode e = Some "EACCES").
Proof.
  split; [| split].
  - exact (proj1 (logout_outcomes (P := Demo.packages) Demo.fresh Demo.session_path eq_refl)
             eq_refl).
  - eexists. split.
    + exact (proj1 (proj2 (logout_outcomes (P := Demo.packages) Demo.logged_in
                             Demo.session_path eq_refl)) _ eq_refl).
    + reflexivity.
  - eexists. split.
    + exact (proj2 (proj2 (logout_outcomes (P := Demo.packages) Demo.locked
                             Demo.session_path eq_refl)) _ eq_refl eq_refl).
    + reflexivity.
Defined.

(** A send count of 0 is replaced by the default, and a timer that fires
    faster than the sends are acknowledged sends more than the count. *)
Lemma send_count_is_not_always_exact :
  (let r := exec (P := Demo.packages) (Demo.send_n 0)
              [Demo.found; Opened None; SendTick; Sent None] Demo.fresh in
   sent (net (snd r)) = 1
   /\ exists st, fst r = Ret st /\ sendItv st = true /\ sendRunning st = true)
  /\
  (let r := exec (P := Demo.packages) (Demo.send_n 3)
              [Demo.found; Opened None; SendTick; SendTick; SendTick; SendTick;
               Sent None; Sent None; Sent None; Sent None] Demo.fresh in
   sent (net (snd r)) = 4
   /\ exists st, fst r = Ret st /\ sendItv st = false /\ sendCounter st = 4).
Proof.
  split; vm_compute; (split; [reflexivity | eexists; repeat split]).
Qed.

(** Three sends, one at a time. *)
Example three_sends_stop_the_timer :
  let r := exec (P := Demo.packages) (Demo.send_n 3)
             (Demo.found :: Opened None :: ticks 3) Demo.fresh in
  sent (net (snd r)) = 3
  /\ exists st, fst r = Ret st /\ sendItv st = false /\ sendRunning st = false.
Proof. vm_compute. split; [reflexivity | eexists; repeat split]. Qed.

(** MQTT with [--settle reject]. *)
Lemma mqtt_reject_is_an_input_error :
  let r := exec (P := Demo.packages) Demo.mqtt_reject [Demo.found; Opened None]
             Demo.fresh in
  net (snd r) = net Demo.fresh
  /\ (forall st, fst r <> Ret st)
  /\ ((forall e w',
         getSas (P := Demo.packages) (login Demo.mqtt_reject) Demo.fresh
         <> (Throw e, w')) ->
      exists msg,
        r = (Exit 1,
             add_console (error_line (P := Demo.packages) "Input Error:" msg) Demo.fresh)).
Proof.
  apply (mqtt_settle_is_validated_before_connecting (P := Demo.packages)
           Demo.mqtt_reject [Demo.found; Opened None] Demo.fresh).
  - reflexivity.
  - left. reflexivity.
Defined.

Example mqtt_reject_message :
  exec (P := Demo.packages) Demo.mqtt_reject [Demo.found; Opened None] Demo.fresh
  = (Exit 1,
     add_console
       (error_line (P := Demo.packages) "Input Error:"
          "Cannot reject messages with MQTT: messages are automatically completed.")
       Demo.fresh).
Proof. reflexivity. Qed.

(** Device records with a key, with a thumbprint only, with nothing. *)
Lemma connection_strings_of_three_devices :
  createDeviceConnectionString Demo.bare_device "hub.example.net" = None
  /\ exists rest,
       createDeviceConnectionString Demo.key_device "hub.example.net"
       = Some ("HostName=" +:+ "hub.example.net" +:+ ";DeviceId=" +:+ "dev1" +:+ rest).
Proof.
  split.
  - exact (proj1 (createDeviceConnectionString_null_iff_no_credentials
                    Demo.bare_device "hub.example.net")
             eq_refl eq_refl eq_refl eq_refl).
  - exact (proj2 (createDeviceConnectionString_null_iff_no_credentials
                    Demo.key_device "hub.example.net")
             (or_introl eq_refl)).
Defined.

Lemma x509_connection_string_example :
  createDeviceConnectionString Demo.x509_device "hub.example.net"
  = Some "HostName=hub.example.net;DeviceId=dev1x509=true"
  /\ createDeviceConnectionString Demo.key_device "hub.example.net"
     = Some "HostName=hub.example.net;DeviceId=dev1;SharedAccessKey=a2V5".
Proof.
  split.
  - exact (proj1 (createDeviceConnectionString_x509_has_no_separator
                    Demo.x509_device "hub.example.net")
             eq_refl eq_refl (or_intror eq_refl)).
  - refine (proj1 (proj2 (createDeviceConnectionString_x509_has_no_separator
                            Demo.key_device "hub.example.net"))
              "a2V5" eq_refl _).
    discriminate.
Defined.

(** No session on a Linux machine. *)
Lemma no_session_is_an_input_error :
  loadSasFromUserFile (P := Demo.packages) Demo.fresh = (Ret None, Demo.fresh)
  /\ getSas (P := Demo.packages) None Demo.fresh
     = (Exit 1,
        add_console (error_line (P := Demo.packages) "Input Error:" login_first)
          Demo.fresh).
Proof.
  exact (getSas_without_session_is_input_error (P := Demo.packages)
           None Demo.fresh Demo.session_path eq_refl eq_refl eq_refl).
Defined.

(** A token made at 1700000000999 ms expires at 1700003600 s. *)
Lemma one_hour_token_example :
  getSas (P := Demo.packages) (Some Demo.hub_cs) Demo.fresh
  = (Ret (Some "SharedAccessSignature sr=hub.example.net&sig=c2VjcmV0&se=1700003600&skn=owner"),
     Demo.fresh).
Proof.
  refine (getSas_expiry_is_one_hour (P := Demo.packages) Demo.hub_cs
            (mkCn "hub.example.net" "owner" "c2VjcmV0") Demo.fresh _ eq_refl).
  discriminate.
Defined.

End Examples.

(* ===================================================================== *)
(** ** The callbacks refine the transition system *)
(* ===================================================================== *)

Section Transitions.

Context `{P : Packages}.

Import Common Simulate Activity.

(** The call either wraps its argument or throws the TypeError; it never
    hands back the parsed structure. *)
Lemma createMessageFromArgument_outcome
    (messageArg : string) (ack : option string) (w : world) :
  createMessageFromArgument messageArg ack w
  = (Ret (Envelope (mkMessage (Text messageArg) (Some (uuid_v4 (entropy w)))
                      (if truthy ack then ack else None))),
     set_entropy (S (entropy w)) w)
  \/ createMessageFromArgument messageArg ack w
     = (Throw (undefined_member "messageId"), w).
Proof.
  destruct (JSON.parse messageArg) as [v|e] eqn:E.
  - right. unfold createMessageFromArgument, messageId_truthy; step_m.
    rewrite E. reflexivity.
  - left. exact (createMessageFromArgument_plain_text _ _ _ _ E).
Qed.

Lemma effect_of_deliver (sc : script) (st : state) (cb : callback) (w : world)
    (o : outcome state) (w' : world) :
  deliver sc st cb w = (o, w') -> effect sc st w cb o w'.
Proof.
  unfold deliver. destruct (enabled st cb) eqn:En.
  2: { intros E. inversion E; subst. apply eff_dropped. exact En. }
  destruct cb as [err info | err | | err | text | err | err size | err | | err];
    cbn [enabled] in En; cbn [handle].
  - (* registry.get *)
    unfold onRegistryGot, simulateDevice, getHostFromSas. step_m.
    destruct err as [e|].
    + destruct (serviceError_exits (ErrObject e) w) as [msg ->].
      intros E; inversion E; subst. apply eff_error. exact En.
    + destruct (sas sc) as [s|]; step_m;
        [ | intros E; inversion E; subst; apply eff_throw; exact En].
      destruct (SharedAccessSignature_parse_sr s) as [host|e]; step_m;
        [ | intros E; inversion E; subst; apply eff_throw; exact En].
      destruct info as [info|]; step_m;
        [ | intros E; inversion E; subst; apply eff_throw; exact En].
      destruct (truthy (createDeviceConnectionString info host)) eqn:T;
        cbn [negb]; step_m;
        [ | intros E; inversion E; subst; apply eff_throw; exact En].
      destruct (DeviceClient_fromConnectionString _ _); step_m;
        intros E; inversion E; subst.
      * apply (eff_registry sc st w (Some info) _ En T).
      * apply eff_throw; exact En.
  - (* client.open *)
    unfold onOpened. destruct err as [e|]; step_m.
    + match goal with
      | |- context [serviceError ?a w] =>
          destruct (serviceError_exits a w) as [msg ->]
      end.
      intros E; inversion E; subst. apply eff_error. exact En.
    + intros E; inversion E; subst. apply eff_opened. exact En.
  - (* send timer *)
    unfold onSendTick.
    assert (K : forall arg,
               (do message <- createMessageFromArgument arg None;
                do _ <- call_service (SendEvent message);
                ret (set_sends_pending (S (sends_pending st)) st)) w = (o, w') ->
               effect sc st w SendTick o w').
    { intros arg. unfold bind at 1.
      destruct (createMessageFromArgument_outcome arg None w) as [-> | ->].
      - step_m. intros E; inversion E; subst. apply eff_tick. exact En.
      - intros E; inversion E; subst. apply eff_throw. exact En. }
    destruct (send (program sc)); apply K.
  - (* sendEvent *)
    unfold onSent, printSuccess. destruct err as [e|]; step_m.
    + destruct (serviceError_exits (ErrObject e) w) as [msg ->].
      intros E; inversion E; subst. apply eff_error. exact En.
    + intros E.
      assert (o = Ret (acknowledged sc st)
              /\ w' = add_console
                        (success_line ("Message #" +:+ pretty (sendCounter st)
                                       +:+ " sent successfully")) w) as [-> ->].
      { unfold acknowledged. cbn [sendCounter set_sendCounter set_sends_pending] in *.
        destruct (Z.eqb _ _); inversion E; subst; split; reflexivity. }
      apply eff_sent. destruct (sends_pending st); [discriminate | lia].
  - (* message *)
    unfold onMessage, printSuccess. step_m.
    intros E.
    assert (o = Ret (received sc st)
            /\ w' = add_net (Settle (settleMethod sc)) (message_lines text w))
      as [-> ->].
    { unfold received. cbn [receiveCounter set_receiveCounter] in *.
      destruct (Z.eqb _ _); inversion E; subst; split; reflexivity. }
    apply eff_message. exact En.
  - (* settle *)
    unfold onSettled, printSuccess. destruct err as [e|]; step_m.
    + match goal with
      | |- context [serviceError ?a w] =>
          destruct (serviceError_exits a w) as [msg ->]
      end.
      intros E; inversion E; subst. apply eff_error. exact En.
    + intros E; inversion E; subst. apply eff_settled.
      destruct (settles_pending st); [discriminate | lia].
  - (* fs.stat *)
    unfold onStat. destruct err as [e|]; step_m; cbn [is_some]; cbn beta iota.
    + rewrite inputError_exits. intros E; inversion E; subst.
      apply eff_input_error. exact En.
    + destruct size as [sz|]; step_m; intros E; inversion E; subst.
      * apply eff_stat. exact En.
      * apply eff_throw. exact En.
  - (* uploadToBlob *)
    unfold onUploaded, printSuccess. destruct err as [e|]; step_m.
    + rewrite printError_exits. intros E; inversion E; subst.
      apply eff_error. exact En.
    + intros E; inversion E; subst. apply eff_uploaded. exact En.
  - (* completion check *)
    unfold onTaskTick, printSuccess. fold (finished st).
    destruct (finished st) eqn:F; step_m; intros E; inversion E; subst.
    + apply eff_close; assumption.
    + apply eff_wait; assumption.
  - (* client.close *)
    unfold onClosed. destruct err as [e|]; step_m.
    + destruct (serviceError_exits (ErrObject e) w) as [msg ->].
      intros E; inversion E; subst. apply eff_error. exact En.
    + intros E; inversion E; subst. apply eff_closed.
      destruct (closes_pending st); [discriminate | lia].
Qed.

End Transitions.

(* ===================================================================== *)
(** ** Whole runs *)
(* ===================================================================== *)

Section Runs.

Context `{P : Packages}.

Import Common Simulate Activity.

(** How the top level ends: with the registry lookup outstanding and the
    script configured, with an input error, or with an exception; only in
    the first case is a service called. *)
Lemma main_cases (program : program_t) (w : world)
    (o : outcome (script * state)) (w' : world) :
  main program w = (o, w') ->
  (exists sc s,
     o = Ret (sc, awaiting_registry)
     /\ w' = add_net (RegistryGet (JS.str (args program !! 0%nat))) w
     /\ configured program s sc
     /\ getSas (login program) w = (Ret (Some s), w)
     /\ truthy (connectionString program) = false
     /\ truthy (args program !! 0%nat) = true
     /\ send_truthy (send program) || receive program
        || truthy (uploadFile program) = true
     /\ (Protocol sc = Mqtt -> settleMethod sc = "complete")
     /\ Registry_fromSharedAccessSignature s = Ok tt)
  \/ (exists msg,
        o = Exit 1 /\ w' = add_console (error_line "Input Error:" msg) w)
  \/ (exists e, o = Throw e /\ w' = w).
Proof.
  match goal with |- _ -> ?g => set (G := g) end.
  assert (Err : forall msg,
             (@Exit (script * state) 1,
              add_console (error_line "Input Error:" msg) w) = (o, w') -> G).
  { intros msg E. inversion E; subst. right; left. eauto. }
  assert (Thr : forall e, (@Throw (script * state) e, w) = (o, w') -> G).
  { intros e E. inversion E; subst. right; right. eauto. }
  assert (Suc : forall sc s,
             configured program s sc ->
             getSas (login program) w = (Ret (Some s), w) ->
             truthy (connectionString program) = false ->
             truthy (args program !! 0%nat) = true ->
             send_truthy (send program) || receive program
             || truthy (uploadFile program) = true ->
             (Protocol sc = Mqtt -> settleMethod sc = "complete") ->
             Registry_fromSharedAccessSignature s = Ok tt ->
             (Ret (sc, awaiting_registry),
              add_net (RegistryGet (JS.str (args program !! 0%nat))) w) = (o, w') ->
             G).
  { intros sc s C1 C2 C3 C4 C5 C6 C7 E. inversion E; subst. left.
    exists sc, s. tauto. }
  clearbody G.
  unfold main. step_m.
  destruct (getSas_outcome (login program) w) as [(s & H & T) | [(msg & H) | (e & H)]];
    rewrite H; step_m; [ | apply Err | apply Thr ].
  rewrite T.
  destruct (truthy (connectionString program)) eqn:Hcs; cbn [negb andb orb];
    cbn beta iota.
  { rewrite inputError_exits. step_m. apply Err. }
  match goal with
  | |- context [if ?b then inputError _ else _] =>
      destruct b eqn:G1; step_m;
      [rewrite inputError_exits; step_m; apply Err | ]
  end.
  match goal with
  | |- context [if ?b then inputError _ else _] =>
      destruct b eqn:G2; step_m;
      [rewrite inputError_exits; step_m; apply Err | ]
  end.
  apply negb_false_iff in G1.
  assert (G3 : send_truthy (send program) || receive program
               || truthy (uploadFile program) = true).
  { revert G2. destruct (send_truthy _), (receive program), (truthy (uploadFile _));
      simpl; congruence. }
  repeat match goal with
         | |- context [String.eqb ?a ?b] =>
             destruct (String.eqb a b) eqn:?; cbn [negb]; cbn beta iota
         end;
    try (rewrite inputError_exits; step_m; apply Err);
    (destruct (Registry_fromSharedAccessSignature s) as [[]|] eqn:Reg;
     [ | apply Thr ]);
    (refine (Suc _ s _ H eq_refl G1 G3 _ Reg);
     [ | cbn [Protocol settleMethod];
         first [ discriminate
               | intros _;
                 match goal with
                 | H : String.eqb ?a "complete" = true |- _ =>
                     apply String.eqb_eq in H; exact H
                 end ] ]);
    (constructor; cbn [Simulate.program sas settleMethod Protocol sendInterval_ms
                       sendCount_max receiveCount_max uploadFilePath Protocol_name];
     try reflexivity;
     repeat match goal with
            | H : String.eqb _ _ = _ |- _ => rewrite H
            end; cbn [orb]; try reflexivity;
     match goal with
     | H : String.eqb ?a ?b = true |- _ =>
         apply String.eqb_eq in H; rewrite H; reflexivity
     end).
Qed.

(** An invariant of the callbacks holds along a run. *)
Lemma run_invariant (sc : script) (Inv : state -> world -> Prop)
    (Post : outcome state -> world -> Prop) :
  (forall st w, Inv st w -> Post (Ret st) w) ->
  (forall st w cb o w',
     Inv st w -> effect sc st w cb o w' ->
     match o with Ret st' => Inv st' w' | _ => Post o w' end) ->
  forall cbs st w o w',
    Inv st w -> run sc st cbs w = (o, w') -> Post o w'.
Proof.
  intros Use Step. induction cbs as [|cb cbs IH]; intros st w o w' I R.
  - inversion R; subst. apply Use. exact I.
  - cbn [run] in R. unfold bind in R.
    destruct (deliver sc st cb w) as [o1 w1] eqn:D.
    pose proof (Step st w cb o1 w1 I (effect_of_deliver _ _ _ _ _ _ D)) as S.
    destruct o1 as [st1 | code | e].
    + exact (IH st1 w1 o w' S R).
    + inversion R; subst. exact S.
    + inversion R; subst. exact S.
Qed.

(** The same from the command line: the invariant is established when the
    top level returns, and the top level itself ends within [Post]. *)
Lemma exec_invariant (program : program_t) (cbs : list callback) (w : world)
    (Inv : script -> state -> world -> Prop)
    (Post : outcome state -> world -> Prop) :
  (forall msg, Post (Exit 1) (add_console (error_line "Input Error:" msg) w)) ->
  (forall e, Post (Throw e) w) ->
  (forall sc s,
     configured program s sc ->
     Inv sc awaiting_registry
       (add_net (RegistryGet (JS.str (args program !! 0%nat))) w)) ->
  (forall sc st v, Inv sc st v -> Post (Ret st) v) ->
  (forall sc st v cb o v',
     Inv sc st v -> effect sc st v cb o v' ->
     match o with Ret st' => Inv sc st' v' | _ => Post o v' end) ->
  Post (fst (exec program cbs w)) (snd (exec program cbs w)).
Proof.
  intros HE HT H0 Use Step. unfold exec, bind.
  destruct (main program w) as [o1 w1] eqn:Mn.
  destruct (main_cases program w o1 w1 Mn)
    as [(sc & s & -> & -> & C & _) | [(msg & -> & ->) | (e & -> & ->)]];
    cbn [fst snd].
  - destruct (run sc awaiting_registry cbs _) as [o w'] eqn:R. cbn [fst snd].
    exact (run_invariant sc (Inv sc) Post (Use sc) (Step sc) cbs _ _ o w'
             (H0 sc s C) R).
  - apply HE.
  - apply HT.
Qed.

Lemma settled_app (calls : list net_event) (e : net_event) :
  settled (calls ++ [e])%list
  = settled calls + match e with Settle _ => 1 | _ => 0 end.
Proof.
  induction calls as [|c calls IH]; simpl.
  - destruct e; reflexivity.
  - destruct c; rewrite IH; lia.
Qed.

Lemma uploaded_app (calls : list net_event) (e : net_event) :
  uploaded (calls ++ [e])%list
  = uploaded calls + match e with UploadToBlob _ _ => 1 | _ => 0 end.
Proof.
  induction calls as [|c calls IH]; simpl.
  - destruct e; reflexivity.
  - destruct c; rewrite IH; lia.
Qed.

Lemma closed_app (calls : list net_event) (e : net_event) :
  closed (calls ++ [e])%list
  = closed calls + match e with ClientClose => 1 | _ => 0 end.
Proof.
  induction calls as [|c calls IH]; simpl.
  - destruct e; reflexivity.
  - destruct c; rewrite IH; lia.
Qed.

Lemma policies_app (calls : list net_event) (e : net_event) :
  policies (calls ++ [e])%list
  = (policies calls ++ match e with Settle m => [m] | _ => [] end)%list.
Proof.
  induction calls as [|c calls IH]; simpl.
  - destruct e; reflexivity.
  - destruct c; rewrite IH; reflexivity.
Qed.

(** Preservation for the receive activity. *)
Lemma receive_step (n base : Z) (sc : script) (st : state) (w : world)
    (cb : callback) (o : outcome state) (w' : world) :
  receiveCount_max sc = n ->
  1 <= n ->
  receive (program sc) = true ->
  receive_life n base sc st w ->
  effect sc st w cb o w' ->
  match o with
  | Ret st' => receive_life n base sc st' w'
  | _ => settled (net w') <= base + n
  end.
Proof.
  intros Hn Hn1 Hr I E. destruct I as [[Hb Hs] | I].
  - destruct Hb as [-> | [dcs ->]]; inversion E; subst;
      cbn [net add_console add_net set_entropy];
      rewrite ?settled_app;
      first
        [ discriminate
        | exfalso; match goal with H : _ <> _ |- _ => apply H; reflexivity end
        | lia
        | left; split; [left; reflexivity | reflexivity]
        | left; split;
          [ right; eexists; reflexivity
          | cbn [net add_net]; rewrite ?settled_app; lia ]
        | idtac ].
    right. unfold armed, connecting_for. rewrite Hr.
    destruct (send_truthy _), (truthy (uploadFilePath sc));
      constructor; simpl; try (split; reflexivity); try lia;
      try reflexivity; try (split; [intros _; lia | reflexivity]).
  - destruct I as [[Io1 Io2] Ic Il Ir Is].
    inversion E; subst; cbn [net add_console add_net set_entropy message_lines];
      rewrite ?settled_app; try lia; try congruence.
    all: try (unfold acknowledged; destruct (Z.eqb _ _)).
    all: try (right; constructor; simpl;
              cbn [net add_console add_net set_entropy message_lines];
              rewrite ?settled_app;
              solve [split; assumption | assumption | lia]).
    (* a message arrives *)
    right. unfold received. cbn [receiveCounter set_receiveCounter].
    assert (Lt : receiveCounter st < receiveCount_max sc)
      by (apply Il; assumption).
    destruct (Z.eqb_spec (receiveCounter st + 1) (receiveCount_max sc));
      constructor; simpl; rewrite ?settled_app;
      try solve [split; assumption | lia].
    + split; [intros _; lia | intros _; assumption].
    + assumption.
Qed.

Lemma before_open_is_not_open (sc : script) (st : state) :
  before_open sc st -> is_open st -> False.
Proof.
  intros [-> | [dcs ->]] [H1 H2]; discriminate.
Qed.

(** Preservation for the upload. *)
Lemma upload_step (base : Z) (sc : script) (st : state) (w : world)
    (cb : callback) (o : outcome state) (w' : world) :
  upload_life base sc st w
  /\ (truthy (uploadFilePath sc) = false ->
      stat_pending st = false /\ uploaded (net w) = base) ->
  effect sc st w cb o w' ->
  match o with
  | Ret st' =>
      upload_life base sc st' w'
      /\ (truthy (uploadFilePath sc) = false ->
          stat_pending st' = false /\ uploaded (net w') = base)
  | _ =>
      base <= uploaded (net w') <= base + 1
      /\ (truthy (uploadFilePath sc) = false -> uploaded (net w') = base)
  end.
Proof.
  intros [I N] E. destruct I as [[Hb Hs] | I].
  - destruct Hb as [-> | [dcs ->]]; inversion E; subst;
      cbn [net add_console add_net set_entropy];
      rewrite ?uploaded_app;
      first
        [ discriminate
        | exfalso; match goal with H : _ <> _ |- _ => apply H; reflexivity end
        | split; [lia | reflexivity]
        | split; [left; split; [left; reflexivity | reflexivity] | exact N]
        | split;
          [ left; split;
            [ right; eexists; reflexivity
            | cbn [net add_net]; rewrite ?uploaded_app; lia ]
          | intros _; split;
            [ reflexivity | cbn [net add_net]; rewrite ?uploaded_app; lia ] ]
        | idtac ].
    unfold armed, connecting_for.
    destruct (truthy (uploadFilePath sc)) eqn:U.
    + split; [ | discriminate]. right.
      destruct (send_truthy _), (receive (program sc));
        constructor; simpl; try (split; reflexivity); try lia;
        try reflexivity; try discriminate.
    + split; [ | intros _; split; [ | reflexivity]].
      * right.
        destruct (send_truthy _), (receive (program sc));
          constructor; simpl; try (split; reflexivity); try lia;
          try reflexivity; try discriminate.
      * destruct (send_truthy _), (receive (program sc)); reflexivity.
  - destruct I as [Is Io Ip [Io1 Io2]].
    inversion E; subst; cbn [net add_console add_net set_entropy message_lines];
      rewrite ?uploaded_app; try congruence.
    all: try (split; [lia | intros U; apply N in U; tauto]).
    all: try (unfold acknowledged; destruct (Z.eqb _ _)).
    all: try (unfold received; destruct (Z.eqb _ _)).
    all: try (split;
              [ right; constructor; simpl;
                cbn [net add_console add_net set_entropy message_lines];
                rewrite ?uploaded_app;
                solve [split; assumption | assumption | lia | discriminate
                      | intros Hx; first [specialize (Is Hx) | specialize (Ip Hx)];
                        lia ]
              | simpl; cbn [net add_console add_net set_entropy message_lines];
                rewrite ?uploaded_app; intros U; destruct (N U);
                split; [assumption | lia] ]).
    (* fs.stat has answered *)
    match goal with H : stat_pending st = true |- _ => specialize (Is H) end.
    split.
    + right. constructor; simpl; rewrite ?uploaded_app;
        solve [split; assumption | discriminate | lia | intros; lia].
    + intros U. destruct (N U) as [N1 _]. congruence.
Qed.

(** Preservation for the closing. *)
Lemma close_step (base : Z) (sc : script) (st : state) (w : world)
    (cb : callback) (o : outcome state) (w' : world) :
  close_life base sc st w ->
  effect sc st w cb o w' ->
  match o with
  | Ret st' => close_life base sc st' w'
  | Exit code => code = 1 \/ (code = 0 /\ base < closed (net w'))
  | Throw _ => True
  end.
Proof.
  intros I E. destruct I as [[Hb Hs] | [[Io1 Io2] I]].
  - destruct Hb as [-> | [dcs ->]]; inversion E; subst;
      cbn [net add_console add_net set_entropy];
      rewrite ?closed_app;
      first
        [ discriminate
        | exfalso; match goal with H : _ <> _ |- _ => apply H; reflexivity end
        | exact I
        | left; reflexivity
        | left; split; [left; reflexivity | reflexivity]
        | left; split;
          [ right; eexists; reflexivity
          | cbn [net add_net]; rewrite ?closed_app; lia ]
        | idtac ].
    right. unfold armed, connecting_for.
    destruct (send_truthy _), (receive (program sc)), (truthy (uploadFilePath sc));
      (split; [split; reflexivity | ]);
      constructor; simpl; try lia;
      intros Hx; exfalso; apply Hx; reflexivity.
  - destruct I as [If Ic Im].
    inversion E; subst; cbn [net add_console add_net set_entropy message_lines];
      rewrite ?closed_app; try congruence; try exact Logic.I;
      try (left; reflexivity).
    all: try (right; split; [reflexivity | apply Ic; assumption]).
    all: try (unfold acknowledged; destruct (Z.eqb _ _)).
    all: try (unfold received; destruct (Z.eqb _ _)).
    all: right; (split; [split; assumption | ]);
      constructor; simpl; cbn [net add_console add_net set_entropy message_lines];
      rewrite ?closed_app; try lia;
      try (intros Hx; specialize (Ic Hx); lia);
      try (intros Hx; specialize (If Hx); revert If; unfold finished; simpl;
           destruct (sendRunning st), (receiveRunning st), (uploadRunning st);
           simpl; congruence).
    all: try (intros _; assumption).
Qed.

End Runs.

(* ===================================================================== *)
(** ** Receiving, uploading and closing *)
(* ===================================================================== *)

Section Activities.

Context `{P : Packages}.

Import Common Simulate Activity.

(** X1.  With [--receive] and a receive count [n] of at least 1, whatever
    the callbacks and their order: no run settles more than [n] messages;
    once the connection is open every message counted has been settled
    exactly once, the listener is removed exactly when the [n]-th message
    has arrived, and [receiveRunning] is cleared with it. *)
Theorem receive_count_is_honoured
    (program : program_t) (cbs : list callback) (w : world) (n : Z) :
  receive program = true ->
  receiveCount program = Some n ->
  1 <= n ->
  let r := exec program cbs w in
  settled (net (snd r)) <= settled (net w) + n
  /\ forall st, fst r = Ret st -> is_open st ->
       settled (net (snd r)) = settled (net w) + receiveCounter st
       /\ (listening st = false <-> receiveCounter st = n)
       /\ receiveRunning st = listening st.
Proof.
  intros Hr Hc Hn r. subst r.
  apply (exec_invariant program cbs w
           (fun sc st v =>
              receiveCount_max sc = n /\ receive (Simulate.program sc) = true
              /\ receive_life n (settled (net w)) sc st v)
           (fun o v =>
              settled (net v) <= settled (net w) + n
              /\ forall st, o = Ret st -> is_open st ->
                   settled (net v) = settled (net w) + receiveCounter st
                   /\ (listening st = false <-> receiveCounter st = n)
                   /\ receiveRunning st = listening st)).
  - intros msg. split; [simpl; lia | discriminate].
  - intros e. split; [lia | discriminate].
  - intros sc s C. destruct C. repeat split.
    + rewrite cfg_receiveCount0, Hc. simpl.
      destruct (Z.eqb_spec n 0); [lia | reflexivity].
    + rewrite cfg_program0. exact Hr.
    + left. split; [left; reflexivity |].
      cbn [net add_net]. rewrite settled_app. cbn beta iota. lia.
  - intros sc st v (_ & _ & [[Hb Hs] | I]).
    + split; [lia|]. intros st' E O. inversion E; subst.
      destruct (before_open_is_not_open _ _ Hb O).
    + destruct I as [_ Ic Il Ir Is]. split; [lia|].
      intros st' E _. inversion E; subst. repeat split; try assumption.
      * intros L. destruct (Z.eq_dec (receiveCounter st') n); [assumption|].
        assert (listening st' = true) by (apply Il; lia). congruence.
      * intros Eq. destruct (listening st') eqn:L; [|reflexivity].
        assert (receiveCounter st' < n) by (apply Il; reflexivity). lia.
  - intros sc st v cb o v' (Hmax & Hrc & I) E.
    pose proof (receive_step n (settled (net w)) sc st v cb o v' Hmax Hn Hrc I E) as S.
    destruct o as [st' | code | e].
    + repeat split; assumption.
    + split; [exact S | discriminate].
    + split; [exact S | discriminate].
Qed.

(** X2.  Every settle call of a run names the policy chosen with
    [--settle], or [complete] when the option is not given. *)
Theorem settle_calls_use_the_chosen_policy
    (program : program_t) (cbs : list callback) (w : world) :
  let policy := if truthy (settle program)
                then JS.str (settle program) else "complete" in
  exists k : nat,
    policies (net (snd (exec program cbs w)))
    = (policies (net w) ++ repeat policy k)%list.
Proof.
  intros policy.
  apply (exec_invariant program cbs w
           (fun sc st v =>
              settleMethod sc = policy
              /\ exists k : nat,
                   policies (net v) = (policies (net w) ++ repeat policy k)%list)
           (fun o v =>
              exists k : nat,
                policies (net v) = (policies (net w) ++ repeat policy k)%list)).
  - intros msg. exists 0%nat. simpl. now rewrite app_nil_r.
  - intros e. exists 0%nat. simpl. now rewrite app_nil_r.
  - intros sc s C. split; [apply (cfg_settle _ _ _ C)|].
    exists 0%nat. cbn [net add_net]. rewrite policies_app. reflexivity.
  - intros sc st v [_ H]. exact H.
  - intros sc st v cb o v' [Hm [k Hk]] E.
    inversion E; subst; cbn [net add_console add_net set_entropy message_lines];
      rewrite ?policies_app, ?app_nil_r; eauto.
    split; [exact Hm|]. exists (S k). rewrite Hk, <- app_assoc.
    f_equal. cbn [repeat]. rewrite Hm. symmetry. apply repeat_cons.
Qed.

(** X3.  Whatever the callbacks, a run uploads one file at most, and none
    when [--upload-file] is not given. *)
Theorem at_most_one_upload
    (program : program_t) (cbs : list callback) (w : world) :
  let r := exec program cbs w in
  uploaded (net w) <= uploaded (net (snd r)) <= uploaded (net w) + 1
  /\ (truthy (uploadFile program) = false ->
      uploaded (net (snd r)) = uploaded (net w)).
Proof.
  intros r. subst r.
  apply (exec_invariant program cbs w
           (fun sc st v =>
              uploadFilePath sc = uploadFile program
              /\ upload_life (uploaded (net w)) sc st v
              /\ (truthy (uploadFilePath sc) = false ->
                  stat_pending st = false /\ uploaded (net v) = uploaded (net w)))
           (fun o v =>
              uploaded (net w) <= uploaded (net v) <= uploaded (net w) + 1
              /\ (truthy (uploadFile program) = false ->
                  uploaded (net v) = uploaded (net w)))).
  - intros msg. simpl. split; [lia | reflexivity].
  - intros e. split; [lia | reflexivity].
  - intros sc s C. split; [apply (cfg_upload _ _ _ C)|].
    split.
    + left. split; [left; reflexivity | ].
      cbn [net add_net]. rewrite uploaded_app. cbn beta iota. lia.
    + intros _. split; [reflexivity | ].
      cbn [net add_net]. rewrite uploaded_app. cbn beta iota. lia.
  - intros sc st v (Hu & I & N). rewrite <- Hu. split.
    + destruct I as [[_ Hs] | I]; [lia | apply (uinv_once _ _ _ I)].
    + intros U. apply N. exact U.
  - intros sc st v cb o v' (Hu & I & N) E.
    pose proof (upload_step (uploaded (net w)) sc st v cb o v' (conj I N) E) as S.
    destruct o as [st' | code | e].
    + split; [exact Hu | exact S].
    + rewrite <- Hu. exact S.
    + rewrite <- Hu. exact S.
Qed.

(** X4.  A run exits with code 1 or with code 0, and with code 0 only
    after [client.close] has been called; while a close is outstanding no
    activity is running any more. *)
Theorem exit_code_zero_only_after_close
    (program : program_t) (cbs : list callback) (w : world) :
  let r := exec program cbs w in
  (forall code, fst r = Exit code ->
     code = 1 \/ (code = 0 /\ closed (net w) < closed (net (snd r))))
  /\ (forall st, fst r = Ret st -> closes_pending st <> 0%nat ->
        finished st = true /\ closed (net w) < closed (net (snd r))).
Proof.
  intros r. subst r.
  apply (exec_invariant program cbs w
           (fun sc st v => close_life (closed (net w)) sc st v)
           (fun o v =>
              (forall code, o = Exit code ->
                 code = 1 \/ (code = 0 /\ closed (net w) < closed (net v)))
              /\ (forall st, o = Ret st -> closes_pending st <> 0%nat ->
                    finished st = true /\ closed (net w) < closed (net v)))).
  - intros msg. split; [intros code E; inversion E; auto | discriminate].
  - intros e. split; discriminate.
  - intros sc s C. left. split; [left; reflexivity|].
    cbn beta. cbn [net add_net]. rewrite closed_app. cbn beta iota. lia.
  - intros sc st v I. split; [discriminate|].
    intros st' E Hc. inversion E; subst.
    destruct I as [[[-> | [dcs ->]] _] | [_ I]];
      try (exfalso; apply Hc; reflexivity).
    split; [apply (cinv_finished _ _ _ I Hc) | apply (cinv_called _ _ _ I Hc)].
  - intros sc st v cb o v' I E.
    pose proof (close_step (closed (net w)) sc st v cb o v' I E) as S.
    destruct o as [st' | code | e].
    + exact S.
    + split; [intros c Ec; inversion Ec; subst; exact S | discriminate].
    + split; discriminate.
Qed.

(** X5.  Once nothing runs any more, every tick of the completion check
    that comes before the callback of [client.close] calls
    [client.close] again. *)
Theorem close_is_called_on_every_tick
    (sc : script) (k : nat) (st : state) (w : world) :
  taskItv st = true ->
  finished st = true ->
  exists st' w',
    run sc st (repeat TaskTick k) w = (Ret st', w')
    /\ closed (net w') = closed (net w) + Z.of_nat k
    /\ closes_pending st' = (closes_pending st + k)%nat.
Proof.
  revert st w. induction k as [|k IH]; intros st w Ht Hf.
  - exists st, w. cbn [repeat run]. unfold ret.
    repeat split; [lia | lia].
  - assert (D : deliver sc st TaskTick w
                = (Ret (set_closes_pending (S (closes_pending st)) st),
                   add_net ClientClose
                     (add_console (success_line "Device simulation finished.") w))).
    { unfold deliver, enabled. rewrite Ht. cbn [handle].
      unfold onTaskTick, printSuccess. fold (finished st). rewrite Hf.
      reflexivity. }
    destruct (IH (set_closes_pending (S (closes_pending st)) st)
                (add_net ClientClose
                   (add_console (success_line "Device simulation finished.") w))
                Ht Hf) as (st' & w' & R & C1 & C2).
    exists st', w'. cbn [repeat run]. unfold bind. rewrite D.
    split; [exact R|]. split.
    + rewrite C1. cbn [net add_net add_console]. rewrite closed_app. lia.
    + rewrite C2. simpl. lia.
Qed.

End Activities.

(* ===================================================================== *)
(** ** Further properties of common.js and of logout *)
(* ===================================================================== *)

Section CommonMore.

Context `{P : Packages}.

Import Common.

Lemma substring_all (s : string) : String.substring 0 (String.length s) s = s.
Proof. induction s as [|c s IH]; simpl; [reflexivity | now rewrite IH]. Qed.

(** X6.  Text that is not JSON is wrapped: the body is the raw argument,
    the identifier is the next value of [uuid.v4()], the ack field is set
    only for a truthy ack mode, and nothing but the generator changes. *)
Theorem plain_text_is_wrapped
    (messageArg : string) (ackMode : option string) (w : world) (e : JS.error) :
  JSON.parse messageArg = Raise e ->
  exists msg,
    createMessageFromArgument messageArg ackMode w
    = (Ret (Envelope msg), set_entropy (S (entropy w)) w)
    /\ data msg = Text messageArg
    /\ messageId msg = Some (uuid_v4 (entropy w))
    /\ (truthy ackMode = true -> ack msg = ackMode)
    /\ (truthy ackMode = false -> ack msg = None).
Proof.
  intros H. eexists. split.
  - exact (createMessageFromArgument_plain_text _ ackMode w e H).
  - cbn [data messageId ack]. repeat split.
    + intros ->. reflexivity.
    + intros ->. reflexivity.
Qed.

Lemma append_cons (c : ascii) (s t : string) :
  String c s +:+ t = String c (s +:+ t).
Proof. reflexivity. Qed.

Lemma append_nil (t : string) : EmptyString +:+ t = t.
Proof. reflexivity. Qed.

(** The text of an error starts with [Error:] only when its name is
    [Error] or itself starts with [Error:]. *)
Lemma Error_prefix_of_named (name rest : string) :
  name <> EmptyString -> name <> "Error" ->
  String.prefix "Error:" name = false ->
  String.prefix "Error:" (name +:+ ": " +:+ rest) = false.
Proof.
  intros Hne Hn Hp.
  destruct name as [|c1 [|c2 [|c3 [|c4 [|c5 [|c6 r]]]]]];
    [contradiction | ..];
    revert Hp; rewrite ?append_cons, ?append_nil; cbn [String.prefix];
    repeat match goal with
           | |- context [ascii_dec ?a ?b] => destruct (ascii_dec a b); subst
           end;
    try reflexivity; try discriminate; try (intros _; exfalso; apply Hn; reflexivity);
    try (destruct r; discriminate).
Qed.

(** X7.  [serviceError] prints the text of the error once under the
    [Error:] prefix and exits with code 1.  The text is what
    [err.toString()] gives, less a leading [Error:]: for an error named
    [Error] with a message the name is dropped and the message is printed
    after a space; without a message it prints as [Error]; for an error
    of any class whose name is not [Error] and does not begin with
    [Error:], such as [DeviceNotFoundError], the name is kept, followed
    by the message when there is one. *)
Theorem serviceError_strips_the_Error_prefix (e : JS.error) (w : world) :
  let name := class_name (eclass e) in
  (name = "Error" -> emessage e <> EmptyString ->
   serviceError (ErrObject e) w
   = (Exit 1, add_console (error_line "Error:" (" " +:+ emessage e)) w))
  /\ (name = "Error" -> emessage e = EmptyString ->
      serviceError (ErrObject e) w
      = (Exit 1, add_console (error_line "Error:" "Error") w))
  /\ (name <> EmptyString -> name <> "Error" ->
      String.prefix "Error:" name = false ->
      serviceError (ErrObject e) w
      = (Exit 1,
         add_console
           (error_line "Error:"
              (if String.eqb (emessage e) EmptyString then name
               else name +:+ ": " +:+ emessage e)) w)).
Proof.
  intros name. unfold serviceError. rewrite printError_exits.
  cbn [truthy err_toString]. unfold JS.toString. fold name.
  split; [ | split].
  - intros Hn Hm. rewrite Hn.
    destruct (String.eqb_spec (emessage e) EmptyString); [contradiction|].
    change (String.eqb "Error" EmptyString) with false. cbn beta iota.
    change ("Error" +:+ ": " +:+ emessage e)
      with (String "E" (String "r" (String "r" (String "o" (String "r"
             (String ":" (" " +:+ emessage e))))))).
    cbn [String.prefix String.length String.substring Nat.sub].
    repeat match goal with
           | |- context [ascii_dec ?a ?b] =>
               destruct (ascii_dec a b); [ | congruence]
           end.
    change (String.length (" " +:+ emessage e))
      with (S (String.length (emessage e))).
    rewrite Nat.sub_0_r.
    replace (S (String.length (emessage e)))
      with (String.length (" " +:+ emessage e)) by reflexivity.
    rewrite substring_all. reflexivity.
  - intros Hn Hm. rewrite Hn, Hm. reflexivity.
  - intros Hne Hn Hp.
    destruct (String.eqb_spec name EmptyString); [contradiction|].
    destruct (String.eqb (emessage e) EmptyString).
    + rewrite Hp. reflexivity.
    + rewrite (Error_prefix_of_named name (emessage e) Hne Hn Hp). reflexivity.
Qed.

(** X8.  Without a connection string, the cached session file is the
    token: its content is returned as it is, and an empty file counts as
    no session. *)
Theorem getSas_returns_the_cached_token
    (connectionString : option string) (w : world) (path content : string) :
  truthy connectionString = false ->
  session_file w = Some path ->
  fs w !! path = Some (File content) ->
  getSas connectionString w
  = if truthy (Some content) then (Ret (Some content), w)
    else (Exit 1, add_console (error_line "Input Error:" login_first) w).
Proof.
  intros Hcs Hs Hf. unfold getSas. rewrite Hcs. unfold bind.
  rewrite (loadSasFromUserFile_present _ _ _ Hs Hf). step_m.
  destruct (truthy (Some content)); cbn [negb]; cbn beta iota.
  - reflexivity.
  - rewrite inputError_exits. reflexivity.
Qed.

(** X9.  A failure to read the session file other than its absence
    leaves [getSas] as the exception it is; nothing is printed. *)
Theorem getSas_propagates_read_failures
    (connectionString : option string) (w : world) (path : string) (e : JS.error) :
  truthy connectionString = false ->
  session_file w = Some path ->
  fs w !! path = Some (Faulty e) ->
  code_is e "ENOENT" = false ->
  getSas connectionString w = (Throw e, w).
Proof.
  intros Hcs Hs Hf He. unfold getSas. rewrite Hcs. unfold bind.
  rewrite (loadSasFromUserFile_faulty _ _ _ Hs Hf He). reflexivity.
Qed.

(** X10.  With a connection string the session file plays no part: the
    outcome is the same whatever the file system holds, and the file
    system is left as it is. *)
Theorem getSas_with_connection_string_ignores_the_session
    (connectionString : option string) (w : world) (files : gmap string fnode) :
  truthy connectionString = true ->
  getSas connectionString (set_fs files w)
  = (fst (getSas connectionString w), set_fs files (snd (getSas connectionString w))).
Proof.
  intros Hcs. unfold getSas. rewrite Hcs. step_m.
  destruct (ConnectionString_parse (JS.str connectionString)) as [cn | e]; step_m.
  - cbn [now set_fs].
    match goal with
    | |- context [truthy (Some ?t)] => destruct (truthy (Some t))
    end; cbn [negb]; cbn beta iota.
    + reflexivity.
    + rewrite !inputError_exits. reflexivity.
  - destruct (instanceof e ArgumentError); step_m.
    + rewrite !inputError_exits. reflexivity.
    + reflexivity.
Qed.

(** X11.  A connection string that the parser rejects with an
    ArgumentError is an input error that quotes the string; any other
    exception of the parser propagates. *)
Theorem getSas_on_a_rejected_connection_string
    (connectionString : string) (e : JS.error) (w : world) :
  connectionString <> EmptyString ->
  ConnectionString_parse connectionString = Raise e ->
  getSas (Some connectionString) w
  = if instanceof e ArgumentError
    then (Exit 1,
          add_console
            (error_line "Input Error:"
               ("Could not parse connection string: " +:+ connectionString)) w)
    else (Throw e, w).
Proof.
  intros Hne Hp.
  assert (T : truthy (Some connectionString) = true).
  { simpl. destruct (String.eqb_spec connectionString EmptyString);
      [contradiction | reflexivity]. }
  unfold getSas. rewrite T. step_m. cbn [JS.str]. rewrite Hp. step_m.
  destruct (instanceof e ArgumentError); step_m.
  - rewrite inputError_exits. reflexivity.
  - reflexivity.
Qed.

(** X12.  [getSas] calls no service and changes neither the file system
    nor the uuid generator; it prints one line, and only when it ends the
    process. *)
Theorem getSas_changes_nothing_unless_it_exits
    (connectionString : option string) (w : world) :
  let r := getSas connectionString w in
  fs (snd r) = fs w /\ net (snd r) = net w /\ entropy (snd r) = entropy w
  /\ ((exists code, fst r = Exit code) \/ snd r = w)
  /\ (forall code, fst r = Exit code ->
        code = 1 /\ exists line, console (snd r) = (console w ++ [line])%list).
Proof.
  intros r. subst r.
  destruct (getSas_outcome connectionString w)
    as [(s & -> & _) | [(msg & ->) | (e & ->)]]; cbn [fst snd];
    (split; [reflexivity|]); (split; [reflexivity|]); (split; [reflexivity|]).
  - split; [right; reflexivity | intros c E; discriminate].
  - split; [left; eauto |].
    intros c E. inversion E. split; [reflexivity|]. eexists. reflexivity.
  - split; [right; reflexivity | intros c E; discriminate].
Qed.

(** X25.  The session file is [$HOME/Library/Application
    Support/iothub-explorer/config] on darwin, [$HOME/.iothub-explorer]
    on linux and [$LOCALAPPDATA/iothub-explorer/config] on win32, and
    there is none elsewhere; a variable that is not set is spelled
    [undefined] in the path. *)
Theorem the_session_file_of_each_platform (w : world) :
  (platform w = "darwin" ->
   session_file w
   = Some (JS.str (HOME w) +:+ "/Library/Application Support/iothub-explorer/config"))
  /\ (platform w = "linux" ->
      session_file w = Some (JS.str (HOME w) +:+ "/.iothub-explorer"))
  /\ (platform w = "win32" ->
      session_file w = Some (JS.str (LOCALAPPDATA w) +:+ "/iothub-explorer/config"))
  /\ (platform w <> "darwin" -> platform w <> "linux" -> platform w <> "win32" ->
      session_file w = None)
  /\ (platform w = "linux" -> HOME w = None ->
      session_file w = Some "undefined/.iothub-explorer").
Proof.
  unfold session_file, configLoc. repeat split.
  - intros ->. cbn. rewrite string_app_assoc. reflexivity.
  - intros ->. reflexivity.
  - intros ->. cbn. rewrite string_app_assoc. reflexivity.
  - intros H1 H2 H3.
    destruct (String.eqb_spec (platform w) "darwin"); [contradiction|].
    destruct (String.eqb_spec (platform w) "linux"); [contradiction|].
    destruct (String.eqb_spec (platform w) "win32"); [contradiction|].
    unfold bind. rewrite inputError_exits. reflexivity.
  - intros -> ->. reflexivity.
Qed.

End CommonMore.

Section LogoutMore.

Context `{P : Packages}.

Import Common.

(** X13.  On a platform without a session location, logout ends as an
    input error about [login] and touches nothing. *)
Theorem logout_on_an_unsupported_platform (w : world) :
  session_file w = None ->
  Logout.logout w
  = (Exit 1,
     add_console
       (error_line "Input Error:" "'login' not supported on this platform") w).
Proof.
  intros Hs. destruct (configLoc_cases w) as [(loc & _ & Hs') | (_ & Hc)].
  - congruence.
  - unfold Logout.logout, bind. rewrite Hc. reflexivity.
Qed.

(** How logout ends, in full. *)
Lemma logout_cases (w : world) :
  (exists path content,
     session_file w = Some path /\ fs w !! path = Some (File content)
     /\ Logout.logout w
        = (Ret tt,
           add_console (success_line "Session successfully terminated.")
             (set_fs (delete path (fs w)) w)))
  \/ (exists line, Logout.logout w = (Exit 1, add_console line w))
  \/ (exists e, Logout.logout w = (Throw e, w)).
Proof.
  destruct (configLoc_cases w) as [(loc & Hc & Hs) | (Hs & Hc)].
  - unfold Logout.logout, unlinkSync, printSuccess; step_m. rewrite Hc; step_m.
    destruct (fs w !! (dir loc +:+ "/" +:+ file loc)) as [[c | e] |] eqn:Hf.
    + left. eexists _, c. repeat split; eauto.
    + step_m. destruct (code_is e "ENOENT").
      * right; left. rewrite printError_exits. eauto.
      * right; right. eauto.
    + step_m. cbn [code_is ENOENT ecode String.eqb Ascii.eqb Bool.eqb].
      right; left. rewrite printError_exits. eauto.
  - right; left. unfold Logout.logout, bind. rewrite Hc. eauto.
Qed.

(** X14.  Logout calls no service and leaves every file other than the
    session file as it is. *)
Theorem logout_touches_only_the_session_file (w : world) (path : string) :
  session_file w <> Some path ->
  let w' := snd (Logout.logout w) in
  fs w' !! path = fs w !! path /\ net w' = net w.
Proof.
  intros Hp w'. subst w'.
  destruct (logout_cases w)
    as [(p & c & Hs & _ & ->) | [(line & ->) | (e & ->)]]; cbn [snd];
    split; try reflexivity.
  cbn [fs add_console set_fs]. apply lookup_delete_ne. congruence.
Qed.

(** X15.  After a logout that found the session file, the session is
    gone: a second logout finds no session, and [getSas] without a
    connection string asks for a login. *)
Theorem logout_ends_the_session (w : world) (path content : string) :
  session_file w = Some path ->
  fs w !! path = Some (File content) ->
  exists w1,
    Logout.logout w = (Ret tt, w1)
    /\ fs w1 !! path = None
    /\ Logout.logout w1
       = (Exit 1,
          add_console (error_line "Error:" "No session information found.") w1)
    /\ getSas None w1
       = (Exit 1, add_console (error_line "Input Error:" login_first) w1).
Proof.
  intros Hs Hf.
  destruct (session_file_configLoc _ _ Hs) as (loc & Hc & ->).
  eexists. split.
  { unfold Logout.logout, unlinkSync, printSuccess; step_m. rewrite Hc; step_m.
    rewrite Hf. reflexivity. }
  set (w1 := add_console _ _).
  assert (Hf1 : fs w1 !! (dir loc +:+ "/" +:+ file loc) = None).
  { subst w1. cbn [fs add_console set_fs]. apply lookup_delete_eq. }
  assert (Hc1 : configLoc w1 = (Ret (Some loc), w1)).
  { revert Hc. unfold configLoc. subst w1. cbn [platform HOME LOCALAPPDATA add_console set_fs].
    destruct (String.eqb (platform w) "darwin");
      [intros E; inversion E; reflexivity|].
    destruct (String.eqb (platform w) "linux");
      [intros E; inversion E; reflexivity|].
    destruct (String.eqb (platform w) "win32");
      [intros E; inversion E; reflexivity|].
    unfold bind. rewrite inputError_exits. discriminate. }
  assert (Hs1 : session_file w1 = Some (dir loc +:+ "/" +:+ file loc)).
  { unfold session_file. rewrite Hc1. reflexivity. }
  split; [exact Hf1|]. split.
  - unfold Logout.logout, unlinkSync, printSuccess; step_m. rewrite Hc1; step_m.
    rewrite Hf1. step_m. cbn [code_is ENOENT ecode String.eqb Ascii.eqb Bool.eqb].
    rewrite printError_exits. reflexivity.
  - unfold getSas. cbn [truthy]. unfold bind.
    rewrite (loadSasFromUserFile_missing _ _ Hs1 Hf1). step_m.
    cbn [truthy negb]. rewrite inputError_exits. reflexivity.
Qed.

End LogoutMore.

(* ===================================================================== *)
(** ** The top level and the first callbacks of the simulation *)
(* ===================================================================== *)

Section TopLevel.

Context `{P : Packages}.

Import Common Simulate Activity.

(** X16.  The top level goes on to the registry only when [getSas] gave a
    token, no device connection string is given, a device id is given,
    an activity is requested and MQTT is not combined with a settle
    policy other than complete; it has then called the registry once,
    for that device id, and nothing else. *)
Theorem simulation_starts_only_from_a_complete_command_line
    (program : program_t) (w : world) (sc : script) (st : state) (w' : world) :
  main program w = (Ret (sc, st), w') ->
  (exists s, getSas (login program) w = (Ret (Some s), w) /\ sas sc = Some s)
  /\ truthy (connectionString program) = false
  /\ truthy (args program !! 0%nat) = true
  /\ send_truthy (send program) || receive program
     || truthy (uploadFile program) = true
  /\ (Protocol sc = Mqtt -> settleMethod sc = "complete")
  /\ st = awaiting_registry
  /\ w' = add_net (RegistryGet (JS.str (args program !! 0%nat))) w.
Proof.
  intros H.
  destruct (main_cases program w _ _ H)
    as [(sc' & s & E & -> & C & Hg & Hcs & Ha & Hact & Hm & _)
       | [(msg & E & _) | (e & E & _)]];
    try discriminate.
  inversion E; subst. repeat split; try assumption.
  exists s. split; [exact Hg | apply (cfg_sas _ _ _ C)].
Qed.

(** X17.  Conversely, with a token, a device id, an activity, no device
    connection string and no MQTT conflict, the top level calls the
    registry for that device and returns with the script configured from
    the options, provided the registry client accepts the token. *)
Theorem simulation_starts_from_a_complete_command_line
    (program : program_t) (w : world) (s : string) :
  getSas (login program) w = (Ret (Some s), w) ->
  truthy (connectionString program) = false ->
  truthy (args program !! 0%nat) = true ->
  send_truthy (send program) || receive program
  || truthy (uploadFile program) = true ->
  ((if truthy (protocol program) then JS.str (protocol program) else "amqp") = "mqtt" ->
   (if truthy (settle program) then JS.str (settle program) else "complete")
   = "complete") ->
  Registry_fromSharedAccessSignature s = Ok tt ->
  exists sc,
    main program w
    = (Ret (sc, awaiting_registry),
       add_net (RegistryGet (JS.str (args program !! 0%nat))) w)
    /\ configured program s sc.
Proof.
  intros Hg Hcs Ha Hact Hm Hreg.
  assert (Returns : forall o w', main program w = (o, w') -> exists r, o = Ret r).
  { intros o w'. unfold main. step_m. rewrite Hg. step_m.
    rewrite (getSas_returns_truthy _ _ _ _ Hg), Hcs, Ha.
    cbn [negb andb orb]. cbn beta iota.
    replace (negb (send_truthy (send program)) && negb (receive program)
             && negb (truthy (uploadFile program))) with false
      by (revert Hact; destruct (send_truthy _), (receive program),
            (truthy (uploadFile _)); simpl; congruence).
    cbn beta iota.
    destruct (String.eqb_spec
                (if truthy (protocol program) then JS.str (protocol program) else "amqp")
                "amqp-ws"); cbn beta iota.
    { rewrite Hreg. intros E; inversion E; eauto. }
    destruct (String.eqb_spec
                (if truthy (protocol program) then JS.str (protocol program) else "amqp")
                "http"); cbn beta iota.
    { rewrite Hreg. intros E; inversion E; eauto. }
    destruct (String.eqb_spec
                (if truthy (protocol program) then JS.str (protocol program) else "amqp")
                "mqtt") as [Eq | Ne]; cbn beta iota.
    - rewrite (Hm Eq). cbn [String.eqb Ascii.eqb Bool.eqb negb]. cbn beta iota.
      rewrite Hreg. intros E; inversion E; eauto.
    - rewrite Hreg. intros E; inversion E; eauto. }
  destruct (main program w) as [o w'] eqn:Mn.
  destruct (Returns o w' eq_refl) as [r ->].
  destruct (main_cases program w _ w' Mn)
    as [(sc & s' & E & -> & C & Hg' & _)
       | [(msg & E & _) | (e & E & _)]]; try discriminate.
  inversion E; subst. exists sc. split; [reflexivity|].
  assert (s' = s) by congruence. subst s'. exact C.
Qed.

(** X18.  An option that is absent, zero or not a number falls back on
    its default: an unlimited count for sends and for receives, one
    second between sends, the policy [complete] and the protocol AMQP;
    any other count is taken as it is, a negative one included. *)
Theorem absent_or_zero_options_take_their_defaults
    (program : program_t) (w : world) (sc : script) (st : state) (w' : world) :
  main program w = (Ret (sc, st), w') ->
  (sendCount program = None \/ sendCount program = Some 0 ->
   sendCount_max sc = MAX_SAFE_INTEGER)
  /\ (receiveCount program = None \/ receiveCount program = Some 0 ->
      receiveCount_max sc = MAX_SAFE_INTEGER)
  /\ (sendInterval program = None \/ sendInterval program = Some 0 ->
      sendInterval_ms sc = 1000)
  /\ (forall n, n <> 0 -> sendCount program = Some n -> sendCount_max sc = n)
  /\ (forall n, n <> 0 -> receiveCount program = Some n -> receiveCount_max sc = n)
  /\ (forall n, n <> 0 -> sendInterval program = Some n -> sendInterval_ms sc = n)
  /\ (settle program = None -> settleMethod sc = "complete")
  /\ (protocol program = None -> Protocol sc = Amqp).
Proof.
  intros H.
  destruct (main_cases program w _ _ H)
    as [(sc' & s & E & _ & C & _) | [(msg & E & _) | (e & E & _)]];
    try discriminate.
  inversion E; subst sc'. destruct C.
  assert (NZ : forall n, n <> 0 -> truthy_num (Some n) = true).
  { intros n Hn. simpl. destruct (Z.eqb_spec n 0); [contradiction | reflexivity]. }
  repeat split.
  - intros [Hx | Hx]; rewrite cfg_sendCount0, Hx; reflexivity.
  - intros [Hx | Hx]; rewrite cfg_receiveCount0, Hx; reflexivity.
  - intros [Hx | Hx]; rewrite cfg_sendInterval0, Hx; reflexivity.
  - intros n Hn Hc. rewrite cfg_sendCount0, Hc, (NZ n Hn). reflexivity.
  - intros n Hn Hc. rewrite cfg_receiveCount0, Hc, (NZ n Hn). reflexivity.
  - intros n Hn Hc. rewrite cfg_sendInterval0, Hc, (NZ n Hn). reflexivity.
  - intros Hs. rewrite cfg_settle0, Hs. reflexivity.
  - intros Hp. rewrite Hp in cfg_protocol0. cbn in cfg_protocol0.
    destruct (Protocol sc); [discriminate .. | reflexivity].
Qed.

(** X19.  A command line without a device id, or without any of
    [--send], [--receive] and [--upload-file], never gets past the top
    level: no callback runs and no service is called. *)
Theorem incomplete_command_lines_never_reach_the_network
    (program : program_t) (cbs : list callback) (w : world) :
  truthy (args program !! 0%nat) = false
  \/ send_truthy (send program) || receive program
     || truthy (uploadFile program) = false ->
  (exists msg,
     exec program cbs w = (Exit 1, add_console (error_line "Input Error:" msg) w))
  \/ (exists e, exec program cbs w = (Throw e, w)).
Proof.
  intros Hyp. unfold exec, bind.
  destruct (main program w) as [o w'] eqn:Mn.
  destruct (main_cases program w o w' Mn)
    as [(sc & s & _ & _ & _ & _ & _ & Ha & Hact & _)
       | [(msg & -> & ->) | (e & -> & ->)]].
  - destruct Hyp; congruence.
  - left. eauto.
  - right. eauto.
Qed.

Lemma lower_idempotent (c : ascii) : lower (lower c) = lower c.
Proof. destruct c as [[] [] [] [] [] [] [] []]; reflexivity. Qed.

Lemma toLowerCase_idempotent (s : string) :
  toLowerCase (toLowerCase s) = toLowerCase s.
Proof.
  induction s as [|c s IH]; simpl; [reflexivity|].
  now rewrite lower_idempotent, IH.
Qed.

(** X20.  [verifyProtocol] does not look at the case of its argument:
    it accepts the four protocol names in any case and returns the name
    in lower case, leaving the world as it is; anything else is an input
    error. *)
Theorem verifyProtocol_ignores_case (arg : string) (w : world) :
  verifyProtocol arg w = verifyProtocol (toLowerCase arg) w
  /\ (In (toLowerCase arg) ["amqp"; "amqp-ws"; "http"; "mqtt"] ->
      verifyProtocol arg w = (Ret (Some (toLowerCase arg)), w))
  /\ (~ In (toLowerCase arg) ["amqp"; "amqp-ws"; "http"; "mqtt"] ->
      verifyProtocol arg w
      = (Exit 1, add_console (error_line "Input Error:" settle_message) w)).
Proof.
  split; [ | split].
  - unfold verifyProtocol. rewrite toLowerCase_idempotent. reflexivity.
  - intros Hin. unfold verifyProtocol.
    destruct Hin as [<- | [<- | [<- | [<- | []]]]]; reflexivity.
  - intros Hnot. unfold verifyProtocol.
    destruct (String.eqb_spec (toLowerCase arg) "amqp") as [E|_];
      [exfalso; apply Hnot; rewrite E; simpl; tauto|].
    destruct (String.eqb_spec (toLowerCase arg) "amqp-ws") as [E|_];
      [exfalso; apply Hnot; rewrite E; simpl; tauto|].
    destruct (String.eqb_spec (toLowerCase arg) "http") as [E|_];
      [exfalso; apply Hnot; rewrite E; simpl; tauto|].
    destruct (String.eqb_spec (toLowerCase arg) "mqtt") as [E|_];
      [exfalso; apply Hnot; rewrite E; simpl; tauto|].
    cbn [negb andb]. unfold bind. rewrite inputError_exits. reflexivity.
Qed.

(** X21.  The protocol that [verifyProtocol] returns is the protocol the
    top level selects: the default branch of its switch is reached only
    for [amqp]. *)
Theorem the_verified_protocol_is_selected
    (arg p : string) (w0 w0' : world)
    (program : program_t) (w : world) (sc : script) (st : state) (w' : world) :
  verifyProtocol arg w0 = (Ret (Some p), w0') ->
  protocol program = Some p ->
  main program w = (Ret (sc, st), w') ->
  Protocol_name (Protocol sc) = p.
Proof.
  intros Hv Hp H.
  assert (Hin : In p ["amqp"; "amqp-ws"; "http"; "mqtt"]).
  { revert Hv. unfold verifyProtocol.
    destruct (String.eqb_spec (toLowerCase arg) "amqp") as [E|_].
    { intros Hv. inversion Hv. subst. rewrite E. simpl; tauto. }
    destruct (String.eqb_spec (toLowerCase arg) "amqp-ws") as [E|_].
    { intros Hv. inversion Hv. subst. rewrite E. simpl; tauto. }
    destruct (String.eqb_spec (toLowerCase arg) "http") as [E|_].
    { intros Hv. inversion Hv. subst. rewrite E. simpl; tauto. }
    destruct (String.eqb_spec (toLowerCase arg) "mqtt") as [E|_].
    { intros Hv. inversion Hv. subst. rewrite E. simpl; tauto. }
    cbn [negb andb]. unfold bind. rewrite inputError_exits. discriminate. }
  destruct (main_cases program w _ _ H)
    as [(sc' & s & E & _ & C & _) | [(msg & E & _) | (e & E & _)]];
    try discriminate.
  inversion E; subst sc'. rewrite (cfg_protocol _ _ _ C), Hp.
  destruct Hin as [<- | [<- | [<- | [<- | []]]]]; reflexivity.
Qed.

End TopLevel.

Section FirstCallbacks.

Context `{P : Packages}.

Import Common Simulate Activity.

Lemma connection_string_is_truthy (info : deviceInfo_t) (host cs : string) :
  createDeviceConnectionString info host = Some cs -> truthy (Some cs) = true.
Proof.
  unfold createDeviceConnectionString.
  destruct (truthy (primaryKey _)); [intros E; inversion E; reflexivity|].
  destruct (truthy (secondaryKey _)); [intros E; inversion E; reflexivity|].
  destruct (_ || _); [intros E; inversion E; reflexivity | discriminate].
Qed.

(** X22.  When the registry answers with a device that has neither a key
    nor a thumbprint, the callback throws the error of [simulateDevice]:
    no connection is opened and nothing is printed. *)
Theorem a_device_without_credentials_is_an_exception
    (sc : script) (st : state) (info : deviceInfo_t) (s host : string) (w : world) :
  sas sc = Some s ->
  SharedAccessSignature_parse_sr s = Ok host ->
  truthy (primaryKey (SymmetricKey (authentication info))) = false ->
  truthy (secondaryKey (SymmetricKey (authentication info))) = false ->
  truthy (primaryThumbprint (x509Thumbprint (authentication info))) = false ->
  truthy (secondaryThumbprint (x509Thumbprint (authentication info))) = false ->
  handle sc st (RegistryGot None (Some info)) w
  = (Throw (mkError PlainError None "Couldn't figure out device connection string"),
     w).
Proof.
  intros Hs Hh H1 H2 H3 H4. cbn [handle].
  unfold onRegistryGot, simulateDevice, getHostFromSas. step_m.
  rewrite Hs; step_m. rewrite Hh; step_m.
  unfold createDeviceConnectionString. rewrite H1, H2, H3, H4. reflexivity.
Qed.

(** X23.  When the registry answers with a device that has credentials,
    the client is opened with the connection string synthesized for the
    host named in the token and with the selected protocol; the script
    then waits for the connection with the requested activities marked
    as running. *)
Theorem the_client_is_opened_with_the_synthesized_string
    (sc : script) (st : state) (info : deviceInfo_t) (s host cs : string)
    (w : world) :
  sas sc = Some s ->
  SharedAccessSignature_parse_sr s = Ok host ->
  createDeviceConnectionString info host = Some cs ->
  DeviceClient_fromConnectionString cs (Protocol_name (Protocol sc)) = Ok tt ->
  handle sc st (RegistryGot None (Some info)) w
  = (Ret (connecting (Some cs) (send_truthy (send (program sc)))
            (receive (program sc)) (truthy (uploadFile (program sc)))),
     add_net (ClientOpen cs (Protocol_name (Protocol sc))) w).
Proof.
  intros Hs Hh Hc Hd. cbn [handle].
  unfold onRegistryGot, simulateDevice, getHostFromSas. step_m.
  rewrite Hs; step_m. rewrite Hh; step_m. rewrite Hc.
  rewrite (connection_string_is_truthy _ _ _ Hc). cbn [negb JS.str]. step_m.
  rewrite Hd. reflexivity.
Qed.

(** X24.  The default message is numbered with the count of acknowledged
    sends: two ticks of the send timer with no acknowledgement in between
    send the same text, under two identifiers. *)
Theorem two_unacknowledged_ticks_send_the_same_text
    (sc : script) (st : state) (w : world) :
  send (program sc) = SendFlag ->
  sendItv st = true ->
  let text := Text ("Simulated message: #" +:+ pretty (sendCounter st)) in
  exists st' w',
    run sc st [SendTick; SendTick] w = (Ret st', w')
    /\ net w'
       = (net w
          ++ [SendEvent (Envelope (mkMessage text (Some (uuid_v4 (entropy w))) None));
              SendEvent (Envelope (mkMessage text (Some (uuid_v4 (S (entropy w)))) None))])%list
    /\ sends_pending st' = S (S (sends_pending st))
    /\ sendCounter st' = sendCounter st.
Proof.
  intros Hs Hi text.
  assert (Tick : forall st0 w0,
             sendItv st0 = true ->
             deliver sc st0 SendTick w0
             = (Ret (set_sends_pending (S (sends_pending st0)) st0),
                add_net
                  (SendEvent
                     (Envelope
                        (mkMessage
                           (Text ("Simulated message: #" +:+ pretty (sendCounter st0)))
                           (Some (uuid_v4 (entropy w0))) None)))
                  (set_entropy (S (entropy w0)) w0))).
  { intros st0 w0 H0. unfold deliver, enabled. rewrite H0. cbn [handle].
    unfold onSendTick. rewrite Hs. unfold bind at 1.
    rewrite (createMessageFromArgument_plain_text _ None w0 JSON.syntax_error)
      by apply default_message_is_not_JSON.
    reflexivity. }
  eexists _, _. cbn [run]. unfold bind. rewrite (Tick st w Hi).
  rewrite Tick by exact Hi. unfold ret. split; [reflexivity|].
  cbn [net add_net set_entropy entropy sendCounter set_sends_pending sends_pending].
  rewrite <- app_assoc. repeat split.
Qed.

End FirstCallbacks.

(* ===================================================================== *)
(** ** The send count *)
(* ===================================================================== *)

Section SendCount.

Context `{P : Packages}.

Import Common Simulate Activity.

Lemma run_app (sc : script) (a b : list callback) (st : state) (w : world) :
  run sc st (a ++ b)%list w
  = match run sc st a w with
    | (Ret st', w') => run sc st' b w'
    | (Exit code, w') => (Exit code, w')
    | (Throw e, w') => (Throw e, w')
    end.
Proof.
  revert st w. induction a as [|cb a IH]; intros st w.
  - reflexivity.
  - cbn [app run]. unfold bind.
    destruct (deliver sc st cb w) as [[st1 | code | e] w1]; [apply IH | reflexivity ..].
Qed.

(** A run that has returned goes on from the state and the world it
    returned, under the script the top level configured. *)
Lemma exec_app (program : program_t) (cbs : list callback) (w : world)
    (st : state) (w1 : world) :
  exec program cbs w = (Ret st, w1) ->
  exists sc s,
    configured program s sc
    /\ forall more, exec program (cbs ++ more)%list w = run sc st more w1.
Proof.
  unfold exec, bind. destruct (main program w) as [o0 w0] eqn:Mn.
  destruct (main_cases program w o0 w0 Mn)
    as [(sc & s & -> & -> & C & _) | [(msg & -> & ->) | (e & -> & ->)]];
    try discriminate.
  cbn [fst snd]. intros R. exists sc, s. split; [exact C|].
  intros more. rewrite run_app, R. reflexivity.
Qed.

(** Once the connection is open the completion check stays armed. *)
Lemma completion_check_is_armed (program : program_t) (cbs : list callback)
    (w : world) (st : state) (w1 : world) :
  exec program cbs w = (Ret st, w1) -> is_open st -> taskItv st = true.
Proof.
  intros E. 
  pose proof (exec_invariant program cbs w
           (fun sc st v => before_open sc st \/ (is_open st /\ taskItv st = true))
           (fun o v => forall st, o = Ret st -> is_open st -> taskItv st = true)) as H.
  rewrite E in H. cbn [fst snd] in H. apply H; clear H; try discriminate.
  - intros sc s _. left. left. reflexivity.
  - intros sc st0 v [Hb | [_ Ht]] st1 E1 Ho; inversion E1; subst.
    + destruct (before_open_is_not_open _ _ Hb Ho).
    + exact Ht.
  - intros sc st0 v cb o v' I Ef.
    destruct I as [Hb | [[Io1 Io2] Ht]].
    + destruct Hb as [-> | [dcs ->]]; inversion Ef; subst;
        first
          [ discriminate
          | exfalso; match goal with H : _ <> _ |- _ => apply H; reflexivity end
          | left; left; reflexivity
          | left; right; eexists; reflexivity
          | idtac ].
      right. unfold armed, connecting_for.
      destruct (send_truthy _), (receive (Simulate.program sc)),
        (truthy (uploadFilePath sc)); repeat split.
    + inversion Ef; subst; try discriminate; try congruence.
      all: try (unfold acknowledged; destruct (Z.eqb _ _)).
      all: try (unfold received; destruct (Z.eqb _ _)).
      all: right; repeat split; assumption.
  - reflexivity.
Qed.

(** The send ticks and their acknowledgements close nothing. *)
Lemma ticks_close_nothing (sc : script) (k : nat) :
  forall (st : state) (w : world) (o : outcome state) (w' : world),
    run sc st (ticks k) w = (o, w') -> closed (net w') = closed (net w).
Proof.
  assert (Step : forall cb st w o w',
             cb = SendTick \/ cb = Sent None ->
             deliver sc st cb w = (o, w') -> closed (net w') = closed (net w)).
  { intros cb st w o w' Hcb D. apply effect_of_deliver in D.
    destruct Hcb as [-> | ->]; inversion D; subst;
      cbn [net add_console add_net set_entropy]; rewrite ?closed_app;
      try reflexivity; lia. }
  induction k as [|k IH]; intros st w o w' R.
  - inversion R; subst. reflexivity.
  - cbn [ticks run] in R. unfold bind in R.
    destruct (deliver sc st SendTick w) as [o1 w1] eqn:D1.
    pose proof (Step _ _ _ _ _ (or_introl eq_refl) D1) as C1.
    destruct o1 as [st1 | code | e]; [ | inversion R; subst; exact C1 ..].
    destruct (deliver sc st1 (Sent None) w1) as [o2 w2] eqn:D2.
    pose proof (Step _ _ _ _ _ (or_intror eq_refl) D2) as C2.
    destruct o2 as [st2 | code | e]; [ | inversion R; subst; congruence ..].
    rewrite (IH _ _ _ _ R). congruence.
Qed.

(** C5 (amended).  With a send count [n] of at least 1, a message that is
    the default one or text that is not JSON, sends that all succeed and a
    send timer that never fires while the previous send is
    unacknowledged: no run sends more than [n] messages, and once the
    connection is open the messages sent are the acknowledged ones plus
    the outstanding one, the timer is stopped exactly when [n] sends are
    acknowledged and [sendRunning] is cleared with it.  From any point of
    such a run at which no send is outstanding, the ticks that remain,
    each followed by its acknowledgement, send the messages that remain:
    exactly [n] have been sent and acknowledged when the timer stops and
    sending is marked complete, and these callbacks close nothing and
    leave [receiveRunning] and [uploadRunning] as they were.  The
    completion check does nothing while receiving or uploading is still
    running, and calls [client.close] once they are complete as well. *)
Theorem send_count_is_honoured
    (program : program_t) (cbs : list callback) (w : world) (n : Z) :
  sendCount program = Some n ->
  1 <= n ->
  plain_text (send program) = true ->
  one_at_a_time false cbs = true ->
  sends_succeed cbs = true ->
  let r := exec program cbs w in
  sent (net (snd r)) <= sent (net w) + n
  /\ forall st, fst r = Ret st -> is_open st ->
       sent (net (snd r))
       = sent (net w) + sendCounter st + Z.of_nat (sends_pending st)
       /\ (sendItv st = false <-> sendCounter st = n)
       /\ sendRunning st = sendItv st
       /\ (sendItv st = false -> sent (net (snd r)) = sent (net w) + n)
       /\ (sends_pending st = 0%nat ->
           exists st' w',
             exec program (cbs ++ ticks (Z.to_nat (n - sendCounter st)))%list w
             = (Ret st', w')
             /\ sent (net w') = sent (net w) + n
             /\ sendCounter st' = n
             /\ sendItv st' = false
             /\ sendRunning st' = false
             /\ receiveRunning st' = receiveRunning st
             /\ uploadRunning st' = uploadRunning st
             /\ closed (net w') = closed (net (snd r)))
       /\ (receiveRunning st = true \/ uploadRunning st = true ->
           exec program (cbs ++ [TaskTick])%list w = (Ret st, snd r))
       /\ (sendItv st = false ->
           receiveRunning st = false -> uploadRunning st = false ->
           exec program (cbs ++ [TaskTick])%list w
           = (Ret (set_closes_pending (S (closes_pending st)) st),
              add_net ClientClose
                (add_console (success_line "Device simulation finished.")
                   (snd r)))).
Proof.
  intros Hc Hn Hp H1 H2 r.
  destruct (exec_send_post program cbs w n Hc Hn Hp H1 H2) as [B K].
  fold r in B, K. split; [exact B|].
  intros st E [Hr Ho]. destruct (K st E Hr Ho) as [pending I].
  destruct (send_inv_bound _ _ _ _ _ I) as [_ Stop].
  pose proof (inv_timer _ _ _ _ _ I) as Ht.
  pose proof (inv_counter _ _ _ _ _ I) as Hcnt.
  pose proof (inv_running _ _ _ _ _ I) as Hrun.
  assert (Er : exec program cbs w = (Ret st, snd r)).
  { subst r. destruct (exec program cbs w) as [o v]. cbn [fst snd] in *.
    congruence. }
  destruct (exec_app program cbs w st (snd r) Er) as (sc & s & C & App).
  assert (Hmax : sendCount_max sc = n).
  { rewrite (cfg_sendCount _ _ _ C), Hc. simpl.
    destruct (Z.eqb_spec n 0); [lia | reflexivity]. }
  assert (Hp' : plain_text (send (Simulate.program sc)) = true).
  { rewrite (cfg_program _ _ _ C). exact Hp. }
  split; [apply (inv_sent _ _ _ _ _ I)|].
  split.
  { split; [intros Itv; apply Stop; exact Itv|].
    intros Eq. destruct (sendItv st) eqn:Itv; [|reflexivity].
    assert (sendCounter st < n) by (apply Ht; reflexivity). lia. }
  split; [exact Hrun|].
  split; [intros Itv; apply Stop; exact Itv|].
  split; [|split].
  - (* the remaining ticks *)
    intros Z0.
    destruct (run_ticks n (sent (net w)) sc Hmax Hp'
                (Z.to_nat (n - sendCounter st)) pending st (snd r) I Z0
                ltac:(lia))
      as (st' & w' & R & F1 & F2 & F3 & F4 & F5 & F6).
    exists st', w'. rewrite App, R.
    repeat split; try assumption.
    apply (ticks_close_nothing sc _ _ _ _ _ R).
  - (* the completion check waits for the other activities *)
    intros Run. rewrite App. cbn [run]. unfold bind, deliver, enabled.
    destruct (taskItv st); [|reflexivity].
    cbn [handle]. unfold onTaskTick.
    destruct Run as [-> | ->]; cbn [negb andb];
      rewrite ?andb_false_r; reflexivity.
  - (* and closes once nothing runs *)
    intros Itv Hrr Hur. rewrite App. cbn [run]. unfold bind, deliver, enabled.
    rewrite (completion_check_is_armed program cbs w st (snd r) Er (conj Hr Ho)).
    cbn [handle]. unfold onTaskTick, printSuccess.
    rewrite Hrun, Itv, Hrr, Hur. reflexivity.
Qed.

End SendCount.

(* ===================================================================== *)
(** ** More concrete runs *)
(* ===================================================================== *)

Section MoreExamples.

Import Common Simulate Activity.

(** Three messages arrive for a receive count of 2. *)
Lemma two_of_three_messages_are_settled :
  let r := exec (P := Demo.packages) (DemoMore.receive_n 2)
             [Demo.found; Opened None; MessageEvent "a"; MessageEvent "b";
              MessageEvent "c"] Demo.fresh in
  settled (net (snd r)) <= settled (net Demo.fresh) + 2
  /\ forall st, fst r = Ret st -> is_open st ->
       settled (net (snd r)) = settled (net Demo.fresh) + receiveCounter st
       /\ (listening st = false <-> receiveCounter st = 2)
       /\ receiveRunning st = listening st.
Proof.
  apply (receive_count_is_honoured (P := Demo.packages) (DemoMore.receive_n 2)
           [Demo.found; Opened None; MessageEvent "a"; MessageEvent "b";
            MessageEvent "c"] Demo.fresh 2).
  - reflexivity.
  - reflexivity.
  - lia.
Defined.

Example the_third_message_is_not_settled :
  let r := exec (P := Demo.packages) (DemoMore.receive_n 2)
             [Demo.found; Opened None; MessageEvent "a"; MessageEvent "b";
              MessageEvent "c"] Demo.fresh in
  policies (net (snd r)) = ["complete"; "complete"]
  /\ exists st, fst r = Ret st /\ listening st = false /\ receiveRunning st = false.
Proof. vm_compute. split; [reflexivity | eexists; repeat split]. Qed.

(** A run that only sends uploads nothing. *)
Lemma a_run_without_upload_file_uploads_nothing :
  uploaded (net (snd (exec (P := Demo.packages) (Demo.send_n 3)
                        (Demo.found :: Opened None :: ticks 3) Demo.fresh)))
  = uploaded (net Demo.fresh).
Proof.
  exact (proj2 (at_most_one_upload (P := Demo.packages) (Demo.send_n 3)
                  (Demo.found :: Opened None :: ticks 3) Demo.fresh) eq_refl).
Defined.

(** An upload that succeeds, then the completion check and the close. *)
Lemma a_finished_upload_exits_with_code_zero :
  0 = 1
  \/ (0 = 0
      /\ closed (net Demo.fresh)
         < closed (net (snd (exec (P := Demo.packages) Demo.upload
                               [Demo.found; Opened None; Stat None (Some 10);
                                Uploaded None; TaskTick; Closed None] Demo.fresh)))).
Proof.
  exact (proj1 (exit_code_zero_only_after_close (P := Demo.packages) Demo.upload
                  [Demo.found; Opened None; Stat None (Some 10);
                   Uploaded None; TaskTick; Closed None] Demo.fresh) 0 eq_refl).
Defined.

(** Three ticks of the completion check before the close is answered. *)
Lemma three_ticks_close_three_times :
  exists st' w',
    run (P := Demo.packages)
      (DemoMore.script_of Demo.upload Amqp MAX_SAFE_INTEGER MAX_SAFE_INTEGER)
      DemoMore.drained (repeat TaskTick 3) Demo.fresh = (Ret st', w')
    /\ closed (net w') = closed (net Demo.fresh) + Z.of_nat 3
    /\ closes_pending st' = (closes_pending DemoMore.drained + 3)%nat.
Proof.
  exact (close_is_called_on_every_tick (P := Demo.packages)
           (DemoMore.script_of Demo.upload Amqp MAX_SAFE_INTEGER MAX_SAFE_INTEGER)
           3 DemoMore.drained Demo.fresh eq_refl eq_refl).
Defined.

Lemma hello_becomes_an_envelope :
  exists msg,
    createMessageFromArgument (P := Demo.packages) "hello" (Some "full") Demo.fresh
    = (Ret (Envelope msg), set_entropy (S (entropy Demo.fresh)) Demo.fresh)
    /\ data msg = Text "hello"
    /\ messageId msg = Some (uuid_v4 (Packages := Demo.packages) (entropy Demo.fresh))
    /\ (truthy (Some "full") = true -> ack msg = Some "full")
    /\ (truthy (Some "full") = false -> ack msg = None).
Proof.
  exact (plain_text_is_wrapped (P := Demo.packages) "hello" (Some "full")
           Demo.fresh JSON.syntax_error eq_refl).
Defined.

(** [Error: boom] is printed without its class name,
    [DeviceNotFoundError: Not found] with it. *)
Lemma boom_is_printed_without_its_class :
  serviceError (P := Demo.packages) (ErrObject Demo.boom) Demo.fresh
  = (Exit 1,
     add_console (error_line (P := Demo.packages) "Error:" " boom") Demo.fresh)
  /\ serviceError (P := Demo.packages) (ErrObject DemoMore.not_found) Demo.fresh
     = (Exit 1,
        add_console
          (error_line (P := Demo.packages) "Error:" "DeviceNotFoundError: Not found")
          Demo.fresh).
Proof.
  split.
  - refine (proj1 (serviceError_strips_the_Error_prefix (P := Demo.packages)
                     Demo.boom Demo.fresh) eq_refl _).
    discriminate.
  - refine (proj2 (proj2 (serviceError_strips_the_Error_prefix (P := Demo.packages)
                            DemoMore.not_found Demo.fresh)) _ _ eq_refl);
      discriminate.
Defined.

Lemma the_cached_token_is_returned :
  getSas (P := Demo.packages) None Demo.logged_in
  = (Ret (Some "SharedAccessSignature sr=hub.example.net&sig=s&se=1&skn=owner"),
     Demo.logged_in).
Proof.
  exact (getSas_returns_the_cached_token (P := Demo.packages) None Demo.logged_in
           Demo.session_path
           "SharedAccessSignature sr=hub.example.net&sig=s&se=1&skn=owner"
           eq_refl eq_refl eq_refl).
Defined.

Lemma a_locked_session_file_is_an_exception :
  getSas (P := Demo.packages) None Demo.locked
  = (Throw (mkError PlainError (Some "EACCES") "EACCES: permission denied"),
     Demo.locked).
Proof.
  exact (getSas_propagates_read_failures (P := Demo.packages) None Demo.locked
           Demo.session_path
           (mkError PlainError (Some "EACCES") "EACCES: permission denied")
           eq_refl eq_refl eq_refl eq_refl).
Defined.

Lemma a_locked_session_file_is_not_read_with_login :
  getSas (P := Demo.packages) (Some Demo.hub_cs) (set_fs (fs Demo.locked) Demo.fresh)
  = (fst (getSas (P := Demo.packages) (Some Demo.hub_cs) Demo.fresh),
     set_fs (fs Demo.locked)
       (snd (getSas (P := Demo.packages) (Some Demo.hub_cs) Demo.fresh))).
Proof.
  exact (getSas_with_connection_string_ignores_the_session (P := Demo.packages)
           (Some Demo.hub_cs) Demo.fresh (fs Demo.locked) eq_refl).
Defined.

Lemma garbage_is_an_input_error :
  getSas (P := Demo.packages) (Some "garbage") Demo.fresh
  = (Exit 1,
     add_console
       (error_line (P := Demo.packages) "Input Error:"
          "Could not parse connection string: garbage") Demo.fresh).
Proof.
  refine (getSas_on_a_rejected_connection_string (P := Demo.packages) "garbage"
            (mkError ArgumentError None "Malformed connection string")
            Demo.fresh _ eq_refl).
  discriminate.
Defined.

Lemma the_login_request_is_one_line :
  1 = 1
  /\ exists line,
       console (snd (getSas (P := Demo.packages) None Demo.fresh))
       = (console Demo.fresh ++ [line])%list.
Proof.
  exact (proj2 (proj2 (proj2 (proj2
           (getSas_changes_nothing_unless_it_exits (P := Demo.packages)
              None Demo.fresh)))) 1 eq_refl).
Defined.

Lemma logout_on_freebsd :
  Logout.logout (P := Demo.packages) DemoMore.bsd
  = (Exit 1,
     add_console
       (error_line (P := Demo.packages) "Input Error:"
          "'login' not supported on this platform") DemoMore.bsd).
Proof.
  exact (logout_on_an_unsupported_platform (P := Demo.packages) DemoMore.bsd eq_refl).
Defined.

Lemma logout_leaves_other_paths :
  let w' := snd (Logout.logout (P := Demo.packages) Demo.logged_in) in
  fs w' !! "/etc/hosts" = fs Demo.logged_in !! "/etc/hosts"
  /\ net w' = net Demo.logged_in.
Proof.
  refine (logout_touches_only_the_session_file (P := Demo.packages)
            Demo.logged_in "/etc/hosts" _).
  intros H. vm_compute in H. discriminate H.
Defined.

Lemma logout_then_logout_again :
  exists w1,
    Logout.logout (P := Demo.packages) Demo.logged_in = (Ret tt, w1)
    /\ fs w1 !! Demo.session_path = None
    /\ Logout.logout (P := Demo.packages) w1
       = (Exit 1,
          add_console
            (error_line (P := Demo.packages) "Error:" "No session information found.")
            w1)
    /\ getSas (P := Demo.packages) None w1
       = (Exit 1,
          add_console (error_line (P := Demo.packages) "Input Error:" login_first) w1).
Proof.
  exact (logout_ends_the_session (P := Demo.packages) Demo.logged_in
           Demo.session_path
           "SharedAccessSignature sr=hub.example.net&sig=s&se=1&skn=owner"
           eq_refl eq_refl).
Defined.

Lemma three_sends_start_at_the_registry :
  (exists s,
     getSas (P := Demo.packages) (login (Demo.send_n 3)) Demo.fresh
     = (Ret (Some s), Demo.fresh)
     /\ sas (DemoMore.script_of (Demo.send_n 3) Amqp 3 MAX_SAFE_INTEGER) = Some s)
  /\ truthy (connectionString (Demo.send_n 3)) = false
  /\ truthy (args (Demo.send_n 3) !! 0%nat) = true
  /\ send_truthy (send (Demo.send_n 3)) || receive (Demo.send_n 3)
     || truthy (uploadFile (Demo.send_n 3)) = true
  /\ (Protocol (DemoMore.script_of (Demo.send_n 3) Amqp 3 MAX_SAFE_INTEGER) = Mqtt ->
      settleMethod (DemoMore.script_of (Demo.send_n 3) Amqp 3 MAX_SAFE_INTEGER)
      = "complete")
  /\ awaiting_registry = awaiting_registry
  /\ add_net (RegistryGet "dev1") Demo.fresh
     = add_net (RegistryGet (JS.str (args (Demo.send_n 3) !! 0%nat))) Demo.fresh.
Proof.
  exact (simulation_starts_only_from_a_complete_command_line (P := Demo.packages)
           (Demo.send_n 3) Demo.fresh
           (DemoMore.script_of (Demo.send_n 3) Amqp 3 MAX_SAFE_INTEGER)
           awaiting_registry (add_net (RegistryGet "dev1") Demo.fresh) eq_refl).
Defined.

Lemma three_sends_are_a_complete_command_line :
  exists sc,
    main (P := Demo.packages) (Demo.send_n 3) Demo.fresh
    = (Ret (sc, awaiting_registry),
       add_net (RegistryGet (JS.str (args (Demo.send_n 3) !! 0%nat))) Demo.fresh)
    /\ configured (Demo.send_n 3) DemoMore.token sc.
Proof.
  refine (simulation_starts_from_a_complete_command_line (P := Demo.packages)
            (Demo.send_n 3) Demo.fresh DemoMore.token
            eq_refl eq_refl eq_refl eq_refl _ eq_refl).
  discriminate.
Defined.

Lemma a_send_count_of_zero_is_unlimited :
  sendCount_max (DemoMore.script_of (Demo.send_n 0) Amqp MAX_SAFE_INTEGER
                   MAX_SAFE_INTEGER)
  = MAX_SAFE_INTEGER.
Proof.
  exact (proj1 (absent_or_zero_options_take_their_defaults (P := Demo.packages)
                  (Demo.send_n 0) Demo.fresh
                  (DemoMore.script_of (Demo.send_n 0) Amqp MAX_SAFE_INTEGER
                     MAX_SAFE_INTEGER)
                  awaiting_registry (add_net (RegistryGet "dev1") Demo.fresh) eq_refl)
           (or_intror eq_refl)).
Defined.

Lemma without_a_device_id_nothing_starts :
  (exists msg,
     exec (P := Demo.packages) DemoMore.no_device_id [Demo.found; Opened None]
       Demo.fresh
     = (Exit 1,
        add_console (error_line (P := Demo.packages) "Input Error:" msg) Demo.fresh))
  \/ (exists e,
        exec (P := Demo.packages) DemoMore.no_device_id [Demo.found; Opened None]
          Demo.fresh
        = (Throw e, Demo.fresh)).
Proof.
  exact (incomplete_command_lines_never_reach_the_network (P := Demo.packages)
           DemoMore.no_device_id [Demo.found; Opened None] Demo.fresh
           (or_introl eq_refl)).
Defined.

Lemma upper_case_MQTT_is_accepted :
  verifyProtocol (P := Demo.packages) "MQTT" Demo.fresh
  = (Ret (Some "mqtt"), Demo.fresh).
Proof.
  exact (proj1 (proj2 (verifyProtocol_ignores_case (P := Demo.packages) "MQTT"
                         Demo.fresh))
           (or_intror (or_intror (or_intror (or_introl eq_refl))))).
Defined.

Lemma upper_case_MQTT_selects_mqtt :
  Protocol_name
    (Protocol (DemoMore.script_of DemoMore.mqtt_receive Mqtt MAX_SAFE_INTEGER
                 MAX_SAFE_INTEGER))
  = "mqtt".
Proof.
  exact (the_verified_protocol_is_selected (P := Demo.packages) "MQTT" "mqtt"
           Demo.fresh Demo.fresh DemoMore.mqtt_receive Demo.fresh
           (DemoMore.script_of DemoMore.mqtt_receive Mqtt MAX_SAFE_INTEGER
              MAX_SAFE_INTEGER)
           awaiting_registry (add_net (RegistryGet "dev1") Demo.fresh)
           eq_refl eq_refl eq_refl).
Defined.

Lemma a_bare_device_is_an_exception :
  handle (P := Demo.packages)
    (DemoMore.script_of (Demo.send_n 3) Amqp 3 MAX_SAFE_INTEGER)
    awaiting_registry (RegistryGot None (Some Demo.bare_device)) Demo.fresh
  = (Throw (mkError PlainError None "Couldn't figure out device connection string"),
     Demo.fresh).
Proof.
  exact (a_device_without_credentials_is_an_exception (P := Demo.packages)
           (DemoMore.script_of (Demo.send_n 3) Amqp 3 MAX_SAFE_INTEGER)
           awaiting_registry Demo.bare_device DemoMore.token "hub.example.net"
           Demo.fresh eq_refl eq_refl eq_refl eq_refl eq_refl eq_refl).
Defined.

Lemma an_x509_device_is_opened_with_the_glued_string :
  handle (P := Demo.packages)
    (DemoMore.script_of (Demo.send_n 3) Amqp 3 MAX_SAFE_INTEGER)
    awaiting_registry (RegistryGot None (Some Demo.x509_device)) Demo.fresh
  = (Ret (connecting (Some "HostName=hub.example.net;DeviceId=dev1x509=true")
            true false false),
     add_net (ClientOpen "HostName=hub.example.net;DeviceId=dev1x509=true" "amqp")
       Demo.fresh).
Proof.
  exact (the_client_is_opened_with_the_synthesized_string (P := Demo.packages)
           (DemoMore.script_of (Demo.send_n 3) Amqp 3 MAX_SAFE_INTEGER)
           awaiting_registry Demo.x509_device DemoMore.token "hub.example.net"
           "HostName=hub.example.net;DeviceId=dev1x509=true"
           Demo.fresh eq_refl eq_refl eq_refl eq_refl).
Defined.

Lemma two_ticks_send_number_zero_twice :
  let text := Text ("Simulated message: #" +:+ pretty (sendCounter DemoMore.sending)) in
  exists st' w',
    run (P := Demo.packages)
      (DemoMore.script_of (Demo.send_n 3) Amqp 3 MAX_SAFE_INTEGER)
      DemoMore.sending [SendTick; SendTick] Demo.fresh = (Ret st', w')
    /\ net w'
       = (net Demo.fresh
          ++ [SendEvent
                (Envelope
                   (mkMessage text
                      (Some (uuid_v4 (Packages := Demo.packages) (entropy Demo.fresh)))
                      None));
              SendEvent
                (Envelope
                   (mkMessage text
                      (Some (uuid_v4 (Packages := Demo.packages)
                               (S (entropy Demo.fresh))))
                      None))])%list
    /\ sends_pending st' = S (S (sends_pending DemoMore.sending))
    /\ sendCounter st' = sendCounter DemoMore.sending.
Proof.
  exact (two_unacknowledged_ticks_send_the_same_text (P := Demo.packages)
           (DemoMore.script_of (Demo.send_n 3) Amqp 3 MAX_SAFE_INTEGER)
           DemoMore.sending Demo.fresh eq_refl eq_refl).
Defined.

Lemma the_session_file_of_a_linux_user :
  session_file (P := Demo.packages) Demo.fresh = Some "/home/user/.iothub-explorer".
Proof.
  exact (proj1 (proj2 (the_session_file_of_each_platform (P := Demo.packages)
                         Demo.fresh)) eq_refl).
Defined.

(** Three sends, one at a time: once the connection is open, three ticks
    with their acknowledgements send three messages and stop the timer
    without closing anything; nothing else being requested, the next
    completion check calls [client.close].  With [--receive] as well,
    the completion check that follows the only send closes nothing. *)
Lemma three_sends_one_at_a_time :
  (exists st' w',
     exec (P := Demo.packages) (Demo.send_n 3)
       ([Demo.found; Opened None] ++ ticks 3)%list Demo.fresh = (Ret st', w')
     /\ sent (net w') = 3
     /\ sendCounter st' = 3
     /\ sendItv st' = false
     /\ sendRunning st' = false
     /\ closed (net w') = 0)
  /\ (exists st' w',
        exec (P := Demo.packages) (Demo.send_n 3)
          ((Demo.found :: Opened None :: ticks 3) ++ [TaskTick])%list Demo.fresh
        = (Ret st', w')
        /\ closed (net w') = 1)
  /\ (exists st' w',
        exec (P := Demo.packages) (DemoMore.send_and_receive 1)
          ((Demo.found :: Opened None :: ticks 1) ++ [TaskTick])%list Demo.fresh
        = (Ret st', w')
        /\ sendRunning st' = false
        /\ receiveRunning st' = true
        /\ closed (net w') = 0).
Proof.
  split; [ | split].
  - pose proof (send_count_is_honoured (P := Demo.packages) (Demo.send_n 3)
                  [Demo.found; Opened None] Demo.fresh 3
                  eq_refl ltac:(lia) eq_refl eq_refl eq_refl) as H.
    cbv zeta in H. destruct H as [_ H].
    assert (E0 : fst (exec (P := Demo.packages) (Demo.send_n 3)
                        [Demo.found; Opened None] Demo.fresh)
                 = Ret DemoMore.sending) by (vm_compute; reflexivity).
    destruct (H _ E0 (conj eq_refl eq_refl)) as (_ & _ & _ & _ & Pr & _).
    destruct (Pr eq_refl) as (st' & w' & E & F1 & F2 & F3 & F4 & _ & _ & F7).
    exists st', w'. repeat split;
      [exact E | exact F1 | exact F2 | exact F3 | exact F4 | ].
    rewrite F7. vm_compute. reflexivity.
  - pose proof (send_count_is_honoured (P := Demo.packages) (Demo.send_n 3)
                  (Demo.found :: Opened None :: ticks 3) Demo.fresh 3
                  eq_refl ltac:(lia) eq_refl eq_refl eq_refl) as H.
    cbv zeta in H. destruct H as [_ H].
    assert (E0 : fst (exec (P := Demo.packages) (Demo.send_n 3)
                        (Demo.found :: Opened None :: ticks 3) Demo.fresh)
                 = Ret (set_sendCounter 3 (set_taskItv true (idle (Some Demo.device_cs)))))
      by (vm_compute; reflexivity).
    destruct (H _ E0 (conj eq_refl eq_refl)) as (_ & _ & _ & _ & _ & _ & Cl).
    eexists _, _. split; [exact (Cl eq_refl eq_refl eq_refl) | ].
    vm_compute. reflexivity.
  - pose proof (send_count_is_honoured (P := Demo.packages)
                  (DemoMore.send_and_receive 1)
                  (Demo.found :: Opened None :: ticks 1) Demo.fresh 1
                  eq_refl ltac:(lia) eq_refl eq_refl eq_refl) as H.
    cbv zeta in H. destruct H as [_ H].
    assert (E0 : fst (exec (P := Demo.packages) (DemoMore.send_and_receive 1)
                        (Demo.found :: Opened None :: ticks 1) Demo.fresh)
                 = Ret DemoMore.sent_and_listening) by (vm_compute; reflexivity).
    destruct (H _ E0 (conj eq_refl eq_refl)) as (_ & _ & _ & _ & _ & Wait & _).
    eexists _, _. split; [exact (Wait (or_introl eq_refl)) | ].
    split; [reflexivity | split; [reflexivity | vm_compute; reflexivity]].
Defined.

End MoreExamples.
